(** * Queezy backend: scoring, room store and game flow

    A shallow embedding of the server-side quiz engine
    ([src/services/scoreService.ts], [src/services/roomService.ts],
    [src/services/gameService.ts] and the socket handlers) together with the
    properties its specification states about it.

    Conventions of the embedding.
    - A JavaScript [number] that the program only ever uses as an integer
      (scores, streaks, indices, millisecond timestamps, second counts) is a
      [Z].  The one computation that leaves the integers, the time ratio of
      [calculatePoints], is carried out in IEEE-754 binary64 ([float]),
      exactly as the engine does.
    - The Redis store is a finite map from room codes to room records; the
      JSON round trip of [getRoom]/[updateRoom] is the identity on records.
    - An [async] method is run to completion: a handler or a timer callback
      is one atomic transition of the world.  Rooms do not expire while the
      process is observed. *)

From Stdlib Require Import ZArith List Bool Ascii String Lia Sorted Permutation.
From Stdlib Require Import Floats.PrimFloat Floats.FloatOps Floats.SpecFloat
  Floats.FloatAxioms.
From Stdlib Require Import Numbers.Cyclic.Int63.Uint63.
From stdpp Require Import gmap strings pretty list.

Local Open Scope Z_scope.
Set Warnings "-register-all".
Set Default Proof Using "Type".

(** ** Game types ([src/types/game.ts]) *)

Inductive GamePhase :=
| lobby | starting | question | answering | reveal
| winner_jingle | leaderboard | final | final_results.

Inductive AnswerOption := OptA | OptB | OptC | OptD.

Inductive Difficulty := easy | medium | hard | mixed.

#[global] Instance GamePhase_eq_dec : EqDecision GamePhase.
Proof. solve_decision. Defined.

#[global] Instance AnswerOption_eq_dec : EqDecision AnswerOption.
Proof. solve_decision. Defined.

Module Player.
Record t := mk {
  id : string;
  name : string;
  avatar : string;
  score : Z;
  streak : Z;
  jingleId : option string;
  isConnected : bool;
  isHost : option bool;
  isReady : option bool;
}.
End Player.
Abbreviation Player := Player.t.

Module Options.
Record t := mk { A : string; B : string; C : string; D : string }.
End Options.

Module Question.
Record t := mk {
  id : string;
  text : string;
  options : Options.t;
  correctAnswer : AnswerOption;
  timeLimit : option Z;
  category : option string;
  difficulty : option Difficulty;
  imageUrl : option string;
  isAIGenerated : option bool;
}.
End Question.
Abbreviation Question := Question.t.

Module Answer.
Record t := mk {
  playerId : string;
  questionIndex : Z;
  answer : AnswerOption;
  timestamp : Z;
  timeElapsed : Z;
}.
End Answer.
Abbreviation Answer := Answer.t.

Module RoomSettings.
Record t := mk {
  questionCount : Z;
  timeLimit : Z;
  difficulty : Difficulty;
  category : string;
  categoryName : option string;
  maxPlayers : Z;
  minPlayers : Z;
}.
End RoomSettings.
Abbreviation RoomSettings := RoomSettings.t.

Module Room.
Record t := mk {
  code : string;
  tvSocketId : string;
  phase : GamePhase;
  players : list Player;
  questions : list Question;
  currentQuestionIndex : Z;
  currentAnswers : option (list Answer);
  questionStartTime : option Z;
  settings : RoomSettings;
  createdAt : string;
}.
End Room.
Abbreviation Room := Room.t.

(** ** The JavaScript operations the engine relies on *)

Module JS.

(** An integer-valued [number] as a binary64 value (exact below 2^53). *)
Definition num (n : Z) : float :=
  match n with
  | Z0 => 0%float
  | Zpos _ => PrimFloat.of_uint63 (Uint63.of_Z n)
  | Zneg p => PrimFloat.opp (PrimFloat.of_uint63 (Uint63.of_Z (Zpos p)))
  end.

(** [Math.max(0, x)]: a NaN argument is returned as is. *)
Definition Math_max0 (x : float) : float :=
  if PrimFloat.is_nan x then x
  else if PrimFloat.ltb 0%float x then x else 0%float.

(** [Math.floor] of a finite binary64 value, read back as an integer.
    A finite value is [±m·2^e]; shifting the signed mantissa by [e]
    rounds towards minus infinity.  NaN and the infinities have no
    integer value and are mapped to 0 here; in [calculatePoints] they
    only arise from a time limit of 0. *)
Definition Math_floor (x : float) : Z :=
  match Prim2SF x with
  | S754_finite s m e => Z.shiftl (if s then Zneg m else Zpos m) e
  | _ => 0
  end.

(** [a || b] on numbers, [a] possibly [undefined]: 0 and [undefined] are
    falsy. *)
Definition or_num (a : option Z) (b : Z) : Z :=
  match a with
  | Some n => if n =? 0 then b else n
  | None => b
  end.

(** [arr[i]] for a numeric index. *)
Definition index {T} (l : list T) (i : Z) : option T :=
  if i <? 0 then None else l !! Z.to_nat i.

(** [Array.prototype.sort(cmp)].  The language guarantees a stable sort;
    with a consistent comparator its result is the one of this insertion
    sort: an element moves behind a later one only when [cmp] is
    positive. *)
Fixpoint sort_insert {T} (cmp : T -> T -> Z) (x : T) (l : list T) : list T :=
  match l with
  | [] => [x]
  | y :: l' => if cmp x y <=? 0 then x :: l else y :: sort_insert cmp x l'
  end.

Fixpoint sort {T} (cmp : T -> T -> Z) (l : list T) : list T :=
  match l with
  | [] => []
  | x :: l' => sort_insert cmp x (sort cmp l')
  end.

End JS.

(** ** Record updates

    The services mutate a parsed room in place and write it back; each
    assignment to a field is one of these functional updates. *)

Module PlayerUpd.
Import Player.
Definition with_id (v : string) (p : Player) : Player :=
  mk v (name p) (avatar p) (score p) (streak p) (jingleId p)
     (isConnected p) (isHost p) (isReady p).
Definition with_score (v : Z) (p : Player) : Player :=
  mk (id p) (name p) (avatar p) v (streak p) (jingleId p)
     (isConnected p) (isHost p) (isReady p).
Definition with_streak (v : Z) (p : Player) : Player :=
  mk (id p) (name p) (avatar p) (score p) v (jingleId p)
     (isConnected p) (isHost p) (isReady p).
Definition with_jingleId (v : option string) (p : Player) : Player :=
  mk (id p) (name p) (avatar p) (score p) (streak p) v
     (isConnected p) (isHost p) (isReady p).
Definition with_isConnected (v : bool) (p : Player) : Player :=
  mk (id p) (name p) (avatar p) (score p) (streak p) (jingleId p)
     v (isHost p) (isReady p).
Definition with_isReady (v : option bool) (p : Player) : Player :=
  mk (id p) (name p) (avatar p) (score p) (streak p) (jingleId p)
     (isConnected p) (isHost p) v.
End PlayerUpd.

Module SettingsUpd.
Import RoomSettings.
Definition with_category (v : string) (s : RoomSettings) : RoomSettings :=
  mk (questionCount s) (timeLimit s) (difficulty s) v (categoryName s)
     (maxPlayers s) (minPlayers s).
Definition with_categoryName (v : option string) (s : RoomSettings) : RoomSettings :=
  mk (questionCount s) (timeLimit s) (difficulty s) (category s) v
     (maxPlayers s) (minPlayers s).
End SettingsUpd.

(** [Partial<RoomSettings>]: every field may be absent. *)
Module PartialSettings.
Record t := mk {
  questionCount : option Z;
  timeLimit : option Z;
  difficulty : option Difficulty;
  category : option string;
  categoryName : option string;
  maxPlayers : option Z;
  minPlayers : option Z;
}.

(** [{ ...base, ...partial }] *)
Definition spread (base : RoomSettings) (p : t) : RoomSettings :=
  RoomSettings.mk
    (default (RoomSettings.questionCount base) (questionCount p))
    (default (RoomSettings.timeLimit base) (timeLimit p))
    (default (RoomSettings.difficulty base) (difficulty p))
    (default (RoomSettings.category base) (category p))
    (match categoryName p with
     | Some n => Some n
     | None => RoomSettings.categoryName base
     end)
    (default (RoomSettings.maxPlayers base) (maxPlayers p))
    (default (RoomSettings.minPlayers base) (minPlayers p)).
End PartialSettings.

Module RoomUpd.
Import Room.
Definition with_phase (v : GamePhase) (r : Room) : Room :=
  mk (code r) (tvSocketId r) v (players r) (questions r)
     (currentQuestionIndex r) (currentAnswers r) (questionStartTime r)
     (settings r) (createdAt r).
Definition with_players (v : list Player) (r : Room) : Room :=
  mk (code r) (tvSocketId r) (phase r) v (questions r)
     (currentQuestionIndex r) (currentAnswers r) (questionStartTime r)
     (settings r) (createdAt r).
Definition with_questions (v : list Question) (r : Room) : Room :=
  mk (code r) (tvSocketId r) (phase r) (players r) v
     (currentQuestionIndex r) (currentAnswers r) (questionStartTime r)
     (settings r) (createdAt r).
Definition with_currentQuestionIndex (v : Z) (r : Room) : Room :=
  mk (code r) (tvSocketId r) (phase r) (players r) (questions r)
     v (currentAnswers r) (questionStartTime r)
     (settings r) (createdAt r).
Definition with_currentAnswers (v : option (list Answer)) (r : Room) : Room :=
  mk (code r) (tvSocketId r) (phase r) (players r) (questions r)
     (currentQuestionIndex r) v (questionStartTime r)
     (settings r) (createdAt r).
Definition with_questionStartTime (v : option Z) (r : Room) : Room :=
  mk (code r) (tvSocketId r) (phase r) (players r) (questions r)
     (currentQuestionIndex r) (currentAnswers r) v
     (settings r) (createdAt r).
Definition with_settings (v : RoomSettings) (r : Room) : Room :=
  mk (code r) (tvSocketId r) (phase r) (players r) (questions r)
     (currentQuestionIndex r) (currentAnswers r) (questionStartTime r)
     v (createdAt r).
End RoomUpd.

(** [players.find(pred)] followed by assignments to the found object: the
    first player satisfying [pred] is updated in place. *)
Fixpoint update_first {T} (pred : T -> bool) (f : T -> T) (l : list T) : list T :=
  match l with
  | [] => []
  | x :: l' => if pred x then f x :: l' else x :: update_first pred f l'
  end.

(** [String.prototype.toLowerCase] on the ASCII letters a player name may
    contain. *)
Definition lower_ascii (c : ascii) : ascii :=
  let n := nat_of_ascii c in
  if ((65 <=? n)%nat && (n <=? 90)%nat)%bool then ascii_of_nat (n + 32) else c.

Fixpoint toLowerCase (s : string) : string :=
  match s with
  | EmptyString => EmptyString
  | String c s' => String (lower_ascii c) (toLowerCase s')
  end.

(** ** Event payloads

    What [io.to(channel).emit(event, payload)] puts on the wire is the JSON
    serialisation of an object literal; a field whose value is [undefined]
    is dropped by the serialiser. *)

Inductive JSON :=
| JNull
| JBool (b : bool)
| JNum (n : Z)
| JStr (s : string)
| JArr (items : list JSON)
| JObj (fields : list (string * JSON)).

Module Json.

(** Does some object inside [j] have a field named [k]? *)
Fixpoint mentions (k : string) (j : JSON) : bool :=
  match j with
  | JArr items => existsb (mentions k) items
  | JObj fields =>
      existsb (fun kv => String.eqb k (fst kv) || mentions k (snd kv))%bool fields
  | _ => false
  end.

(** The value of field [k] of an object. *)
Definition field (k : string) (j : JSON) : option JSON :=
  match j with
  | JObj fields => snd <$> List.find (fun kv => String.eqb k (fst kv)) fields
  | _ => None
  end.

(** An object literal some of whose fields may be [undefined]. *)
Definition obj (fields : list (string * option JSON)) : JSON :=
  JObj (omap (fun kv => pair (fst kv) <$> snd kv) fields).

Definition answerOption (a : AnswerOption) : JSON :=
  JStr match a with OptA => "A" | OptB => "B" | OptC => "C" | OptD => "D" end.

Definition phase (p : GamePhase) : JSON :=
  JStr match p with
       | lobby => "lobby" | starting => "starting" | question => "question"
       | answering => "answering" | reveal => "reveal"
       | winner_jingle => "winner-jingle" | leaderboard => "leaderboard"
       | final => "final" | final_results => "final-results"
       end.

Definition player (p : Player) : JSON :=
  obj [("id", Some (JStr (Player.id p)));
       ("name", Some (JStr (Player.name p)));
       ("avatar", Some (JStr (Player.avatar p)));
       ("score", Some (JNum (Player.score p)));
       ("streak", Some (JNum (Player.streak p)));
       ("jingleId", JStr <$> Player.jingleId p);
       ("isConnected", Some (JBool (Player.isConnected p)));
       ("isHost", JBool <$> Player.isHost p);
       ("isReady", JBool <$> Player.isReady p)].

Definition options (o : Options.t) : JSON :=
  JObj [("A", JStr (Options.A o)); ("B", JStr (Options.B o));
        ("C", JStr (Options.C o)); ("D", JStr (Options.D o))].

Definition difficulty (d : Difficulty) : JSON :=
  JStr match d with
       | easy => "easy" | medium => "medium" | hard => "hard" | mixed => "mixed"
       end.

Definition settings (s : RoomSettings) : JSON :=
  obj [("questionCount", Some (JNum (RoomSettings.questionCount s)));
       ("timeLimit", Some (JNum (RoomSettings.timeLimit s)));
       ("difficulty", Some (difficulty (RoomSettings.difficulty s)));
       ("category", Some (JStr (RoomSettings.category s)));
       ("categoryName", JStr <$> RoomSettings.categoryName s);
       ("maxPlayers", Some (JNum (RoomSettings.maxPlayers s)));
       ("minPlayers", Some (JNum (RoomSettings.minPlayers s)))].

End Json.

(** ** The process state

    [redis] holds the serialised rooms under their codes; [timers] and
    [timerIntervals] are the two maps of [GameService]; [startDelays] are
    the timeouts the [game:start] handler arms without keeping a handle;
    [emitted] is everything sent with [io.to(..).emit], oldest first, each
    entry together with the phase the addressed room had in the store at
    that moment. *)

Inductive TimerCallback :=
| QuestionTimeout        (* armed by showQuestion *)
| AdvanceToNextQuestion. (* armed by questionTimeout *)

Record Timeout := mkTimeout { fireAt : Z; callback : TimerCallback }.

Record Interval := mkInterval { timeRemaining : Z; nextTickAt : Z }.

Record Emitted := mkEmitted {
  channel : string;
  phaseAt : option GamePhase;
  event : string;
  payload : JSON;
}.

Record World := mkWorld {
  redis : gmap string Room;
  timers : gmap string Timeout;
  timerIntervals : gmap string Interval;
  startDelays : list (Z * string);
  emitted : list Emitted;
}.

Definition set_redis (v : gmap string Room) (w : World) : World :=
  mkWorld v (timers w) (timerIntervals w) (startDelays w) (emitted w).
Definition set_timers (v : gmap string Timeout) (w : World) : World :=
  mkWorld (redis w) v (timerIntervals w) (startDelays w) (emitted w).
Definition set_timerIntervals (v : gmap string Interval) (w : World) : World :=
  mkWorld (redis w) (timers w) v (startDelays w) (emitted w).
Definition set_startDelays (v : list (Z * string)) (w : World) : World :=
  mkWorld (redis w) (timers w) (timerIntervals w) v (emitted w).
Definition set_emitted (v : list Emitted) (w : World) : World :=
  mkWorld (redis w) (timers w) (timerIntervals w) (startDelays w) v.

Definition initial : World := mkWorld ∅ ∅ ∅ [] [].

(** ** Promises

    An [async] function either resolves with a value or rejects with an
    error; what it wrote before rejecting stays written. *)

Inductive Result (T : Type) :=
| Ok (v : T)
| Throw (msg : string).
Arguments Ok {T} v.
Arguments Throw {T} msg.

Definition M (T : Type) : Type := World -> Result T * World.

#[global] Instance M_ret : MRet M := fun T v w => (Ok v, w).

#[global] Instance M_bind : MBind M := fun T U f m w =>
  match m w with
  | (Ok v, w') => f v w'
  | (Throw e, w') => (Throw e, w')
  end.

Definition throw {T} (msg : string) : M T := fun w => (Throw msg, w).

(** [try { m } catch (error) { h }] *)
Definition try_catch {T} (m : M T) (h : string -> M T) : M T := fun w =>
  match m w with
  | (Ok v, w') => (Ok v, w')
  | (Throw e, w') => h e w'
  end.

Definition get : M World := fun w => (Ok w, w).
Definition modify (f : World -> World) : M unit := fun w => (Ok tt, f w).

(** [for (const x of l) { await body(x) }] *)
Fixpoint for_each {T} (l : list T) (body : T -> M unit) : M unit :=
  match l with
  | [] => mret tt
  | x :: l' => body x ;; for_each l' body
  end.

(** [io.to(channel).emit(event, payload)] *)
Definition emit (ch ev : string) (p : JSON) : M unit :=
  modify (fun w =>
    set_emitted
      (emitted w ++ [mkEmitted ch (Room.phase <$> redis w !! ch) ev p]) w).

Definition run {T} (m : M T) (w : World) : World := snd (m w).
Definition result {T} (m : M T) (w : World) : Result T := fst (m w).

(** ** Room service ([src/services/roomService.ts])

    Logging, the TTL of the keys and the [active:rooms] side set are not
    part of the model. *)

Module RoomService.

(** The draw loop of [createRoom]: at most ten codes are drawn, the first
    free one is taken. *)
Fixpoint drawCode (gen : nat -> string) (store : gmap string Room)
    (attempts fuel : nat) : option string :=
  match fuel with
  | O => None
  | S fuel' =>
      let roomCode := gen attempts in
      match store !! roomCode with
      | None => Some roomCode
      | Some _ => drawCode gen store (S attempts) fuel'
      end
  end.

Definition defaultSettings : RoomSettings :=
  RoomSettings.mk 10 20 mixed "" (Some "") 50 2.

Definition createRoom (tvSocketId : string) (gen : nat -> string)
    (createdAt : string) : M Room :=
  w ← get;
  match drawCode gen (redis w) 0 10 with
  | None => throw "Failed to generate unique room code"
  | Some roomCode =>
      let room :=
        Room.mk roomCode tvSocketId lobby [] [] 0 (Some []) None
                defaultSettings createdAt in
      modify (fun w => set_redis (<[roomCode := room]> (redis w)) w) ;;
      mret room
  end.

Definition getRoom (roomCode : string) : M (option Room) :=
  w ← get; mret (redis w !! roomCode).

Definition updateRoom (roomCode : string) (room : Room) : M unit :=
  modify (fun w => set_redis (<[roomCode := room]> (redis w)) w).

Definition deleteRoom (roomCode : string) : M unit :=
  modify (fun w => set_redis (delete roomCode (redis w)) w).

Definition addPlayer (roomCode : string) (player : Player) : M Player :=
  o ← getRoom roomCode;
  match o with
  | None => throw "Room not found"
  | Some room =>
      let existingName :=
        List.find (fun p => String.eqb (toLowerCase (Player.name p))
                                       (toLowerCase (Player.name player)))
                  (Room.players room) in
      match existingName with
      | Some _ => throw "Name already taken"
      | None =>
          updateRoom roomCode
            (RoomUpd.with_players (Room.players room ++ [player]) room) ;;
          mret player
      end
  end.

Definition removePlayer (roomCode playerId : string) : M unit :=
  o ← getRoom roomCode;
  match o with
  | None => mret tt
  | Some room =>
      updateRoom roomCode
        (RoomUpd.with_players
           (List.filter (fun p => negb (String.eqb (Player.id p) playerId))
                        (Room.players room))
           room)
  end.

Definition hasId (playerId : string) (p : Player) : bool :=
  String.eqb (Player.id p) playerId.

Definition setPlayerConnected (roomCode playerId : string)
    (isConnected : bool) : M unit :=
  o ← getRoom roomCode;
  match o with
  | None => mret tt
  | Some room =>
      match List.find (hasId playerId) (Room.players room) with
      | Some _ =>
          updateRoom roomCode
            (RoomUpd.with_players
               (update_first (hasId playerId)
                  (PlayerUpd.with_isConnected isConnected) (Room.players room))
               room)
      | None => mret tt
      end
  end.

Definition updatePlayerSocketId (roomCode oldPlayerId newPlayerId : string)
    : M unit :=
  o ← getRoom roomCode;
  match o with
  | None => mret tt
  | Some room =>
      match List.find (hasId oldPlayerId) (Room.players room) with
      | Some _ =>
          updateRoom roomCode
            (RoomUpd.with_players
               (update_first (hasId oldPlayerId)
                  (fun p => PlayerUpd.with_isConnected true
                              (PlayerUpd.with_id newPlayerId p))
                  (Room.players room))
               room)
      | None => mret tt
      end
  end.

(** [updates.jingleId] and [updates.isReady] are applied when defined. *)
Definition applyPlayerUpdates (jingleId : option string) (isReady : option bool)
    (p : Player) : Player :=
  let p := match jingleId with
           | Some j => PlayerUpd.with_jingleId (Some j) p
           | None => p
           end in
  match isReady with
  | Some b => PlayerUpd.with_isReady (Some b) p
  | None => p
  end.

Definition updatePlayer (roomCode playerId : string)
    (jingleId : option string) (isReady : option bool) : M (option Player) :=
  o ← getRoom roomCode;
  match o with
  | None => mret None
  | Some room =>
      match List.find (hasId playerId) (Room.players room) with
      | None => mret None
      | Some player =>
          updateRoom roomCode
            (RoomUpd.with_players
               (update_first (hasId playerId)
                  (applyPlayerUpdates jingleId isReady) (Room.players room))
               room) ;;
          mret (Some (applyPlayerUpdates jingleId isReady player))
      end
  end.

Definition updateSettings (roomCode : string) (settings : PartialSettings.t)
    : M Room :=
  o ← getRoom roomCode;
  match o with
  | None => throw "Room not found"
  | Some room =>
      let room :=
        RoomUpd.with_settings
          (PartialSettings.spread (Room.settings room) settings) room in
      updateRoom roomCode room ;; mret room
  end.

Definition updateCategory (roomCode categoryId categoryName : string) : M unit :=
  o ← getRoom roomCode;
  match o with
  | None => throw "Room not found"
  | Some room =>
      updateRoom roomCode
        (RoomUpd.with_settings
           (SettingsUpd.with_categoryName (Some categoryName)
              (SettingsUpd.with_category categoryId (Room.settings room)))
           room)
  end.

Definition setQuestions (roomCode : string) (questions : list Question)
    (category : string) : M unit :=
  o ← getRoom roomCode;
  match o with
  | None => throw "Room not found"
  | Some room =>
      updateRoom roomCode
        (RoomUpd.with_currentQuestionIndex 0
           (RoomUpd.with_settings
              (SettingsUpd.with_category category (Room.settings room))
              (RoomUpd.with_questions questions room)))
  end.

Definition updatePhase (roomCode : string) (phase : GamePhase) : M unit :=
  o ← getRoom roomCode;
  match o with
  | None => throw "Room not found"
  | Some room => updateRoom roomCode (RoomUpd.with_phase phase room)
  end.

Definition recordAnswer (roomCode : string) (answer : Answer) : M unit :=
  o ← getRoom roomCode;
  match o with
  | None => throw "Room not found"
  | Some room =>
      updateRoom roomCode
        (RoomUpd.with_currentAnswers
           (Some (default [] (Room.currentAnswers room) ++ [answer])) room)
  end.

Definition applyScore (points : Z) (isCorrect : bool) (p : Player) : Player :=
  let p := PlayerUpd.with_score (Player.score p + points) p in
  if isCorrect then PlayerUpd.with_streak (Player.streak p + 1) p
  else PlayerUpd.with_streak 0 p.

Definition updatePlayerScore (roomCode playerId : string) (points : Z)
    (isCorrect : bool) : M unit :=
  o ← getRoom roomCode;
  match o with
  | None => throw "Room not found"
  | Some room =>
      match List.find (hasId playerId) (Room.players room) with
      | Some _ =>
          updateRoom roomCode
            (RoomUpd.with_players
               (update_first (hasId playerId) (applyScore points isCorrect)
                  (Room.players room))
               room)
      | None => mret tt
      end
  end.

Module LeaderboardEntry.
Record t := mk {
  playerId : string;
  name : string;
  avatar : string;
  score : Z;
  rank : Z;
}.
End LeaderboardEntry.

Definition byScoreDesc (a b : Player) : Z := Player.score b - Player.score a.

(** The sort is in place, on the freshly parsed copy of the room; the
    stored player order is not touched. *)
Definition getLeaderboard (roomCode : string) : M (list LeaderboardEntry.t) :=
  o ← getRoom roomCode;
  match o with
  | None => mret []
  | Some room =>
      mret (imap (fun index p =>
                    LeaderboardEntry.mk (Player.id p) (Player.name p)
                      (Player.avatar p) (Player.score p) (Z.of_nat index + 1))
                 (JS.sort byScoreDesc (Room.players room)))
  end.

Definition clearCurrentAnswers (roomCode : string) : M unit :=
  o ← getRoom roomCode;
  match o with
  | None => throw "Room not found"
  | Some room => updateRoom roomCode (RoomUpd.with_currentAnswers (Some []) room)
  end.

Definition nextQuestion (roomCode : string) : M (bool * Z) :=
  o ← getRoom roomCode;
  match o with
  | None => throw "Room not found"
  | Some room =>
      let room :=
        RoomUpd.with_currentAnswers (Some [])
          (RoomUpd.with_currentQuestionIndex
             (Room.currentQuestionIndex room + 1) room) in
      let hasMore :=
        Room.currentQuestionIndex room <? Z.of_nat (length (Room.questions room)) in
      updateRoom roomCode room ;;
      mret (hasMore, Room.currentQuestionIndex room)
  end.

Definition setQuestionStartTime (roomCode : string) (startTime : Z) : M unit :=
  o ← getRoom roomCode;
  match o with
  | None => throw "Room not found"
  | Some room =>
      updateRoom roomCode (RoomUpd.with_questionStartTime (Some startTime) room)
  end.

Definition resetPlayer (p : Player) : Player :=
  PlayerUpd.with_streak 0 (PlayerUpd.with_score 0 p).

Definition resetRoom (roomCode : string) : M unit :=
  o ← getRoom roomCode;
  match o with
  | None => throw "Room not found"
  | Some room =>
      let room := RoomUpd.with_phase lobby room in
      let room := RoomUpd.with_questions [] room in
      let room := RoomUpd.with_currentQuestionIndex 0 room in
      let room := RoomUpd.with_currentAnswers (Some []) room in
      let room := RoomUpd.with_questionStartTime None room in
      let room := RoomUpd.with_players (map resetPlayer (Room.players room)) room in
      updateRoom roomCode room
  end.

End RoomService.

(** ** Score service ([src/services/scoreService.ts]) *)

Module QuestionResult.
Record t := mk {
  playerId : string;
  answer : option AnswerOption;
  isCorrect : bool;
  pointsEarned : Z;
  newScore : Z;
  streak : Z;
  timeElapsed : Z;
}.
End QuestionResult.
Abbreviation QuestionResult := QuestionResult.t.

Module RankingEntry.
Record t := mk {
  playerId : string;
  name : string;
  avatar : string;
  score : Z;
  rank : Z;
  isWinner : bool;
}.
End RankingEntry.

Module ScoreService.

Definition BASE_POINTS : Z := 1000.
Definition STREAK_BONUS : Z := 100.
Definition MAX_STREAK_BONUS : Z := 500.
Definition TIME_BONUS_MULTIPLIER : float := 0.5%float.

Definition calculatePoints
    (isCorrect : bool) (timeElapsed timeLimit streak : Z) : Z :=
  if negb isCorrect then 0
  else
    let points := BASE_POINTS in
    let timeRatio :=
      JS.Math_max0
        (1 - (JS.num timeElapsed / (JS.num timeLimit * 1000)))%float in
    let timeBonus :=
      JS.Math_floor
        (JS.num BASE_POINTS * timeRatio * TIME_BONUS_MULTIPLIER)%float in
    let points := points + timeBonus in
    let streakBonus := Z.min (streak * STREAK_BONUS) MAX_STREAK_BONUS in
    let points := points + streakBonus in
    points.

(** [answer?.answer === question.correctAnswer] *)
Definition answeredCorrectly (answer : option Answer) (question : Question) : bool :=
  match answer with
  | Some a => bool_decide (Answer.answer a = Question.correctAnswer question)
  | None => false
  end.

(** The body of the loop over [room.players]. *)
Definition resultFor (question : Question) (answers : list Answer)
    (timeLimit : Z) (player : Player) : QuestionResult :=
  let answer :=
    List.find (fun a => String.eqb (Answer.playerId a) (Player.id player)) answers in
  let isCorrect := answeredCorrectly answer question in
  let currentStreak := if isCorrect then Player.streak player + 1 else 0 in
  let points :=
    calculatePoints isCorrect
      (JS.or_num (Answer.timeElapsed <$> answer) (timeLimit * 1000))
      timeLimit
      (Player.streak player) in
  QuestionResult.mk
    (Player.id player)
    (Answer.answer <$> answer)
    isCorrect
    points
    (Player.score player + points)
    currentStreak
    (JS.or_num (Answer.timeElapsed <$> answer) 0).

Definition byPointsDesc (a b : QuestionResult) : Z :=
  QuestionResult.pointsEarned b - QuestionResult.pointsEarned a.

Definition calculateQuestionResults (roomCode : string) (question : Question)
    (answers : list Answer) : M (list QuestionResult) :=
  o ← RoomService.getRoom roomCode;
  match o with
  | None => throw "Room not found"
  | Some room =>
      let timeLimit :=
        JS.or_num (Question.timeLimit question)
                  (RoomSettings.timeLimit (Room.settings room)) in
      let results := map (resultFor question answers timeLimit) (Room.players room) in
      mret (JS.sort byPointsDesc results)
  end.

Definition calculateFinalRankings (players : list Player) : list RankingEntry.t :=
  let sorted := JS.sort RoomService.byScoreDesc players in
  imap (fun index player =>
          RankingEntry.mk (Player.id player) (Player.name player)
            (Player.avatar player) (Player.score player)
            (Z.of_nat index + 1) (index =? 0)%nat)
       sorted.

End ScoreService.

(** ** The point formula as the specification words it *)

Module Spec.

Definition BASE : Z := 1000.
Definition STREAK_STEP : Z := 100.
Definition STREAK_CAP : Z := 500.
Definition TIME_MULT : float := 0.5%float.

(** [timeRatio = max(0, 1 − elapsedMs / (timeLimitSec × 1000))] *)
Definition timeRatio (elapsedMs timeLimitSec : Z) : float :=
  JS.Math_max0 (1 - JS.num elapsedMs / (JS.num timeLimitSec * 1000))%float.

(** [timeBonus = floor(BASE × timeRatio × TIME_MULT)] *)
Definition timeBonus (elapsedMs timeLimitSec : Z) : Z :=
  JS.Math_floor (JS.num BASE * timeRatio elapsedMs timeLimitSec * TIME_MULT)%float.

(** [streakBonus = min(priorStreak × STREAK_STEP, STREAK_CAP)] *)
Definition streakBonus (priorStreak : Z) : Z :=
  Z.min (priorStreak * STREAK_STEP) STREAK_CAP.

Definition points (correct : bool) (elapsedMs timeLimitSec priorStreak : Z) : Z :=
  if correct
  then BASE + timeBonus elapsedMs timeLimitSec + streakBonus priorStreak
  else 0.

(** The same bonus over the rationals: the largest integer not above
    [500 · (1 − elapsedMs / (timeLimitSec · 1000))], and 0 once the limit
    is reached. *)
Definition exactTimeBonus (elapsedMs timeLimitSec : Z) : Z :=
  if timeLimitSec * 1000 <=? elapsedMs then 0
  else 500 * (timeLimitSec * 1000 - elapsedMs) / (timeLimitSec * 1000).

End Spec.

(** ** Game service ([src/services/gameService.ts])

    [Date.now()] and the clock of [setTimeout] are the argument [now].
    The writes to the session archive (Prisma) are best effort, swallowed on
    failure and never read back; they are left out.  [startCountdown] has
    no caller among the handlers and is left out as well. *)

Module GameService.

Definition WINNER_JINGLE_DURATION : Z := 3000.

Definition standingsJson (standings : list RoomService.LeaderboardEntry.t) : JSON :=
  JArr (map (fun e =>
               JObj [("playerId", JStr (RoomService.LeaderboardEntry.playerId e));
                     ("name", JStr (RoomService.LeaderboardEntry.name e));
                     ("avatar", JStr (RoomService.LeaderboardEntry.avatar e));
                     ("score", JNum (RoomService.LeaderboardEntry.score e));
                     ("rank", JNum (RoomService.LeaderboardEntry.rank e))])
            standings).

Definition resultsJson (results : list QuestionResult) : JSON :=
  JArr (map (fun r =>
               JObj [("playerId", JStr (QuestionResult.playerId r));
                     ("answer", from_option Json.answerOption JNull
                                  (QuestionResult.answer r));
                     ("isCorrect", JBool (QuestionResult.isCorrect r));
                     ("pointsEarned", JNum (QuestionResult.pointsEarned r));
                     ("newScore", JNum (QuestionResult.newScore r));
                     ("streak", JNum (QuestionResult.streak r))])
            results).

Definition clearTimerInterval (roomCode : string) : M unit :=
  modify (fun w => set_timerIntervals (delete roomCode (timerIntervals w)) w).

Definition clearTimer (roomCode : string) : M unit :=
  modify (fun w => set_timers (delete roomCode (timers w)) w) ;;
  clearTimerInterval roomCode.

Definition startGame (roomCode : string) : M unit :=
  o ← RoomService.getRoom roomCode;
  match o with
  | None => throw "Room not found"
  | Some room => RoomService.updatePhase roomCode starting
  end.

Definition endGame (roomCode : string) : M unit :=
  clearTimer roomCode ;;
  o ← RoomService.getRoom roomCode;
  match o with
  | None => mret tt
  | Some room =>
      RoomService.updatePhase roomCode final ;;
      standings ← RoomService.getLeaderboard roomCode;
      let winner := head standings in
      emit roomCode "game:finished"
        (Json.obj
           [("standings", Some (standingsJson standings));
            ("winner",
             (fun w =>
                Json.obj
                  [("playerId", Some (JStr (RoomService.LeaderboardEntry.playerId w)));
                   ("name", Some (JStr (RoomService.LeaderboardEntry.name w)));
                   ("avatar", Some (JStr (RoomService.LeaderboardEntry.avatar w)));
                   ("score", Some (JNum (RoomService.LeaderboardEntry.score w)));
                   ("jingleId",
                    match List.find
                            (RoomService.hasId (RoomService.LeaderboardEntry.playerId w))
                            (Room.players room) with
                    | Some p => JStr <$> Player.jingleId p
                    | None => None
                    end)])
             <$> winner)])
  end.

Definition questionPayload (questionIndex : Z) (room : Room) (qn : Question)
    (timeLimit : Z) : JSON :=
  Json.obj
    [("questionIndex", Some (JNum questionIndex));
     ("totalQuestions", Some (JNum (Z.of_nat (length (Room.questions room)))));
     ("question",
      Some (Json.obj
              [("text", Some (JStr (Question.text qn)));
               ("options", Some (Json.options (Question.options qn)));
               ("timeLimit", Some (JNum timeLimit));
               ("imageUrl", JStr <$> Question.imageUrl qn)]));
     ("timeLimit", Some (JNum timeLimit))].

Definition showQuestion (now : Z) (roomCode : string) : M unit :=
  o ← RoomService.getRoom roomCode;
  match o with
  | None => throw "Room not found"
  | Some room =>
      let questionIndex := Room.currentQuestionIndex room in
      match JS.index (Room.questions room) questionIndex with
      | None => endGame roomCode
      | Some qn =>
          RoomService.clearCurrentAnswers roomCode ;;
          let startTime := now in
          RoomService.setQuestionStartTime roomCode startTime ;;
          RoomService.updatePhase roomCode question ;;
          let timeLimit := RoomSettings.timeLimit (Room.settings room) in
          emit roomCode "game:question"
               (questionPayload questionIndex room qn timeLimit) ;;
          clearTimer roomCode ;;
          let timeRemaining := timeLimit in
          modify (fun w =>
            set_timerIntervals
              (<[roomCode := mkInterval timeRemaining (now + 1000)]>
                 (timerIntervals w)) w) ;;
          modify (fun w =>
            set_timers
              (<[roomCode := mkTimeout (now + (timeLimit + 1) * 1000)
                                       QuestionTimeout]> (timers w)) w)
      end
  end.

(** One firing of the interval armed by [showQuestion]. *)
Definition timerTick (roomCode : string) : M unit :=
  w ← get;
  match timerIntervals w !! roomCode with
  | None => mret tt
  | Some iv =>
      let timeRemaining := timeRemaining iv - 1 in
      emit roomCode "timer:tick" (JObj [("timeRemaining", JNum timeRemaining)]) ;;
      if timeRemaining <=? 0 then
        clearTimerInterval roomCode ;;
        emit roomCode "timer:end" JNull
      else
        modify (fun w =>
          set_timerIntervals
            (<[roomCode := mkInterval timeRemaining (nextTickAt iv + 1000)]>
               (timerIntervals w)) w)
  end.

Definition currentAnswersFor (room : Room) : list Answer :=
  List.filter
    (fun a => Answer.questionIndex a =? Room.currentQuestionIndex room)
    (default [] (Room.currentAnswers room)).

Definition isWinningResult (r : QuestionResult) : bool :=
  QuestionResult.isCorrect r && (0 <? QuestionResult.pointsEarned r).

Definition revealPayload (qn : Question) (results : list QuestionResult)
    (standings : list RoomService.LeaderboardEntry.t)
    (winner : option (Player * QuestionResult)) : JSON :=
  JObj [("correctAnswer", Json.answerOption (Question.correctAnswer qn));
        ("results", resultsJson results);
        ("standings", standingsJson standings);
        ("questionWinner",
         match winner with
         | Some (winnerPlayer, questionWinner) =>
             Json.obj
               [("playerId", Some (JStr (Player.id winnerPlayer)));
                ("name", Some (JStr (Player.name winnerPlayer)));
                ("avatar", Some (JStr (Player.avatar winnerPlayer)));
                ("pointsEarned",
                 Some (JNum (QuestionResult.pointsEarned questionWinner)));
                ("jingleId", JStr <$> Player.jingleId winnerPlayer)]
         | None => JNull
         end)].

Definition questionTimeout (now : Z) (roomCode : string) : M unit :=
  o ← RoomService.getRoom roomCode;
  match o with
  | None => mret tt
  | Some room =>
      if negb (bool_decide (Room.phase room = question)) then mret tt
      else
        match JS.index (Room.questions room) (Room.currentQuestionIndex room) with
        | None => throw "TypeError: question is undefined"
        | Some qn =>
            let answers := currentAnswersFor room in
            results ← ScoreService.calculateQuestionResults roomCode qn answers;
            for_each results (fun r =>
              RoomService.updatePlayerScore roomCode
                (QuestionResult.playerId r) (QuestionResult.pointsEarned r)
                (QuestionResult.isCorrect r)) ;;
            standings ← RoomService.getLeaderboard roomCode;
            let questionWinner :=
              head (JS.sort ScoreService.byPointsDesc
                      (List.filter isWinningResult results)) in
            let winnerPlayer : option (Player * QuestionResult) :=
              match questionWinner with
              | Some r =>
                  match List.find (RoomService.hasId (QuestionResult.playerId r))
                                  (Room.players room) with
                  | Some p => Some (p, r)
                  | None => None
                  end
              | None => None
              end in
            RoomService.updatePhase roomCode reveal ;;
            emit roomCode "game:reveal"
                 (revealPayload qn results standings winnerPlayer) ;;
            let revealDuration :=
              match winnerPlayer with
              | Some _ => 5000 + WINNER_JINGLE_DURATION
              | None => 5000
              end in
            clearTimer roomCode ;;
            modify (fun w =>
              set_timers
                (<[roomCode := mkTimeout (now + revealDuration)
                                         AdvanceToNextQuestion]> (timers w)) w)
        end
  end.

Definition advanceToNextQuestion (now : Z) (roomCode : string) : M unit :=
  r ← RoomService.nextQuestion roomCode;
  let hasMore := fst (r : bool * Z) in
  if hasMore then showQuestion now roomCode else endGame roomCode.

Definition pauseGame (roomCode : string) : M unit :=
  clearTimer roomCode ;;
  RoomService.updatePhase roomCode lobby.

Definition resumeGame (roomCode : string) : M unit := mret tt.

Definition restartGame (roomCode : string) : M unit :=
  clearTimer roomCode ;;
  RoomService.resetRoom roomCode.

(** What a timeout of the [timers] map runs when it fires. *)
Definition fire (now : Z) (roomCode : string) (cb : TimerCallback) : M unit :=
  match cb with
  | QuestionTimeout =>
      clearTimerInterval roomCode ;; questionTimeout now roomCode
  | AdvanceToNextQuestion => advanceToNextQuestion now roomCode
  end.

End GameService.

(** ** Socket handlers

    A handler receives the event data, the connection's [socket.data] and
    the acknowledgement callback; it is modelled as a computation returning
    what it passes to the callback. *)

Inductive Role := tv | player.

#[global] Instance Role_eq_dec : EqDecision Role.
Proof. solve_decision. Defined.

Module Socket.
Record t := mk {
  id : string;
  role : option Role;
  playerId : option string;
  roomCode : option string;
}.
Definition isTv (s : t) : bool := bool_decide (role s = Some tv).
End Socket.

Definition ackOk (extra : list (string * JSON)) : JSON :=
  JObj (("success", JBool true) :: extra).

Definition ackError (msg : string) : JSON :=
  JObj [("success", JBool false); ("error", JStr msg)].

(** *** Answer handler (the variant that emits both [player:answered] and
    [answer:received]) *)

Module AnswerHandler.

Definition alreadyAnswered (room : Room) (playerId : string) : bool :=
  match List.find
          (fun a => String.eqb (Answer.playerId a) playerId
                    && (Answer.questionIndex a =? Room.currentQuestionIndex room))
          (default [] (Room.currentAnswers room)) with
  | Some _ => true
  | None => false
  end.

Definition connectedCount (room : Room) : Z :=
  Z.of_nat (length (List.filter Player.isConnected (Room.players room))).

(** [updatedRoom.currentAnswers?.filter(a => a.questionIndex ===
    room.currentQuestionIndex).length || 0] *)
Definition answerCountAt (questionIndex : Z) (updatedRoom : Room) : Z :=
  Z.of_nat (length (List.filter (fun a => Answer.questionIndex a =? questionIndex)
                                (default [] (Room.currentAnswers updatedRoom)))).

Definition answerRecord (now : Z) (room : Room) (playerId : string)
    (answer : AnswerOption) (timestamp : option Z) : Answer :=
  Answer.mk playerId (Room.currentQuestionIndex room) answer
            (JS.or_num timestamp now)
            (now - JS.or_num (Room.questionStartTime room) now).

Definition submit (now : Z) (socket : Socket.t) (roomCode : string)
    (answer : option AnswerOption) (timestamp : option Z) : M JSON :=
  try_catch
    (let playerId := default (Socket.id socket) (Socket.playerId socket) in
     match answer with
     | None => mret (ackError "Invalid answer")
     | Some answerData =>
         o ← RoomService.getRoom roomCode;
         match o with
         | None => mret (ackError "Room not found")
         | Some room =>
             if negb (bool_decide (Room.phase room = question)) then
               mret (ackError "Not accepting answers")
             else if alreadyAnswered room playerId then
               mret (ackError "Already answered")
             else
               RoomService.recordAnswer roomCode
                 (answerRecord now room playerId answerData timestamp) ;;
               u ← RoomService.getRoom roomCode;
               match u with
               | None => throw "TypeError: updatedRoom is null"
               | Some updatedRoom =>
                   let connectedPlayers := connectedCount updatedRoom in
                   let answerCount :=
                     answerCountAt (Room.currentQuestionIndex room) updatedRoom in
                   emit roomCode "player:answered"
                     (JObj [("playerId", JStr playerId);
                            ("answeredCount", JNum answerCount);
                            ("totalPlayers", JNum connectedPlayers)]) ;;
                   emit roomCode "answer:received"
                     (JObj [("playerId", JStr playerId);
                            ("answerCount", JNum answerCount);
                            ("totalPlayers", JNum connectedPlayers)]) ;;
                   (if connectedPlayers <=? answerCount then
                      emit roomCode "answer:all-received" (JObj [])
                    else mret tt) ;;
                   mret (ackOk [("accepted", JBool true)])
               end
         end
     end)
    (fun _ => mret (ackError "Failed to submit answer")).

Definition timeoutRevealPayload (qn : Question) (results : list QuestionResult)
    (standings : list RoomService.LeaderboardEntry.t) : JSON :=
  JObj [("correctAnswer", Json.answerOption (Question.correctAnswer qn));
        ("results", GameService.resultsJson results);
        ("standings", GameService.standingsJson standings)].

(** [answer:timeout], sent by the TV. *)
Definition timeout (socket : Socket.t) (roomCode : string) : M JSON :=
  try_catch
    (o ← RoomService.getRoom roomCode;
     match o with
     | None => mret (ackError "Room not found")
     | Some room =>
         if negb (Socket.isTv socket) then
           mret (ackError "Only TV can trigger timeout")
         else
           match JS.index (Room.questions room) (Room.currentQuestionIndex room) with
           | None => throw "TypeError: question is undefined"
           | Some qn =>
               let answers := GameService.currentAnswersFor room in
               results ← ScoreService.calculateQuestionResults roomCode qn answers;
               for_each results (fun r =>
                 RoomService.updatePlayerScore roomCode
                   (QuestionResult.playerId r) (QuestionResult.pointsEarned r)
                   (QuestionResult.isCorrect r)) ;;
               RoomService.updatePhase roomCode reveal ;;
               standings ← RoomService.getLeaderboard roomCode;
               emit roomCode "game:reveal"
                    (timeoutRevealPayload qn results standings) ;;
               mret (ackOk [])
           end
     end)
    (fun _ => mret (ackError "Failed to handle timeout")).

End AnswerHandler.

(** *** Answer handler, the earlier variant: one [answer:received] whose
    count is taken from the room read before the answer was recorded. *)

Module AnswerHandlerV1.

Definition submit (now : Z) (socket : Socket.t) (roomCode : string)
    (answer : option AnswerOption) (timestamp : option Z) : M JSON :=
  try_catch
    (let playerId := default (Socket.id socket) (Socket.playerId socket) in
     match answer with
     | None => mret (ackError "Invalid answer")
     | Some answerData =>
         o ← RoomService.getRoom roomCode;
         match o with
         | None => mret (ackError "Room not found")
         | Some room =>
             if negb (bool_decide (Room.phase room = question)) then
               mret (ackError "Not accepting answers")
             else if AnswerHandler.alreadyAnswered room playerId then
               mret (ackError "Already answered")
             else
               RoomService.recordAnswer roomCode
                 (AnswerHandler.answerRecord now room playerId answerData timestamp) ;;
               emit roomCode "answer:received"
                 (JObj [("playerId", JStr playerId);
                        ("answerCount",
                         JNum (Z.of_nat (length (default [] (Room.currentAnswers room))) + 1));
                        ("totalPlayers", JNum (AnswerHandler.connectedCount room))]) ;;
               u ← RoomService.getRoom roomCode;
               match u with
               | None => throw "TypeError: updatedRoom is null"
               | Some updatedRoom =>
                   let connectedPlayers := AnswerHandler.connectedCount updatedRoom in
                   let answerCount :=
                     AnswerHandler.answerCountAt (Room.currentQuestionIndex room)
                                                 updatedRoom in
                   (if connectedPlayers <=? answerCount then
                      emit roomCode "answer:all-received" (JObj [])
                    else mret tt) ;;
                   mret (ackOk [("accepted", JBool true)])
               end
         end
     end)
    (fun _ => mret (ackError "Failed to submit answer")).

End AnswerHandlerV1.

(** *** Game handler *)

Module GameHandler.

Definition start (now : Z) (socket : Socket.t) (roomCode : string) : M JSON :=
  try_catch
    (o ← RoomService.getRoom roomCode;
     match o with
     | None => mret (ackError "Room not found")
     | Some room =>
         if negb (Socket.isTv socket) then
           mret (ackError "Only host can start game")
         else if Z.of_nat (length (Room.players room))
                 <? RoomSettings.minPlayers (Room.settings room) then
           mret (ackError ("Need at least "
                           +:+ pretty (RoomSettings.minPlayers (Room.settings room))
                           +:+ " players to start"))
         else if (length (Room.questions room) =? 0)%nat then
           mret (ackError "No questions loaded")
         else
           GameService.startGame roomCode ;;
           emit roomCode "game:started"
             (JObj [("phase", JStr "question");
                    ("questionCount", JNum (Z.of_nat (length (Room.questions room))));
                    ("currentQuestion", JNum 0)]) ;;
           modify (fun w =>
             set_startDelays (startDelays w ++ [(now + 2000, roomCode)]) w) ;;
           mret (ackOk [])
     end)
    (fun _ => mret (ackError "Failed to start game")).

Definition nextQuestion (now : Z) (socket : Socket.t) (roomCode : string) : M JSON :=
  try_catch
    (o ← RoomService.getRoom roomCode;
     match o with
     | None => mret (ackError "Room not found")
     | Some room =>
         if negb (Socket.isTv socket) then
           mret (ackError "Only host can control game")
         else
           GameService.showQuestion now roomCode ;;
           mret (ackOk [])
     end)
    (fun _ => mret (ackError "Failed to show next question")).

Definition pause (socket : Socket.t) (roomCode : string) : M JSON :=
  try_catch
    (o ← RoomService.getRoom roomCode;
     match o with
     | None => mret (ackError "Room not found")
     | Some room =>
         if negb (Socket.isTv socket) then mret (ackError "Only host can pause")
         else
           GameService.pauseGame roomCode ;;
           emit roomCode "game:paused" (JObj []) ;;
           mret (ackOk [])
     end)
    (fun _ => mret (ackError "Failed to pause game")).

Definition resume (socket : Socket.t) (roomCode : string) : M JSON :=
  try_catch
    (o ← RoomService.getRoom roomCode;
     match o with
     | None => mret (ackError "Room not found")
     | Some room =>
         if negb (Socket.isTv socket) then mret (ackError "Only host can resume")
         else
           GameService.resumeGame roomCode ;;
           emit roomCode "game:resumed" (JObj []) ;;
           mret (ackOk [])
     end)
    (fun _ => mret (ackError "Failed to resume game")).

Definition endGame (socket : Socket.t) (roomCode : string) : M JSON :=
  try_catch
    (o ← RoomService.getRoom roomCode;
     match o with
     | None => mret (ackError "Room not found")
     | Some room =>
         if negb (Socket.isTv socket) then mret (ackError "Only host can end game")
         else
           GameService.endGame roomCode ;;
           mret (ackOk [])
     end)
    (fun _ => mret (ackError "Failed to end game")).

Definition restart (socket : Socket.t) (roomCode : string) : M JSON :=
  try_catch
    (o ← RoomService.getRoom roomCode;
     match o with
     | None => mret (ackError "Room not found")
     | Some room =>
         if negb (Socket.isTv socket) then mret (ackError "Only host can restart")
         else
           GameService.restartGame roomCode ;;
           emit roomCode "game:restarted" (JObj [("phase", JStr "lobby")]) ;;
           mret (ackOk [])
     end)
    (fun _ => mret (ackError "Failed to restart game")).

End GameHandler.

(** *** Quiz handler

    The question source (catalogue and generator) is outside the engine;
    what it returned is the argument [generated], [None] when it failed.
    [invalid] is the message of the schema check of the request, when it
    did not pass. *)

Module QuizHandler.

Definition generate (socket : Socket.t) (invalid : option string)
    (roomCode category : string) (questionCount : Z)
    (generated : option (list Question)) : M JSON :=
  try_catch
    (match invalid with
     | Some issues => mret (ackError issues)
     | None =>
       o ← RoomService.getRoom roomCode;
       match o with
       | None => mret (ackError "Room not found")
       | Some room =>
           if negb (Socket.isTv socket) then
             mret (ackError "Only host can generate quiz")
           else
             emit roomCode "quiz:generating"
               (JObj [("category", JStr category);
                      ("questionCount", JNum questionCount)]) ;;
             match generated with
             | None => throw "quiz service failed"
             | Some questions =>
                 if (length questions =? 0)%nat then
                   mret (ackError "Failed to generate questions")
                 else
                   RoomService.setQuestions roomCode questions category ;;
                   emit roomCode "quiz:generated"
                     (JObj [("category", JStr category);
                            ("questionCount", JNum (Z.of_nat (length questions)))]) ;;
                   mret (ackOk [("questions", JNum (Z.of_nat (length questions)))])
             end
       end
     end)
    (fun _ =>
       (if String.eqb roomCode "" then mret tt
        else emit roomCode "quiz:error"
               (JObj [("error", JStr "Failed to generate quiz. Please try again.")])) ;;
       mret (ackError "Failed to generate quiz")).

Definition selectCategory (socket : Socket.t)
    (roomCode categoryId categoryName : string) : M JSON :=
  try_catch
    (o ← RoomService.getRoom roomCode;
     match o with
     | None => mret (ackError "Room not found")
     | Some room =>
         if negb (Socket.isTv socket) then
           mret (ackError "Only host can select category")
         else
           RoomService.updateCategory roomCode categoryId categoryName ;;
           emit roomCode "quiz:category-selected"
             (JObj [("categoryId", JStr categoryId);
                    ("categoryName", JStr categoryName)]) ;;
           mret (ackOk [])
     end)
    (fun _ => mret (ackError "Failed to select category")).

(** [x && { x }] spreads nothing for a falsy [x]. *)
Definition truthyNum (x : option Z) : option Z :=
  match x with
  | Some n => if n =? 0 then None else Some n
  | None => None
  end.

Definition setOptions (socket : Socket.t) (roomCode : string)
    (questionCount : option Z) (difficulty : option Difficulty)
    (timeLimit : option Z) : M JSON :=
  try_catch
    (o ← RoomService.getRoom roomCode;
     match o with
     | None => mret (ackError "Room not found")
     | Some room =>
         if negb (Socket.isTv socket) then
           mret (ackError "Only host can set options")
         else
           let s := Room.settings room in
           let newSettings :=
             PartialSettings.mk
               (Some (default (RoomSettings.questionCount s) (truthyNum questionCount)))
               (Some (default (RoomSettings.timeLimit s) (truthyNum timeLimit)))
               (Some (default (RoomSettings.difficulty s) difficulty))
               (Some (RoomSettings.category s))
               (RoomSettings.categoryName s)
               (Some (RoomSettings.maxPlayers s))
               (Some (RoomSettings.minPlayers s)) in
           RoomService.updateSettings roomCode newSettings ;;
           mret (ackOk [("settings", Json.settings (PartialSettings.spread s newSettings))])
     end)
    (fun _ => mret (ackError "Failed to set options")).

End QuizHandler.

(** *** Room handler *)

Module RoomJson.

Definition question (q : Question) : JSON :=
  Json.obj
    [("id", Some (JStr (Question.id q)));
     ("text", Some (JStr (Question.text q)));
     ("options", Some (Json.options (Question.options q)));
     ("correctAnswer", Some (Json.answerOption (Question.correctAnswer q)));
     ("timeLimit", JNum <$> Question.timeLimit q);
     ("category", JStr <$> Question.category q);
     ("difficulty", Json.difficulty <$> Question.difficulty q);
     ("imageUrl", JStr <$> Question.imageUrl q);
     ("isAIGenerated", JBool <$> Question.isAIGenerated q)].

Definition answer (a : Answer) : JSON :=
  JObj [("playerId", JStr (Answer.playerId a));
        ("questionIndex", JNum (Answer.questionIndex a));
        ("answer", Json.answerOption (Answer.answer a));
        ("timestamp", JNum (Answer.timestamp a));
        ("timeElapsed", JNum (Answer.timeElapsed a))].

Definition room (r : Room) : JSON :=
  Json.obj
    [("code", Some (JStr (Room.code r)));
     ("tvSocketId", Some (JStr (Room.tvSocketId r)));
     ("phase", Some (Json.phase (Room.phase r)));
     ("players", Some (JArr (map Json.player (Room.players r))));
     ("questions", Some (JArr (map question (Room.questions r))));
     ("currentQuestionIndex", Some (JNum (Room.currentQuestionIndex r)));
     ("currentAnswers", (fun l => JArr (map answer l)) <$> Room.currentAnswers r);
     ("questionStartTime", JNum <$> Room.questionStartTime r);
     ("settings", Some (Json.settings (Room.settings r)));
     ("createdAt", Some (JStr (Room.createdAt r)))].

End RoomJson.

Module RoomHandler.

Module JoinPlayer.
Record t := mk { name : string; avatar : string; jingleId : option string }.
End JoinPlayer.

Definition asPlayer (socket : Socket.t) (roomCode : string) : Socket.t :=
  Socket.mk (Socket.id socket) (Some player) (Some (Socket.id socket)) (Some roomCode).

Definition create (socket : Socket.t) (gen : nat -> string) (createdAt : string)
    : M (JSON * Socket.t) :=
  try_catch
    (room ← RoomService.createRoom (Socket.id socket) gen createdAt;
     mret (ackOk [("roomCode", JStr (Room.code room)); ("room", RoomJson.room room)],
           Socket.mk (Socket.id socket) (Some tv) (Socket.playerId socket)
                     (Some (Room.code room))))
    (fun _ => mret (ackError "Failed to create room", socket)).

(** Add the connection as a new player: the common tail of [room:join] and
    of a [room:rejoin] that finds no player of that name. *)
Definition joinAsNew (socket : Socket.t) (roomCode : string) (room : Room)
    (name avatar : string) (jingleId : option string) : M (JSON * Socket.t) :=
  if negb (bool_decide (Room.phase room = lobby)) then
    mret (ackError "Game already in progress", socket)
  else if RoomSettings.maxPlayers (Room.settings room)
          <=? Z.of_nat (length (Room.players room)) then
    mret (ackError "Room is full", socket)
  else
    newPlayer ← RoomService.addPlayer roomCode
      (Player.mk (Socket.id socket) name avatar 0 0 jingleId true (Some false) None);
    emit roomCode "room:player-joined"
      (JObj [("player", Json.player newPlayer);
             ("playerCount", JNum (Z.of_nat (length (Room.players room)) + 1))]) ;;
    u ← RoomService.getRoom roomCode;
    mret (Json.obj [("success", Some (JBool true));
                    ("player", Some (Json.player newPlayer));
                    ("room", RoomJson.room <$> u)],
          asPlayer socket roomCode).

Definition join (socket : Socket.t) (roomCode : option string)
    (joining : option JoinPlayer.t) (isTvType nameOk avatarOk : bool)
    : M (JSON * Socket.t) :=
  try_catch
    (match joining with
     | None =>
         if isTvType then
           mret (ackOk [],
                 match roomCode with
                 | Some c => Socket.mk (Socket.id socket) (Socket.role socket)
                                       (Socket.playerId socket) (Some c)
                 | None => socket
                 end)
         else mret (ackError "Room code and player info required", socket)
     | Some p =>
         match roomCode with
         | None => mret (ackError "Room code and player info required", socket)
         | Some roomCode =>
             if negb nameOk then mret (ackError "Invalid player name", socket)
             else if negb avatarOk then mret (ackError "Invalid avatar", socket)
             else
               o ← RoomService.getRoom roomCode;
               match o with
               | None => mret (ackError "Room not found", socket)
               | Some room =>
                   joinAsNew socket roomCode room (JoinPlayer.name p)
                             (JoinPlayer.avatar p) (JoinPlayer.jingleId p)
               end
         end
     end)
    (fun _ => mret (ackError "Failed to join room", socket)).

Definition sameName (playerName : string) (p : Player) : bool :=
  String.eqb (toLowerCase (Player.name p)) (toLowerCase playerName).

Definition rejoin (socket : Socket.t) (roomCode playerName : string)
    (playerAvatar playerJingleId : option string) : M (JSON * Socket.t) :=
  try_catch
    (if (String.eqb roomCode "" || String.eqb playerName "")%bool then
       mret (ackError "Room code and player name required", socket)
     else
       o ← RoomService.getRoom roomCode;
       match o with
       | None => mret (ackError "Room not found", socket)
       | Some room =>
           match List.find (sameName playerName) (Room.players room) with
           | Some existingPlayer =>
               let oldPlayerId := Player.id existingPlayer in
               RoomService.updatePlayerSocketId roomCode oldPlayerId (Socket.id socket) ;;
               RoomService.setPlayerConnected roomCode (Socket.id socket) true ;;
               updatedRoom ← RoomService.getRoom roomCode;
               let updatedPlayer :=
                 match updatedRoom with
                 | Some u => List.find (RoomService.hasId (Socket.id socket)) (Room.players u)
                 | None => None
                 end in
               emit roomCode "room:player-rejoined"
                 (Json.obj [("oldPlayerId", Some (JStr oldPlayerId));
                            ("player", Json.player <$> updatedPlayer)]) ;;
               mret (Json.obj [("success", Some (JBool true));
                               ("player", Json.player <$> updatedPlayer);
                               ("room", RoomJson.room <$> updatedRoom)],
                     asPlayer socket roomCode)
           | None =>
               joinAsNew socket roomCode room playerName
                         (default "🦊" playerAvatar) playerJingleId
           end
       end)
    (fun _ => mret (ackError "Failed to rejoin room", socket)).

Definition leave (socket : Socket.t) (dataRoomCode : option string)
    : M (JSON * Socket.t) :=
  try_catch
    (match (match dataRoomCode with Some c => Some c | None => Socket.roomCode socket end) with
     | None => mret (ackError "Not in a room", socket)
     | Some roomCode =>
         o ← RoomService.getRoom roomCode;
         match o with
         | None => mret (ackError "Room not found", socket)
         | Some room =>
             RoomService.removePlayer roomCode (Socket.id socket) ;;
             emit roomCode "room:player-left"
               (JObj [("playerId", JStr (Socket.id socket));
                      ("playerCount", JNum (Z.of_nat (length (Room.players room)) - 1))]) ;;
             mret (ackOk [], Socket.mk (Socket.id socket) (Socket.role socket) None None)
         end
     end)
    (fun _ => mret (ackError "Failed to leave room", socket)).

Definition kick (socket : Socket.t) (roomCode playerId : string) : M JSON :=
  try_catch
    (o ← RoomService.getRoom roomCode;
     match o with
     | None => mret (ackError "Room not found")
     | Some room =>
         if (negb (Socket.isTv socket)
             && negb (String.eqb (Room.tvSocketId room) (Socket.id socket)))%bool then
           mret (ackError "Only host can kick players")
         else
           RoomService.removePlayer roomCode playerId ;;
           emit playerId "room:kicked" (JObj [("reason", JStr "Kicked by host")]) ;;
           emit roomCode "room:player-left"
             (JObj [("playerId", JStr playerId);
                    ("playerCount", JNum (Z.of_nat (length (Room.players room)) - 1))]) ;;
           mret (ackOk [])
     end)
    (fun _ => mret (ackError "Failed to kick player")).

Definition updateSettings (socket : Socket.t) (roomCode : string)
    (settings : PartialSettings.t) : M JSON :=
  try_catch
    (o ← RoomService.getRoom roomCode;
     match o with
     | None => mret (ackError "Room not found")
     | Some room =>
         if negb (Socket.isTv socket) then
           mret (ackError "Only host can update settings")
         else
           updatedRoom ← RoomService.updateSettings roomCode settings;
           emit roomCode "room:settings-updated"
             (JObj [("settings", Json.settings (Room.settings updatedRoom))]) ;;
           mret (ackOk [("settings", Json.settings (Room.settings updatedRoom))])
     end)
    (fun _ => mret (ackError "Failed to update settings")).

Definition allReady (updatedRoom : Room) : bool :=
  let connectedPlayers := List.filter Player.isConnected (Room.players updatedRoom) in
  (RoomSettings.minPlayers (Room.settings updatedRoom)
     <=? Z.of_nat (length connectedPlayers))
  && forallb (fun p => bool_decide (Player.isReady p = Some true)) connectedPlayers.

Definition playerUpdate (socket : Socket.t) (dataRoomCode : option string)
    (jingleId : option string) (isReady : option bool) : M JSON :=
  try_catch
    (match (match dataRoomCode with Some c => Some c | None => Socket.roomCode socket end) with
     | None => mret (ackError "Not in a room")
     | Some roomCode =>
         o ← RoomService.getRoom roomCode;
         match o with
         | None => mret (ackError "Room not found")
         | Some room =>
             u ← RoomService.updatePlayer roomCode (Socket.id socket) jingleId isReady;
             match u with
             | None => mret (ackError "Player not found")
             | Some updatedPlayer =>
                 emit roomCode "room:player-updated"
                   (Json.obj [("playerId", Some (JStr (Socket.id socket)));
                              ("jingleId", JStr <$> Player.jingleId updatedPlayer);
                              ("isReady", JBool <$> Player.isReady updatedPlayer)]) ;;
                 (if bool_decide (isReady = Some true) then
                    r ← RoomService.getRoom roomCode;
                    match r with
                    | Some updatedRoom =>
                        if (bool_decide (Room.phase updatedRoom = lobby)
                            && allReady updatedRoom)%bool then
                          emit roomCode "room:all-players-ready"
                            (JObj [("playerCount",
                                    JNum (Z.of_nat (length (List.filter Player.isConnected
                                                       (Room.players updatedRoom)))))])
                        else mret tt
                    | None => mret tt
                    end
                  else mret tt) ;;
                 mret (Json.obj [("success", Some (JBool true));
                                 ("player", Some (Json.player updatedPlayer))])
             end
         end
     end)
    (fun _ => mret (ackError "Failed to update player")).

Definition disconnect (socket : Socket.t) : M unit :=
  try_catch
    (match Socket.roomCode socket with
     | None => mret tt
     | Some roomCode =>
         o ← RoomService.getRoom roomCode;
         match o with
         | None => mret tt
         | Some room =>
             if Socket.isTv socket then
               emit roomCode "room:tv-disconnected" (JObj [])
             else
               match Socket.playerId socket with
               | Some playerId =>
                   RoomService.setPlayerConnected roomCode playerId false ;;
                   emit roomCode "room:player-disconnected"
                     (JObj [("playerId", JStr playerId)])
               | None => mret tt
               end
         end
     end)
    (fun _ => mret tt).

End RoomHandler.

(** ** The engine as a transition system

    Everything that can happen to the process: a client event reaching its
    handler, or a timer coming due.  [now] is the wall-clock time of the
    occurrence. *)

Inductive Action :=
| RoomCreate (socket : Socket.t) (gen : nat -> string) (createdAt : string)
| RoomJoin (socket : Socket.t) (roomCode : option string)
           (joining : option RoomHandler.JoinPlayer.t)
           (isTvType nameOk avatarOk : bool)
| RoomRejoin (socket : Socket.t) (roomCode playerName : string)
             (playerAvatar playerJingleId : option string)
| RoomLeave (socket : Socket.t) (dataRoomCode : option string)
| RoomKick (socket : Socket.t) (roomCode playerId : string)
| RoomUpdateSettings (socket : Socket.t) (roomCode : string)
                     (settings : PartialSettings.t)
| PlayerUpdate (socket : Socket.t) (dataRoomCode : option string)
               (jingleId : option string) (isReady : option bool)
| Disconnect (socket : Socket.t)
| QuizGenerate (socket : Socket.t) (invalid : option string)
               (roomCode category : string) (questionCount : Z)
               (generated : option (list Question))
| QuizSelectCategory (socket : Socket.t) (roomCode categoryId categoryName : string)
| QuizSetOptions (socket : Socket.t) (roomCode : string) (questionCount : option Z)
                 (difficulty : option Difficulty) (timeLimit : option Z)
| GameStart (now : Z) (socket : Socket.t) (roomCode : string)
| GameNextQuestion (now : Z) (socket : Socket.t) (roomCode : string)
| GamePause (socket : Socket.t) (roomCode : string)
| GameResume (socket : Socket.t) (roomCode : string)
| GameEnd (socket : Socket.t) (roomCode : string)
| GameRestart (socket : Socket.t) (roomCode : string)
| AnswerSubmit (now : Z) (socket : Socket.t) (roomCode : string)
               (answer : option AnswerOption) (timestamp : option Z)
| AnswerSubmitV1 (now : Z) (socket : Socket.t) (roomCode : string)
                 (answer : option AnswerOption) (timestamp : option Z)
| AnswerTimeout (socket : Socket.t) (roomCode : string)
| TimerFires (now : Z) (roomCode : string)
| IntervalTicks (now : Z) (roomCode : string)
| StartDelayFires (now : Z) (roomCode : string).

(** A timeout of the [timers] map runs once, not before it is due. *)
Definition timerFires (now : Z) (roomCode : string) : M unit :=
  w ← get;
  match timers w !! roomCode with
  | Some t =>
      if fireAt t <=? now then
        modify (fun w => set_timers (delete roomCode (timers w)) w) ;;
        GameService.fire now roomCode (callback t)
      else mret tt
  | None => mret tt
  end.

Definition intervalTicks (now : Z) (roomCode : string) : M unit :=
  w ← get;
  match timerIntervals w !! roomCode with
  | Some iv => if nextTickAt iv <=? now then GameService.timerTick roomCode else mret tt
  | None => mret tt
  end.

Definition isDue (now : Z) (roomCode : string) (d : Z * string) : bool :=
  (fst d <=? now) && String.eqb (snd d) roomCode.

(** Remove the first element satisfying [pred]. *)
Fixpoint remove_first {T} (pred : T -> bool) (l : list T) : list T :=
  match l with
  | [] => []
  | x :: l' => if pred x then l' else x :: remove_first pred l'
  end.

(** The [setTimeout(() => showQuestion(..), 2000)] of [game:start]. *)
Definition startDelayFires (now : Z) (roomCode : string) : M unit :=
  w ← get;
  if existsb (isDue now roomCode) (startDelays w) then
    modify (fun w =>
      set_startDelays (remove_first (isDue now roomCode) (startDelays w)) w) ;;
    GameService.showQuestion now roomCode
  else mret tt.

Definition ignore {T} (m : M T) : M unit := m ;; mret tt.

Definition perform (a : Action) : M unit :=
  match a with
  | RoomCreate s gen createdAt => ignore (RoomHandler.create s gen createdAt)
  | RoomJoin s c j isTv nameOk avatarOk =>
      ignore (RoomHandler.join s c j isTv nameOk avatarOk)
  | RoomRejoin s c n a j => ignore (RoomHandler.rejoin s c n a j)
  | RoomLeave s c => ignore (RoomHandler.leave s c)
  | RoomKick s c p => ignore (RoomHandler.kick s c p)
  | RoomUpdateSettings s c st => ignore (RoomHandler.updateSettings s c st)
  | PlayerUpdate s c j r => ignore (RoomHandler.playerUpdate s c j r)
  | Disconnect s => RoomHandler.disconnect s
  | QuizGenerate s v c cat n g => ignore (QuizHandler.generate s v c cat n g)
  | QuizSelectCategory s c i n => ignore (QuizHandler.selectCategory s c i n)
  | QuizSetOptions s c n d t => ignore (QuizHandler.setOptions s c n d t)
  | GameStart now s c => ignore (GameHandler.start now s c)
  | GameNextQuestion now s c => ignore (GameHandler.nextQuestion now s c)
  | GamePause s c => ignore (GameHandler.pause s c)
  | GameResume s c => ignore (GameHandler.resume s c)
  | GameEnd s c => ignore (GameHandler.endGame s c)
  | GameRestart s c => ignore (GameHandler.restart s c)
  | AnswerSubmit now s c a t => ignore (AnswerHandler.submit now s c a t)
  | AnswerSubmitV1 now s c a t => ignore (AnswerHandlerV1.submit now s c a t)
  | AnswerTimeout s c => ignore (AnswerHandler.timeout s c)
  | TimerFires now c => timerFires now c
  | IntervalTicks now c => intervalTicks now c
  | StartDelayFires now c => startDelayFires now c
  end.

Definition step (a : Action) (w : World) : World := run (perform a) w.

Inductive reachable : World -> Prop :=
| reachable_initial : reachable initial
| reachable_step w a : reachable w -> reachable (step a w).

(** * Further parts of the backend *)

(** ** More of JavaScript's arithmetic *)

Module JSNumber.

(** [Math.round] of a finite binary64 value [±m·2^e], read back as an
    integer: the nearest integer, a tie going towards plus infinity, that
    is the floor of the value plus one half.  NaN and the infinities are
    mapped to 0, as by [JS.Math_floor]. *)
Definition Math_round (x : float) : Z :=
  match Prim2SF x with
  | S754_finite s m e =>
      let sm := if s then Zneg m else Zpos m in
      if 0 <=? e then Z.shiftl sm e
      else Z.shiftl (2 * sm + Z.shiftl 1 (- e)) (e - 1)
  | _ => 0
  end.

(** [ToInt32]: the integer modulo 2^32, read as a signed 32-bit value.
    The bitwise operators apply it to their operands and results. *)
Definition toInt32 (n : Z) : Z :=
  let m := n mod 2 ^ 32 in
  if m <? 2 ^ 31 then m else m - 2 ^ 32.

(** [a << k] *)
Definition shl (a k : Z) : Z := toInt32 (Z.shiftl (toInt32 a) (k mod 32)).

(** [a & b] *)
Definition and (a b : Z) : Z := toInt32 (Z.land (toInt32 a) (toInt32 b)).

End JSNumber.

(** ** Game statistics ([calculateStatistics] of
    [src/services/scoreService.ts])

    The sum of the scores is a sum of integers and is exact below 2^53;
    the average is their binary64 quotient by the number of players. *)

Module Statistics.

Module FastestAnswer.
Record t := mk { playerId : string; time : Z }.
End FastestAnswer.

Module LongestStreak.
Record t := mk { playerId : string; streak : Z }.
End LongestStreak.

Record t := mk {
  totalAnswers : Z;
  correctAnswers : Z;
  averageScore : Z;
  fastestAnswer : option FastestAnswer.t;
  longestStreak : option LongestStreak.t;
}.

(** [question && a.answer === question.correctAnswer], with
    [question = questions[a.questionIndex]] *)
Definition isCorrect (questions : list Question) (a : Answer) : bool :=
  match JS.index questions (Answer.questionIndex a) with
  | Some qn => bool_decide (Answer.answer a = Question.correctAnswer qn)
  | None => false
  end.

(** The body of the loop over [answers]. *)
Definition fasterAnswer (questions : list Question)
    (fastestAnswer : option FastestAnswer.t) (answer : Answer)
    : option FastestAnswer.t :=
  if isCorrect questions answer then
    match fastestAnswer with
    | None => Some (FastestAnswer.mk (Answer.playerId answer) (Answer.timeElapsed answer))
    | Some f =>
        if Answer.timeElapsed answer <? FastestAnswer.time f
        then Some (FastestAnswer.mk (Answer.playerId answer) (Answer.timeElapsed answer))
        else fastestAnswer
    end
  else fastestAnswer.

(** The body of the loop over [players]. *)
Definition longerStreak (longestStreak : option LongestStreak.t) (player : Player)
    : option LongestStreak.t :=
  match longestStreak with
  | None => Some (LongestStreak.mk (Player.id player) (Player.streak player))
  | Some l =>
      if LongestStreak.streak l <? Player.streak player
      then Some (LongestStreak.mk (Player.id player) (Player.streak player))
      else longestStreak
  end.

Definition calculateStatistics (players : list Player) (answers : list Answer)
    (questions : list Question) : t :=
  let totalAnswers := Z.of_nat (length answers) in
  let correctAnswers :=
    Z.of_nat (length (List.filter (isCorrect questions) answers)) in
  let total := fold_left (fun sum p => sum + Player.score p) players 0 in
  let averageScore :=
    if (0 <? length players)%nat then
      (JS.num total / JS.num (Z.of_nat (length players)))%float
    else 0%float in
  let fastestAnswer := fold_left (fasterAnswer questions) answers None in
  let longestStreak := fold_left longerStreak players None in
  mk totalAnswers correctAnswers (JSNumber.Math_round averageScore)
     fastestAnswer longestStreak.

End Statistics.

(** ** Room codes ([src/utils/roomCode.ts]) and the schema of
    [src/utils/validation.ts] that checks them *)

Module RoomCode.

Definition ALPHABET : string := "ABCDEFGHJKMNPQRSTUVWXYZ23456789".
Definition CODE_LENGTH : nat := 6.

(** [customAlphabet(ALPHABET, CODE_LENGTH)] is nanoid's: a string of
    [CODE_LENGTH] characters, each one of [ALPHABET].  Which ones is the
    argument [draw], the position in [ALPHABET] chosen for every place. *)
Definition generateCode (draw : nat -> nat) : string :=
  string_of_list_ascii
    (map (fun place =>
            default "A"%char
              (list_ascii_of_string ALPHABET
                 !! (draw place mod String.length ALPHABET)%nat))
         (seq 0 CODE_LENGTH)).

Definition generateRoomCode (draw : nat -> nat) : string := generateCode draw.

(** The character class [[A-Z0-9]]. *)
Definition upperOrDigit (c : ascii) : bool :=
  let n := nat_of_ascii c in
  ((65 <=? n)%nat && (n <=? 90)%nat) || ((48 <=? n)%nat && (n <=? 57)%nat).

(** [/^[A-Z0-9]+$/.test(code)] *)
Definition matchesFormat (code : string) : bool :=
  negb (String.eqb code "") && forallb upperOrDigit (list_ascii_of_string code).

(** A character outside ASCII makes the test fail whether the length is
    counted in UTF-16 units, as the engine does, or in bytes, as here. *)
Definition isValidRoomCode (code : string) : bool :=
  if String.eqb code "" then false
  else if negb (String.length code =? CODE_LENGTH)%nat then false
  else matchesFormat code.

(** [roomCodeSchema = z.string().length(6).regex(/^[A-Z0-9]+$/)]: does the
    parse succeed? *)
Definition roomCodeSchema (code : string) : bool :=
  (String.length code =? 6)%nat && matchesFormat code.

End RoomCode.

(** ** Avatars ([src/utils/avatars.ts]) *)

Module Avatars.

Definition AVATAR_EMOJIS : list string :=
  ["🦊"; "🐼"; "🦁"; "🐯"; "🐸"; "🦄"; "🐙"; "🦋";
   "🐢"; "🦈"; "🦅"; "🐲"; "🦩"; "🐳"; "🦜"; "🐨"].

Definition isValidAvatar (avatar : string) : bool :=
  existsb (String.eqb avatar) AVATAR_EMOJIS.

(** The body of the loop over the seed: [char] is [seed.charCodeAt(i)]. *)
Definition hashStep (hash char : Z) : Z :=
  let hash := (JSNumber.shl hash 5 - hash) + char in
  JSNumber.and hash hash.

(** [seed] is the sequence of UTF-16 code units of the seed string, and
    [random] the value of [Math.floor(Math.random() * AVATAR_EMOJIS.length)]
    should it be needed.  The result is [AVATAR_EMOJIS[index]]. *)
Definition getRandomAvatar (seed : list Z) (random : Z) : option string :=
  match seed with
  | _ :: _ =>
      let hash := fold_left hashStep seed 0 in
      let index := Z.abs hash mod Z.of_nat (length AVATAR_EMOJIS) in
      JS.index AVATAR_EMOJIS index
  | [] => JS.index AVATAR_EMOJIS random
  end.

(** *** The pool of avatars of a room *)

Module AvatarPool.

Record t := mk {
  usedAvatars : gset string;
  availableAvatars : list string;
}.

(** [[a[i], a[j]] = [a[j], a[i]]] *)
Definition swap (i j : nat) (a : list string) : list string :=
  match a !! i, a !! j with
  | Some x, Some y => <[i := y]> (<[j := x]> a)
  | _, _ => a
  end.

(** The loop of [shuffle], from index [i] down to 1.  [random i] stands
    for [Math.random() * (i + 1)] rounded down, an index from 0 to [i]. *)
Fixpoint shuffleFrom (random : nat -> nat) (i : nat) (a : list string)
    : list string :=
  match i with
  | O => a
  | S i' =>
      let j := (random i mod (i + 1))%nat in
      shuffleFrom random i' (swap i j a)
  end.

Definition shuffle (random : nat -> nat) (pool : t) : t :=
  mk (usedAvatars pool)
     (shuffleFrom random (length (availableAvatars pool) - 1)
                  (availableAvatars pool)).

(** [new AvatarPool()] *)
Definition create (random : nat -> nat) : t :=
  shuffle random (mk ∅ AVATAR_EMOJIS).

(** [random] is the index drawn when every avatar is in use. *)
Definition getUniqueAvatar (random : Z) (pool : t) : option string * t :=
  match List.find (fun a => bool_decide (a ∉ usedAvatars pool))
                  (availableAvatars pool) with
  | Some avatar =>
      (Some avatar, mk ({[avatar]} ∪ usedAvatars pool) (availableAvatars pool))
  | None => (JS.index AVATAR_EMOJIS random, pool)
  end.

Definition releaseAvatar (avatar : string) (pool : t) : t :=
  mk (usedAvatars pool ∖ {[avatar]}) (availableAvatars pool).

Definition reset (random : nat -> nat) (pool : t) : t :=
  shuffle random (mk ∅ (availableAvatars pool)).

Definition availableCount (pool : t) : Z :=
  Z.of_nat (length AVATAR_EMOJIS) - Z.of_nat (size (usedAvatars pool)).

End AvatarPool.

End Avatars.

(** * Predicates used by the properties *)

(** ** Orders on sorted output

    A sorted list is described through the positions its elements had
    before sorting: [decorate l] pairs every element with that position. *)

Definition decorate {T} (l : list T) : list (nat * T) := imap pair l.

(** Descending by [key]; among equal keys, as [tie] says. *)
Definition descending_then {T} (key : T -> Z) (tie : nat * T -> nat * T -> Prop)
    (a b : nat * T) : Prop :=
  key (snd a) > key (snd b) \/ (key (snd a) = key (snd b) /\ tie a b).

(** Earlier position first. *)
Definition by_position {T} (a b : nat * T) : Prop := (fst a < fst b)%nat.

(** Earlier position first, then name ascending. *)
Definition by_position_then_name (a b : nat * Player) : Prop :=
  (fst a < fst b)%nat
  \/ (fst a = fst b /\ String.leb (Player.name (snd a)) (Player.name (snd b)) = true).

(** The order the specification gives for question results: points
    descending, ties by elapsed time ascending. *)
Definition points_then_time (a b : QuestionResult) : Prop :=
  QuestionResult.pointsEarned a > QuestionResult.pointsEarned b
  \/ (QuestionResult.pointsEarned a = QuestionResult.pointsEarned b
      /\ QuestionResult.timeElapsed a <= QuestionResult.timeElapsed b).

Definition rankingOf (index : nat) (p : Player) : RankingEntry.t :=
  RankingEntry.mk (Player.id p) (Player.name p) (Player.avatar p)
                  (Player.score p) (Z.of_nat index + 1) (index =? 0)%nat.

Definition leaderboardOf (index : nat) (p : Player) : RoomService.LeaderboardEntry.t :=
  RoomService.LeaderboardEntry.mk (Player.id p) (Player.name p) (Player.avatar p)
                                  (Player.score p) (Z.of_nat index + 1).

(** ** Sample data *)

Module Sample.

Definition opts : Options.t := Options.mk "a" "b" "c" "d".

Definition q1 : Question :=
  Question.mk "q1" "Q1" opts OptB None None None None None.

(** A generated question: the quiz service stamps [timeLimit: 20] on it. *)
Definition q20 : Question :=
  Question.mk "gen_1_0" "Q1" opts OptB (Some 20) None None None (Some true).

Definition alice : Player :=
  Player.mk "sock-alice" "Alice" "🦊" 0 0 None true (Some false) None.

Definition bob : Player :=
  Player.mk "sock-bob" "Bob" "🐼" 0 0 None true (Some false) None.

Definition settings (timeLimit : Z) : RoomSettings :=
  RoomSettings.mk 10 timeLimit mixed "" (Some "") 50 2.

Definition roomCode : string := "K7MN2P".

(** A wall-clock instant, in milliseconds. *)
Definition t0 : Z := 1769472000000.

Definition room (ph : GamePhase) (qs : list Question) (answers : list Answer)
    (start : option Z) (timeLimit : Z) : Room :=
  Room.mk roomCode "sock-tv" ph [alice; bob] qs 0 (Some answers) start
          (settings timeLimit) "2026-01-27T00:00:00.000Z".

Definition world (r : Room) : World :=
  mkWorld {[ roomCode := r ]} ∅ ∅ [] [].

Definition tvSocket : Socket.t := Socket.mk "sock-tv" (Some tv) None (Some roomCode).
Definition aliceSocket : Socket.t :=
  Socket.mk "sock-alice" (Some player) (Some "sock-alice") (Some roomCode).
Definition bobSocket : Socket.t :=
  Socket.mk "sock-bob" (Some player) (Some "sock-bob") (Some roomCode).

End Sample.

(** ** Worlds after a write *)

(** The world after [updateRoom roomCode room]. *)
Definition stored (roomCode : string) (room : Room) (w : World) : World :=
  set_redis (<[roomCode := room]> (redis w)) w.

(** The world after a run of [io.to(roomCode).emit(..)] calls. *)
Definition sent (l : list Emitted) (w : World) : World :=
  set_emitted (emitted w ++ l) w.

Definition events (w : World) : list string := map event (emitted w).

(** The room as [showQuestion] leaves it. *)
Definition shown (now : Z) (room : Room) : Room :=
  RoomUpd.with_phase question
    (RoomUpd.with_questionStartTime (Some now)
       (RoomUpd.with_currentAnswers (Some []) room)).

(** The room after one more answer has been recorded. *)
Definition withAnswer (a : Answer) (room : Room) : Room :=
  RoomUpd.with_currentAnswers (Some (default [] (Room.currentAnswers room) ++ [a])) room.

(** ** Reasoning about promises *)

(** [m], started in a world satisfying [P], ends in one satisfying [Q] when
    it resolves and [E] when it rejects. *)
Definition hoare {T} (P : World -> Prop) (m : M T) (Q : T -> World -> Prop)
    (E : World -> Prop) : Prop :=
  forall w, P w ->
    match m w with
    | (Ok v, w') => Q v w'
    | (Throw _, w') => E w'
    end.

(** [m] maintains [I], however it ends. *)
Definition preserves {T} (I : World -> Prop) (m : M T) : Prop :=
  hoare I m (fun _ => I) I.

(** The world [m] leaves is [R]-related to the one it started in. *)
Definition keeps {T} (R : World -> World -> Prop) (m : M T) : Prop :=
  forall w, R w (snd (m w)).

(** ** Confidentiality of the correct answer *)

Definition mentionsAnswer (e : Emitted) : bool :=
  Json.mentions "correctAnswer" (payload e).



(** Only messages without the correct answer were added. *)
Definition discreet (w w' : World) : Prop :=
  exists l, emitted w' = emitted w ++ l
            /\ Forall (fun e => mentionsAnswer e = false) l.

(** ** The question index *)

Definition questionCount (r : Room) : Z := Z.of_nat (length (Room.questions r)).



(** What the index invariant looks at in a room. *)
Definition progress (r : Room) : GamePhase * list Question * Z :=
  (Room.phase r, Room.questions r, Room.currentQuestionIndex r).

(** Phase, questions and index of every room are as before, and no timer
    has been added. *)
Definition sameProgress (w w' : World) : Prop :=
  (forall c, progress <$> redis w' !! c = progress <$> redis w !! c)
  /\ (forall c t, timers w' !! c = Some t -> timers w !! c = Some t).






(** ** A short game, from the empty process *)

Module Trace.

Definition created : World :=
  step (RoomCreate (Socket.mk "sock-tv" None None None) (fun _ => Sample.roomCode)
                   "2026-01-27T00:00:00.000Z") initial.

Definition generated : World :=
  step (QuizGenerate Sample.tvSocket None Sample.roomCode "general" 5
                     (Some [Sample.q1])) created.

Definition asked : World :=
  step (GameNextQuestion Sample.t0 Sample.tvSocket Sample.roomCode) generated.


End Trace.

(** * Further predicates *)

(** ** Signs of binary64 values *)


(** ** Searching for the best element

    The loop [let best = null; for (const x of l) if (!best || key(x) <
    key(best)) best = record(x)]: what [best] is after one more element. *)

Definition pickBetter {T R} (key : T -> Z) (keyOf : R -> Z) (record : T -> R)
    (best : option R) (x : T) : option R :=
  match best with
  | None => Some (record x)
  | Some b => if key x <? keyOf b then Some (record x) else best
  end.

(** [a] is the first element of [l] with the least [key]. *)
Definition firstLeast {T} (key : T -> Z) (l : list T) (a : T) : Prop :=
  exists before after,
    l = before ++ a :: after
    /\ Forall (fun b => key a < key b) before
    /\ Forall (fun b => key a <= key b) after.

(** ** Using an avatar pool *)

(** [n] calls of [getUniqueAvatar] in a row: what they returned, in order,
    and the pool they leave. *)
Fixpoint drawAvatars (n : nat) (random : Z) (pool : Avatars.AvatarPool.t)
    : list (option string) * Avatars.AvatarPool.t :=
  match n with
  | O => ([], pool)
  | S n' =>
      let '(a, pool) := Avatars.AvatarPool.getUniqueAvatar random pool in
      let '(l, pool) := drawAvatars n' random pool in
      (a :: l, pool)
  end.

(** Every avatar is in the pool once, and only avatars are in use. *)
Definition poolOk (pool : Avatars.AvatarPool.t) : Prop :=
  Avatars.AvatarPool.availableAvatars pool ≡ₚ Avatars.AVATAR_EMOJIS
  /\ Avatars.AvatarPool.usedAvatars pool ⊆ list_to_set Avatars.AVATAR_EMOJIS.

(** ** What a computation sends *)

(** A message as it goes out: channel, event name and payload. *)
Definition wire (e : Emitted) : string * string * JSON :=
  (channel e, event e, payload e).

(** The messages [m] sends when started in [w], in order. *)
Definition sentBy {T} (m : M T) (w : World) : list (string * string * JSON) :=
  map wire (drop (length (emitted w)) (emitted (run m w))).

(** ** Scoring a question *)

(** The player after [updatePlayerScore] has been called with the player's
    own result. *)
Definition scoredPlayer (qn : Question) (answers : list Answer) (timeLimit : Z)
    (p : Player) : Player :=
  let r := ScoreService.resultFor qn answers timeLimit p in
  RoomService.applyScore (QuestionResult.pointsEarned r) (QuestionResult.isCorrect r) p.

(** The player list after the loop over [results] that calls
    [updatePlayerScore] for each. *)
Definition applyResults (results : list QuestionResult) (players : list Player)
    : list Player :=
  fold_left
    (fun players r =>
       update_first (RoomService.hasId (QuestionResult.playerId r))
         (RoomService.applyScore (QuestionResult.pointsEarned r)
                                 (QuestionResult.isCorrect r))
         players)
    results players.

(** The time limit the scorer uses for a question of a room. *)
Definition scoringLimit (room : Room) (qn : Question) : Z :=
  JS.or_num (Question.timeLimit qn) (RoomSettings.timeLimit (Room.settings room)).

(** The room after a question has been scored and revealed. *)
Definition revealed (qn : Question) (room : Room) : Room :=
  RoomUpd.with_phase reveal
    (RoomUpd.with_players
       (map (scoredPlayer qn (GameService.currentAnswersFor room) (scoringLimit room qn))
            (Room.players room))
       room).

(** ** Counting down *)

(** [k] firings of the tick interval of a room. *)
Fixpoint tickTimes (k : nat) (roomCode : string) : M unit :=
  match k with
  | O => mret tt
  | S k' => GameService.timerTick roomCode ;; tickTimes k' roomCode
  end.

(** The [timer:tick] messages from [first] down to [first - count + 1]. *)
Definition tickMessages (roomCode : string) (first : Z) (count : nat)
    : list (string * string * JSON) :=
  map (fun j => (roomCode, "timer:tick",
                 JObj [("timeRemaining", JNum (first - Z.of_nat j))]))
      (seq 0 count).

(** ** The end of a game *)

(** The [winner] object of [game:finished] for the player in the lead. *)
Definition winnerJson (room : Room) (p : Player) : JSON :=
  Json.obj
    [("playerId", Some (JStr (Player.id p)));
     ("name", Some (JStr (Player.name p)));
     ("avatar", Some (JStr (Player.avatar p)));
     ("score", Some (JNum (Player.score p)));
     ("jingleId",
      match List.find (RoomService.hasId (Player.id p)) (Room.players room) with
      | Some q => JStr <$> Player.jingleId q
      | None => None
      end)].

(** ** Well-formed rooms *)






(** ** What an action leaves alone *)

(** Every room but the one stored under [c] is as before. *)
Definition onlyRoom (c : string) (w w' : World) : Prop :=
  forall c', c' <> c -> redis w' !! c' = redis w !! c'.

(** No room has gone. *)
Definition roomsStay (w w' : World) : Prop :=
  forall c, is_Some (redis w !! c) -> is_Some (redis w' !! c).

(** ** The countdown and the deadline *)

(** A room whose countdown interval is armed has its question deadline
    pending. *)
Definition ticking (w : World) : Prop :=
  forall c iv, timerIntervals w !! c = Some iv ->
    exists t, timers w !! c = Some t /\ callback t = QuestionTimeout.

(** Timeouts and intervals are as before. *)
Definition sameClocks (w w' : World) : Prop :=
  timers w' = timers w /\ timerIntervals w' = timerIntervals w.

(** ** A game with two players, from the empty process *)

Module Party.

Definition joined : World :=
  step (RoomJoin (Socket.mk "sock-bob" None None None) (Some Sample.roomCode)
          (Some (RoomHandler.JoinPlayer.mk "Bob" "🐼" None)) false true true)
    (step (RoomJoin (Socket.mk "sock-alice" None None None) (Some Sample.roomCode)
             (Some (RoomHandler.JoinPlayer.mk "Alice" "🦊" None)) false true true)
       Trace.created).

Definition asked : World :=
  step (GameNextQuestion Sample.t0 Sample.tvSocket Sample.roomCode)
    (step (QuizGenerate Sample.tvSocket None Sample.roomCode "general" 5
             (Some [Sample.q1])) joined).

Definition answered : World :=
  step (AnswerSubmit (Sample.t0 + 5000) Sample.aliceSocket Sample.roomCode
          (Some OptB) None) asked.

Definition revealed : World :=
  step (TimerFires (Sample.t0 + 21000) Sample.roomCode) answered.

End Party.

(** * Properties *)

(** Unfold the plumbing of the promise monad. *)
Ltac munfold :=
  unfold mbind, M_bind, mret, M_ret, get, modify, throw, try_catch, ignore,
    run, result in *.

(** ** Scoring *)

Lemma calculatePoints_spec correct timeElapsed timeLimit priorStreak :
  ScoreService.calculatePoints correct timeElapsed timeLimit priorStreak
  = Spec.points correct timeElapsed timeLimit priorStreak.
Proof. destruct correct; reflexivity. Qed.



(** The binary64 bonus against the same formula over the rationals: the
    two can differ by one.  After 1320 ms of 20 s the rational bonus is 467,
    the engine's 466. *)
Example timeBonus_20_rounding :
  Spec.exactTimeBonus 1320 20 = 467 /\ Spec.timeBonus 1320 20 = 466.
Proof. split; vm_compute; reflexivity. Qed.

(** An answer that took the whole limit gets no time bonus. *)
Lemma timeBonus_full_limit timeLimit :
  0 < timeLimit <= 3600 -> Spec.timeBonus (timeLimit * 1000) timeLimit = 0.
Proof.
  intros H.
  assert (Hall : forallb (fun l => Spec.timeBonus (l * 1000) l =? 0) (seqZ 1 3600) = true)
    by (vm_compute; reflexivity).
  rewrite forallb_forall in Hall.
  specialize (Hall timeLimit).
  rewrite <- list_elem_of_In, elem_of_seqZ in Hall.
  specialize (Hall ltac:(lia)). lia.
Qed.

(** ** Sorting *)

Section Sort.
Context {T : Type} (key : T -> Z).

Local Abbreviation cmp := (fun a b : T => key b - key a).

Lemma sort_insert_perm x l : Permutation (JS.sort_insert cmp x l) (x :: l).
Proof.
  induction l as [|y l IH]; simpl; [reflexivity|].
  destruct (key y - key x <=? 0); [reflexivity|].
  rewrite IH. apply perm_swap.
Qed.

Lemma sort_perm l : Permutation (JS.sort cmp l) l.
Proof.
  induction l as [|x l IH]; simpl; [reflexivity|].
  rewrite sort_insert_perm. by constructor.
Qed.

Context (tie : T -> T -> Prop).

Local Abbreviation before :=
  (fun a b : T => key a > key b \/ (key a = key b /\ tie a b)).

Lemma sort_insert_sorted x l :
  Forall (tie x) l ->
  StronglySorted before l ->
  StronglySorted before (JS.sort_insert cmp x l).
Proof.
  intros Hx Hl. induction Hl as [|y l Hl IH Hy]; simpl.
  - repeat constructor.
  - apply Forall_cons in Hx as [Hxy Hxl].
    destruct (key y - key x <=? 0) eqn:E.
    + apply Z.leb_le in E.
      constructor; [by constructor|].
      constructor.
      * destruct (decide (key x = key y)); [right|left]; [done|lia].
      * rewrite Forall_forall in Hy, Hxl |- *. intros z Hz.
        specialize (Hy z Hz). specialize (Hxl z Hz).
        destruct Hy as [?|[? ?]];
          (destruct (decide (key x = key z)); [right; done|left; lia]).
    + apply Z.leb_gt in E.
      constructor; [by apply IH|].
      rewrite (sort_insert_perm x l). constructor; [left; lia|done].
Qed.

Lemma sort_sorted l :
  StronglySorted tie l -> StronglySorted before (JS.sort cmp l).
Proof.
  induction 1 as [|x l Hl IH Hx]; simpl; [constructor|].
  apply sort_insert_sorted; [|done].
  by rewrite sort_perm.
Qed.

End Sort.

Lemma sort_insert_map {T U} (f : T -> U) (cmp : U -> U -> Z) x l :
  map f (JS.sort_insert (fun a b => cmp (f a) (f b)) x l)
  = JS.sort_insert cmp (f x) (map f l).
Proof.
  induction l as [|y l IH]; simpl; [done|].
  destruct (cmp (f x) (f y) <=? 0); simpl; [done|]. by rewrite IH.
Qed.

Lemma sort_map {T U} (f : T -> U) (cmp : U -> U -> Z) l :
  map f (JS.sort (fun a b => cmp (f a) (f b)) l) = JS.sort cmp (map f l).
Proof.
  induction l as [|x l IH]; simpl; [done|].
  by rewrite sort_insert_map, IH.
Qed.

Lemma decorate_shift_sorted {T} (l : list T) n :
  StronglySorted by_position (imap (fun i x => ((n + i)%nat, x)) l)
  /\ Forall (fun a => (n <= fst a)%nat) (imap (fun i x => ((n + i)%nat, x)) l).
Proof.
  revert n. induction l as [|x l IH]; intros n; simpl.
  - split; constructor.
  - destruct (IH (S n)) as [Hs Hf].
    assert (Heq : imap ((fun i y => ((n + i)%nat, y)) ∘ S) l
                  = imap (fun i y => ((S n + i)%nat, y)) l).
    { apply imap_ext. intros i y _. simpl. f_equal. lia. }
    rewrite Heq. split.
    + constructor; [done|].
      eapply Forall_impl; [exact Hf|]. intros [j y]. unfold by_position. simpl. lia.
    + constructor; [simpl; lia|].
      eapply Forall_impl; [exact Hf|]. intros [j y]. simpl. lia.
Qed.

Lemma decorate_sorted {T} (l : list T) : StronglySorted by_position (decorate l).
Proof. apply (decorate_shift_sorted l 0). Qed.

Lemma decorate_snd {T} (l : list T) : map snd (decorate l) = l.
Proof.
  unfold decorate. change (map snd (imap pair l)) with (snd <$> imap pair l).
  rewrite fmap_imap. induction l as [|x l IH]; [done|].
  simpl. f_equal. exact IH.
Qed.

(** What a stable descending sort does, told through the positions before
    sorting: the output lists the input by descending key and, among equal
    keys, in input order. *)
Lemma sort_by_position {T} (key : T -> Z) (l : list T) :
  exists order : list (nat * T),
    Permutation order (decorate l)
    /\ StronglySorted (descending_then key by_position) order
    /\ JS.sort (fun a b => key b - key a) l = map snd order.
Proof.
  exists (JS.sort (fun a b => key (snd b) - key (snd a)) (decorate l)).
  split; [apply (sort_perm (fun a => key (snd a)))|].
  split.
  - apply (sort_sorted (fun a => key (snd a)) by_position), decorate_sorted.
  - rewrite (sort_map snd (fun a b => key b - key a)). by rewrite decorate_snd.
Qed.

Lemma strongly_sorted_weaken {T} (R S : T -> T -> Prop) l :
  (forall a b, R a b -> S a b) -> StronglySorted R l -> StronglySorted S l.
Proof.
  intros HRS. induction 1 as [|x l Hl IH Hx]; constructor; [done|].
  eapply Forall_impl; [exact Hx|]. auto.
Qed.

(** ** Question results and rankings *)

Lemma calculateQuestionResults_run w roomCode room qn answers :
  redis w !! roomCode = Some room ->
  ScoreService.calculateQuestionResults roomCode qn answers w
  = (Ok (JS.sort ScoreService.byPointsDesc
           (map (ScoreService.resultFor qn answers
                   (JS.or_num (Question.timeLimit qn)
                              (RoomSettings.timeLimit (Room.settings room))))
                (Room.players room))),
     w).
Proof.
  intros H. unfold ScoreService.calculateQuestionResults, RoomService.getRoom.
  munfold. by rewrite H.
Qed.

(** C4, as the engine has it.  [calculateQuestionResults] returns exactly
    one result per player of the room, with [answer] null, no points and
    streak 0 for a player who did not answer, [isCorrect], [pointsEarned],
    [newScore = player.score + pointsEarned] and
    [streak = priorStreak + 1] if correct else 0; the list is sorted by
    [pointsEarned] descending, and results with equal points stay in the
    order of the room's player list. *)
Theorem questionResults_sorted_stable w roomCode room qn answers :
  redis w !! roomCode = Some room ->
  let timeLimit :=
    JS.or_num (Question.timeLimit qn) (RoomSettings.timeLimit (Room.settings room)) in
  let perPlayer :=
    map (ScoreService.resultFor qn answers timeLimit) (Room.players room) in
  (exists order : list (nat * QuestionResult),
      Permutation order (decorate perPlayer)
      /\ StronglySorted
           (descending_then QuestionResult.pointsEarned by_position) order
      /\ ScoreService.calculateQuestionResults roomCode qn answers w
         = (Ok (map snd order), w))
  /\ length perPlayer = length (Room.players room)
  /\ Forall2
       (fun p r =>
          let given :=
            List.find (fun a => String.eqb (Answer.playerId a) (Player.id p)) answers in
          QuestionResult.playerId r = Player.id p
          /\ QuestionResult.answer r = Answer.answer <$> given
          /\ QuestionResult.isCorrect r
             = bool_decide (Answer.answer <$> given
                            = Some (Question.correctAnswer qn))
          /\ (QuestionResult.isCorrect r = false -> QuestionResult.pointsEarned r = 0)
          /\ QuestionResult.newScore r
             = Player.score p + QuestionResult.pointsEarned r
          /\ QuestionResult.streak r
             = (if QuestionResult.isCorrect r then Player.streak p + 1 else 0))
       (Room.players room) perPlayer.
Proof.
  intros H timeLimit perPlayer. split; [|split].
  - destruct (sort_by_position QuestionResult.pointsEarned perPlayer)
      as (order & Hperm & Hsorted & Heq).
    exists order. split; [done|]. split; [done|].
    rewrite (calculateQuestionResults_run _ _ _ _ _ H).
    unfold ScoreService.byPointsDesc. fold timeLimit. fold perPlayer.
    by rewrite Heq.
  - apply length_map.
  - subst perPlayer. induction (Room.players room) as [|p ps IH]; simpl;
      constructor; [|exact IH].
    unfold ScoreService.resultFor. simpl.
    destruct (List.find _ answers) as [a|]; simpl.
    + repeat split.
      * unfold ScoreService.answeredCorrectly.
        apply bool_decide_ext. split; [intros ->; done|intros [=]; done].
      * by intros ->.
    + repeat split.
Qed.

Lemma questionResults_sorted_stable_witness :
  let w := Sample.world (Sample.room question [Sample.q1] [] (Some Sample.t0) 20) in
  exists order : list (nat * QuestionResult),
    StronglySorted (descending_then QuestionResult.pointsEarned by_position) order
    /\ ScoreService.calculateQuestionResults Sample.roomCode Sample.q1 [] w
       = (Ok (map snd order), w).
Proof.
  intros w.
  destruct (questionResults_sorted_stable w Sample.roomCode
              (Sample.room question [Sample.q1] [] (Some Sample.t0) 20) Sample.q1 [])
    as [(order & _ & Hs & Heq) _]; [reflexivity|].
  exists order. split; [exact Hs|exact Heq].
Defined.

(** C4, as the specification has it, fails: two correct answers that earn
    the same points (1030 ms and 1010 ms both give a bonus of 474) are
    returned in the order of the player list, the slower one first. *)
Lemma questionResults_tie_not_by_time :
  let answers :=
    [Answer.mk "sock-alice" 0 OptB (Sample.t0 + 1030) 1030;
     Answer.mk "sock-bob" 0 OptB (Sample.t0 + 1010) 1010] in
  let w := Sample.world (Sample.room question [Sample.q1] answers (Some Sample.t0) 20) in
  exists slow fast,
    result (ScoreService.calculateQuestionResults Sample.roomCode Sample.q1 answers) w
    = Ok [slow; fast]
    /\ QuestionResult.pointsEarned slow = 1474
    /\ QuestionResult.pointsEarned fast = 1474
    /\ QuestionResult.timeElapsed slow = 1030
    /\ QuestionResult.timeElapsed fast = 1010
    /\ ~ StronglySorted points_then_time [slow; fast].
Proof.
  intros answers w.
  eexists _, _. split; [vm_compute; reflexivity|].
  repeat split.
  intros Hs. apply StronglySorted_inv in Hs as [_ Hf].
  apply Forall_inv in Hf. unfold points_then_time in Hf. simpl in Hf.
  lia.
Qed.

Lemma getLeaderboard_run w roomCode room :
  redis w !! roomCode = Some room ->
  RoomService.getLeaderboard roomCode w
  = (Ok (imap leaderboardOf (JS.sort RoomService.byScoreDesc (Room.players room))), w).
Proof.
  intros H. unfold RoomService.getLeaderboard, RoomService.getRoom.
  munfold. by rewrite H.
Qed.

(** C9. Both leaderboard functions ([calculateFinalRankings] and
    [getLeaderboard]) list the players by score descending, equal scores in
    insertion (join) order and, were that to tie, by name ascending; the
    entry at position i carries rank i + 1, so the ranks are 1, 2, 3, … *)
Theorem leaderboard_ranking w roomCode room :
  redis w !! roomCode = Some room ->
  exists order : list (nat * Player),
    Permutation order (decorate (Room.players room))
    /\ StronglySorted (descending_then Player.score by_position_then_name) order
    /\ ScoreService.calculateFinalRankings (Room.players room)
       = imap (fun i a => rankingOf i (snd a)) order
    /\ RoomService.getLeaderboard roomCode w
       = (Ok (imap (fun i a => leaderboardOf i (snd a)) order), w)
    /\ (forall i e,
           ScoreService.calculateFinalRankings (Room.players room) !! i = Some e ->
           RankingEntry.rank e = Z.of_nat i + 1)
    /\ (forall i e,
           imap (fun i a => leaderboardOf i (snd a)) order !! i = Some e ->
           RoomService.LeaderboardEntry.rank e = Z.of_nat i + 1).
Proof.
  intros H.
  destruct (sort_by_position Player.score (Room.players room))
    as (order & Hperm & Hsorted & Heq).
  assert (Hfinal : ScoreService.calculateFinalRankings (Room.players room)
                   = imap (fun i a => rankingOf i (snd a)) order).
  { unfold ScoreService.calculateFinalRankings, RoomService.byScoreDesc.
    rewrite Heq. change (map snd order) with (snd <$> order).
    by rewrite imap_fmap. }
  exists order. repeat split.
  - done.
  - eapply strongly_sorted_weaken; [|exact Hsorted].
    intros a b [?|[? ?]]; [by left|right]. split; [done|by left].
  - done.
  - rewrite (getLeaderboard_run _ _ _ H). unfold RoomService.byScoreDesc.
    rewrite Heq. change (map snd order) with (snd <$> order).
    by rewrite imap_fmap.
  - intros i e. rewrite Hfinal, list_lookup_imap.
    destruct (order !! i); simpl; [|done]. by intros [= <-].
  - intros i e. rewrite list_lookup_imap.
    destruct (order !! i); simpl; [|done]. by intros [= <-].
Qed.

Lemma leaderboard_ranking_witness :
  let room := Sample.room final [Sample.q1] [] None 20 in
  exists order : list (nat * Player),
    StronglySorted (descending_then Player.score by_position_then_name) order
    /\ ScoreService.calculateFinalRankings (Room.players room)
       = imap (fun i a => rankingOf i (snd a)) order.
Proof.
  intros room.
  destruct (leaderboard_ranking (Sample.world room) Sample.roomCode room)
    as (order & _ & Hs & Heq & _); [reflexivity|].
  exists order. split; [exact Hs|exact Heq].
Defined.

(** C10. A correct answer recorded with [timeElapsed] 0 is scored as if it
    had taken the whole limit: the falsy 0 is replaced by [timeLimit × 1000]
    before the points are computed, which gives
    1000 + min(priorStreak × 100, 500) and no time bonus, while the
    result's [timeElapsed] is reported as 0. *)
Theorem zero_elapsed_scored_as_full_limit w roomCode room qn answers p a :
  redis w !! roomCode = Some room ->
  let timeLimit :=
    JS.or_num (Question.timeLimit qn) (RoomSettings.timeLimit (Room.settings room)) in
  0 < timeLimit <= 3600 ->
  p ∈ Room.players room ->
  List.find (fun a => String.eqb (Answer.playerId a) (Player.id p)) answers = Some a ->
  Answer.answer a = Question.correctAnswer qn ->
  Answer.timeElapsed a = 0 ->
  exists results r,
    result (ScoreService.calculateQuestionResults roomCode qn answers) w = Ok results
    /\ r ∈ results
    /\ QuestionResult.playerId r = Player.id p
    /\ QuestionResult.isCorrect r = true
    /\ QuestionResult.pointsEarned r
       = ScoreService.calculatePoints true (timeLimit * 1000) timeLimit (Player.streak p)
    /\ QuestionResult.pointsEarned r = 1000 + Z.min (Player.streak p * 100) 500
    /\ QuestionResult.timeElapsed r = 0.
Proof.
  intros H timeLimit Hlimit Hp Hfind Hcorrect Hzero.
  eexists _, (ScoreService.resultFor qn answers timeLimit p).
  split; [unfold result; by rewrite (calculateQuestionResults_run _ _ _ _ _ H)|].
  split.
  { rewrite (sort_perm QuestionResult.pointsEarned).
    apply list_elem_of_fmap. by exists p. }
  unfold ScoreService.resultFor. rewrite Hfind. simpl. rewrite Hzero. simpl.
  unfold ScoreService.answeredCorrectly. rewrite bool_decide_eq_true_2 by done.
  repeat split.
  rewrite calculatePoints_spec. unfold Spec.points.
  rewrite timeBonus_full_limit by done. reflexivity.
Qed.

Lemma zero_elapsed_scored_as_full_limit_witness :
  let answers := [Answer.mk "sock-alice" 0 OptB Sample.t0 0] in
  let room := Sample.room question [Sample.q1] answers (Some Sample.t0) 20 in
  exists results r,
    result (ScoreService.calculateQuestionResults Sample.roomCode Sample.q1 answers)
           (Sample.world room) = Ok results
    /\ r ∈ results
    /\ QuestionResult.playerId r = "sock-alice"
    /\ QuestionResult.pointsEarned r = 1000
    /\ QuestionResult.timeElapsed r = 0.
Proof.
  intros answers room.
  destruct (zero_elapsed_scored_as_full_limit (Sample.world room) Sample.roomCode
              room Sample.q1 answers Sample.alice (Answer.mk "sock-alice" 0 OptB Sample.t0 0))
    as (results & r & Hres & Hin & Hid & _ & _ & Hpts & Hel).
  - reflexivity.
  - simpl. lia.
  - simpl. left.
  - reflexivity.
  - reflexivity.
  - reflexivity.
  - exists results, r. repeat split; assumption.
Defined.

(** ** Restart *)

Lemma restartGame_run w roomCode room :
  redis w !! roomCode = Some room ->
  GameService.restartGame roomCode w
  = (Ok tt,
     mkWorld
       (<[roomCode :=
            Room.mk (Room.code room) (Room.tvSocketId room) lobby
                    (map RoomService.resetPlayer (Room.players room)) [] 0
                    (Some []) None (Room.settings room) (Room.createdAt room)]>
          (redis w))
       (delete roomCode (timers w))
       (delete roomCode (timerIntervals w))
       (startDelays w)
       (emitted w)).
Proof.
  intros H.
  unfold GameService.restartGame, GameService.clearTimer,
    GameService.clearTimerInterval, RoomService.resetRoom,
    RoomService.getRoom, RoomService.updateRoom.
  munfold. simpl. by rewrite H.
Qed.

Lemma restart_handler_run socket roomCode w room :
  Socket.isTv socket = true ->
  redis w !! roomCode = Some room ->
  GameHandler.restart socket roomCode w
  = (Ok (ackOk []),
     sent [mkEmitted roomCode (Some lobby) "game:restarted"
             (JObj [("phase", JStr "lobby")])]
          (run (GameService.restartGame roomCode) w)).
Proof.
  intros Htv H. unfold run.
  unfold GameHandler.restart, RoomService.getRoom, emit. munfold. simpl.
  rewrite H, Htv. simpl. rewrite (restartGame_run _ _ _ H). simpl.
  by rewrite lookup_insert_eq.
Qed.

(** C8. After a restart of an existing room the phase is lobby; questions,
    current answers and question start time are cleared and the question
    index is 0; every player has score 0 and streak 0; the player list
    (ids, names, avatars, jingle ids, connection, host and ready flags, in
    join order) and the settings are as before, as are the room's code,
    host socket and creation time, and every other room.  The [game:restart]
    handler, for the host, does exactly this and broadcasts
    [game:restarted]. *)
Theorem restart_resets_game_keeps_players w roomCode room :
  redis w !! roomCode = Some room ->
  let w' := run (GameService.restartGame roomCode) w in
  exists room',
    redis w' !! roomCode = Some room'
    /\ Room.phase room' = lobby
    /\ Room.questions room' = []
    /\ Room.currentAnswers room' = Some []
    /\ Room.questionStartTime room' = None
    /\ Room.currentQuestionIndex room' = 0
    /\ Forall (fun p => Player.score p = 0 /\ Player.streak p = 0) (Room.players room')
    /\ Forall2
         (fun p p' =>
            Player.id p' = Player.id p
            /\ Player.name p' = Player.name p
            /\ Player.avatar p' = Player.avatar p
            /\ Player.jingleId p' = Player.jingleId p
            /\ Player.isConnected p' = Player.isConnected p
            /\ Player.isHost p' = Player.isHost p
            /\ Player.isReady p' = Player.isReady p)
         (Room.players room) (Room.players room')
    /\ Room.settings room' = Room.settings room
    /\ Room.code room' = Room.code room
    /\ Room.tvSocketId room' = Room.tvSocketId room
    /\ Room.createdAt room' = Room.createdAt room
    /\ (forall other, other <> roomCode -> redis w' !! other = redis w !! other)
    /\ (forall socket,
           Socket.isTv socket = true ->
           let w'' := run (GameHandler.restart socket roomCode) w in
           redis w'' = redis w'
           /\ events w'' = events w ++ ["game:restarted"]).
Proof.
  intros H w'. subst w'. unfold run.
  rewrite (restartGame_run _ _ _ H). simpl.
  eexists. split; [apply lookup_insert_eq|]. simpl.
  do 5 (split; [reflexivity|]).
  split.
  { apply Forall_forall. intros p Hp.
    apply list_elem_of_fmap in Hp as (q & -> & _). by split. }
  split.
  { induction (Room.players room) as [|p ps IH]; simpl; constructor; [|exact IH].
    repeat split. }
  do 4 (split; [reflexivity|]).
  split.
  { intros other Hne. by apply lookup_insert_ne. }
  intros socket Htv.
  rewrite (restart_handler_run _ _ _ _ Htv H). unfold run.
  rewrite (restartGame_run _ _ _ H). simpl.
  split; [reflexivity|]. unfold events. simpl. by rewrite map_app.
Qed.

Lemma restart_resets_game_keeps_players_witness :
  let room := Sample.room final [Sample.q1] [] (Some Sample.t0) 20 in
  exists room',
    redis (run (GameService.restartGame Sample.roomCode) (Sample.world room))
      !! Sample.roomCode = Some room'
    /\ Room.phase room' = lobby
    /\ Room.questions room' = []
    /\ Room.settings room' = Room.settings room.
Proof.
  intros room.
  destruct (restart_resets_game_keeps_players (Sample.world room) Sample.roomCode room)
    as (room' & H1 & H2 & H3 & _ & _ & _ & _ & _ & H4 & _); [reflexivity|].
  exists room'. repeat split; assumption.
Defined.

(** ** Running the room service *)

Lemma redis_stored c r w : redis (stored c r w) !! c = Some r.
Proof. apply lookup_insert_eq. Qed.

Ltac run_room_service H :=
  unfold RoomService.getRoom, RoomService.updateRoom; munfold; simpl;
  rewrite H; reflexivity.

Lemma updatePhase_run w c room ph :
  redis w !! c = Some room ->
  RoomService.updatePhase c ph w = (Ok tt, stored c (RoomUpd.with_phase ph room) w).
Proof. intros H. unfold RoomService.updatePhase. run_room_service H. Qed.

(** ** Answer submission *)

Section Submit.
Context (now : Z) (socket : Socket.t) (roomCode : string)
        (answer : AnswerOption) (timestamp : option Z).
Context (w : World) (room : Room).

Let playerId := default (Socket.id socket) (Socket.playerId socket).
Let recorded :=
  RoomUpd.with_currentAnswers
    (Some (default [] (Room.currentAnswers room)
           ++ [AnswerHandler.answerRecord now room playerId answer timestamp]))
    room.
Let answerCount := AnswerHandler.answerCountAt (Room.currentQuestionIndex room) recorded.
Let connectedPlayers := AnswerHandler.connectedCount recorded.
Let counts (countField : string) : JSON :=
  JObj [("playerId", JStr playerId); (countField, JNum answerCount);
        ("totalPlayers", JNum connectedPlayers)].

Lemma submit_rejected_outside_question :
  redis w !! roomCode = Some room ->
  Room.phase room <> question ->
  AnswerHandler.submit now socket roomCode (Some answer) timestamp w
  = (Ok (ackError "Not accepting answers"), w).
Proof using Type.
  intros H Hph. unfold AnswerHandler.submit, RoomService.getRoom. munfold. simpl.
  rewrite H. by rewrite bool_decide_eq_false_2.
Qed.

Lemma submit_admitted :
  redis w !! roomCode = Some room ->
  Room.phase room = question ->
  AnswerHandler.alreadyAnswered room playerId = false ->
  AnswerHandler.submit now socket roomCode (Some answer) timestamp w
  = (Ok (ackOk [("accepted", JBool true)]),
     sent ([mkEmitted roomCode (Some question) "player:answered" (counts "answeredCount");
            mkEmitted roomCode (Some question) "answer:received" (counts "answerCount")]
           ++ (if connectedPlayers <=? answerCount
               then [mkEmitted roomCode (Some question) "answer:all-received" (JObj [])]
               else []))
          (stored roomCode recorded w)).
Proof using Type.
  intros H Hph Hnew.
  unfold AnswerHandler.submit, RoomService.getRoom, RoomService.recordAnswer,
    RoomService.updateRoom, emit. munfold. simpl.
  rewrite H. rewrite bool_decide_eq_true_2 by done. simpl.
  fold playerId. rewrite Hnew. simpl. rewrite H. simpl.
  repeat (progress (simpl; rewrite ?lookup_insert_eq)).
  fold playerId. fold recorded. fold answerCount. fold connectedPlayers.
  destruct (connectedPlayers <=? answerCount);
    repeat (progress (simpl; rewrite ?lookup_insert_eq));
    rewrite Hph; unfold sent, stored, set_emitted, set_redis; simpl;
    rewrite <- ?app_assoc; reflexivity.
Qed.

End Submit.

Lemma submitV1_admitted now socket roomCode answer timestamp w room :
  let playerId := default (Socket.id socket) (Socket.playerId socket) in
  let recorded :=
    withAnswer (AnswerHandler.answerRecord now room playerId answer timestamp) room in
  redis w !! roomCode = Some room ->
  Room.phase room = question ->
  AnswerHandler.alreadyAnswered room playerId = false ->
  AnswerHandlerV1.submit now socket roomCode (Some answer) timestamp w
  = (Ok (ackOk [("accepted", JBool true)]),
     sent ([mkEmitted roomCode (Some question) "answer:received"
              (JObj [("playerId", JStr playerId);
                     ("answerCount",
                      JNum (Z.of_nat (length (default [] (Room.currentAnswers room))) + 1));
                     ("totalPlayers", JNum (AnswerHandler.connectedCount room))])]
           ++ (if AnswerHandler.connectedCount recorded
                  <=? AnswerHandler.answerCountAt (Room.currentQuestionIndex room) recorded
               then [mkEmitted roomCode (Some question) "answer:all-received" (JObj [])]
               else []))
          (stored roomCode recorded w)).
Proof.
  intros playerId recorded H Hph Hnew.
  unfold AnswerHandlerV1.submit, RoomService.getRoom, RoomService.recordAnswer,
    RoomService.updateRoom, emit. munfold. simpl.
  rewrite H. rewrite bool_decide_eq_true_2 by done. simpl.
  fold playerId. rewrite Hnew. simpl. rewrite H. simpl.
  repeat (progress (simpl; rewrite ?lookup_insert_eq)).
  fold playerId. fold (withAnswer (AnswerHandler.answerRecord now room playerId answer timestamp) room).
  fold recorded.
  destruct (AnswerHandler.connectedCount recorded <=? _);
    repeat (progress (simpl; rewrite ?lookup_insert_eq));
    rewrite Hph; unfold sent, stored, set_emitted, set_redis; simpl;
    rewrite <- ?app_assoc; reflexivity.
Qed.

(** ** Showing a question *)

Lemma showQuestion_run now c w room qn :
  redis w !! c = Some room ->
  JS.index (Room.questions room) (Room.currentQuestionIndex room) = Some qn ->
  let timeLimit := RoomSettings.timeLimit (Room.settings room) in
  GameService.showQuestion now c w
  = (Ok tt,
     mkWorld
       (<[c := shown now room]> (redis w))
       (<[c := mkTimeout (now + (timeLimit + 1) * 1000) QuestionTimeout]> (timers w))
       (<[c := mkInterval timeLimit (now + 1000)]> (timerIntervals w))
       (startDelays w)
       (emitted w
        ++ [mkEmitted c (Some question) "game:question"
              (GameService.questionPayload (Room.currentQuestionIndex room) room qn
                                           timeLimit)])).
Proof.
  intros H Hq timeLimit.
  unfold GameService.showQuestion, RoomService.getRoom,
    RoomService.clearCurrentAnswers, RoomService.setQuestionStartTime,
    RoomService.updatePhase, RoomService.updateRoom,
    GameService.clearTimer, GameService.clearTimerInterval, emit.
  munfold. simpl. rewrite H, Hq.
  repeat (progress (simpl; rewrite ?H, ?lookup_insert_eq)).
  unfold set_redis, set_timers, set_timerIntervals, set_emitted. simpl.
  rewrite !insert_insert_eq, !insert_delete_eq. reflexivity.
Qed.

Lemma timerFires_not_due now c w t :
  timers w !! c = Some t -> now < fireAt t -> timerFires now c w = (Ok tt, w).
Proof.
  intros H Hlt. unfold timerFires. munfold. rewrite H.
  destruct (fireAt t <=? now) eqn:E; [apply Z.leb_le in E; lia|done].
Qed.

(** C3, as the engine has it.  [answer:submit] compares nothing with the
    clock: from a player who has not yet answered, a submission is accepted
    whenever the stored phase is question — at
    questionStartTime + timeLimit·1000 − 1 ms and at
    questionStartTime + timeLimit·1000 + 1 ms alike — and rejected with
    "Not accepting answers" in every other phase.  The phase stays question
    until the deadline that [showQuestion] arms (timeLimit + 1) s after the
    start comes due; before that instant the timer does nothing. *)
Theorem answers_admitted_while_phase_is_question
    w roomCode room socket answer timestamp start timeLimit :
  redis w !! roomCode = Some room ->
  Room.questionStartTime room = Some start ->
  AnswerHandler.alreadyAnswered room
    (default (Socket.id socket) (Socket.playerId socket)) = false ->
  (Room.phase room = question ->
   forall now,
     (now = start + timeLimit * 1000 - 1 \/ now = start + timeLimit * 1000 + 1) ->
     result (AnswerHandler.submit now socket roomCode (Some answer) timestamp) w
     = Ok (ackOk [("accepted", JBool true)])
     /\ result (AnswerHandlerV1.submit now socket roomCode (Some answer) timestamp) w
        = Ok (ackOk [("accepted", JBool true)]))
  /\ (Room.phase room <> question ->
      forall now,
        AnswerHandler.submit now socket roomCode (Some answer) timestamp w
        = (Ok (ackError "Not accepting answers"), w))
  /\ (forall now0 qn,
        JS.index (Room.questions room) (Room.currentQuestionIndex room) = Some qn ->
        let w' := run (GameService.showQuestion now0 roomCode) w in
        let limit := RoomSettings.timeLimit (Room.settings room) in
        (Room.phase <$> redis w' !! roomCode) = Some question
        /\ (Room.questionStartTime <$> redis w' !! roomCode) = Some (Some now0)
        /\ timers w' !! roomCode
           = Some (mkTimeout (now0 + (limit + 1) * 1000) QuestionTimeout)
        /\ forall now, now < now0 + (limit + 1) * 1000 ->
                       step (TimerFires now roomCode) w' = w').
Proof.
  intros H Hstart Hnew. split; [|split].
  - intros Hph now _. unfold result. split.
    + by rewrite (submit_admitted now socket roomCode answer timestamp w room H Hph Hnew).
    + by rewrite (submitV1_admitted now socket roomCode answer timestamp w room H Hph Hnew).
  - intros Hph now.
    exact (submit_rejected_outside_question now socket roomCode answer timestamp
             w room H Hph).
  - intros now0 qn Hq w' limit. subst w'. unfold run.
    rewrite (showQuestion_run now0 roomCode w room qn H Hq). simpl.
    rewrite !lookup_insert_eq. repeat split.
    intros now Hlt. unfold step, run, perform.
    erewrite timerFires_not_due; [done|simpl; apply lookup_insert_eq|simpl; fold limit; lia].
Qed.

Lemma answers_admitted_while_phase_is_question_witness :
  let room := Sample.room question [Sample.q1] [] (Some Sample.t0) 20 in
  result (AnswerHandler.submit (Sample.t0 + 20 * 1000 + 1) Sample.aliceSocket
            Sample.roomCode (Some OptB) None) (Sample.world room)
  = Ok (ackOk [("accepted", JBool true)]).
Proof.
  intros room.
  destruct (answers_admitted_while_phase_is_question (Sample.world room)
              Sample.roomCode room Sample.aliceSocket OptB None Sample.t0 20)
    as [Hin _]; [reflexivity|reflexivity|reflexivity|].
  apply Hin; [reflexivity|right; reflexivity].
Defined.

(** C3, as the specification has it, fails.  The question is shown at t0
    with a limit of 20 s; the deadline is armed for t0 + 21 000 and has not
    come due at t0 + 20 001, when Alice's answer arrives, 1 ms after the
    window: it is accepted and recorded with 20 001 ms elapsed. *)
Lemma answer_after_window_accepted :
  let w0 := Sample.world (Sample.room starting [Sample.q1] [] None 20) in
  let w1 := run (GameService.showQuestion Sample.t0 Sample.roomCode) w0 in
  let late := Sample.t0 + 20 * 1000 + 1 in
  (Room.questionStartTime <$> redis w1 !! Sample.roomCode) = Some (Some Sample.t0)
  /\ step (TimerFires late Sample.roomCode) w1 = w1
  /\ result (AnswerHandler.submit late Sample.aliceSocket Sample.roomCode
               (Some OptB) None) w1
     = Ok (ackOk [("accepted", JBool true)])
  /\ (Room.currentAnswers <$>
        redis (run (AnswerHandler.submit late Sample.aliceSocket Sample.roomCode
                      (Some OptB) None) w1) !! Sample.roomCode)
     = Some (Some [Answer.mk "sock-alice" 0 OptB late 20001]).
Proof. vm_compute. repeat split. Qed.

(** C2, as the engine has it.  When an admitted answer brings the number of
    answers to question i up to the number of connected players, the
    handler broadcasts [answer:all-received] (after [player:answered] and
    [answer:received]; the earlier variant after [answer:received]) and
    that is all: nothing but the recorded answer changes in the room, whose
    phase is still question, the timers — the pending deadline among them —
    are as they were, and no [game:reveal] is emitted. *)
Theorem all_answered_only_announced w roomCode room socket answer timestamp now :
  let playerId := default (Socket.id socket) (Socket.playerId socket) in
  let recorded :=
    withAnswer (AnswerHandler.answerRecord now room playerId answer timestamp) room in
  redis w !! roomCode = Some room ->
  Room.phase room = question ->
  AnswerHandler.alreadyAnswered room playerId = false ->
  AnswerHandler.answerCountAt (Room.currentQuestionIndex room) recorded
  = AnswerHandler.connectedCount recorded ->
  forall w',
    w' = run (AnswerHandler.submit now socket roomCode (Some answer) timestamp) w
    \/ w' = run (AnswerHandlerV1.submit now socket roomCode (Some answer) timestamp) w ->
    (exists before,
        events w' = events w ++ before ++ ["answer:all-received"]
        /\ (before = ["player:answered"; "answer:received"]
            \/ before = ["answer:received"]))
    /\ ("game:reveal" ∉ drop (length (events w)) (events w'))
    /\ redis w' = <[roomCode := recorded]> (redis w)
    /\ Room.phase recorded = question
    /\ timers w' = timers w
    /\ timerIntervals w' = timerIntervals w.
Proof.
  intros playerId recorded H Hph Hnew Hall w' [-> | ->]; unfold run.
  - rewrite (submit_admitted now socket roomCode answer timestamp w room H Hph Hnew).
    fold playerId. fold (withAnswer (AnswerHandler.answerRecord now room playerId answer timestamp) room).
    fold recorded. rewrite Hall, Z.leb_refl. simpl.
    unfold events. simpl. rewrite map_app. simpl.
    split; [exists ["player:answered"; "answer:received"]; split; [done|by left]|].
    split; [|done].
    rewrite drop_app_length. intros Hin.
    repeat (apply elem_of_cons in Hin as [Hin|Hin]; [discriminate|]).
    by apply elem_of_nil in Hin.
  - rewrite (submitV1_admitted now socket roomCode answer timestamp w room H Hph Hnew).
    fold playerId. fold recorded. rewrite Hall, Z.leb_refl. simpl.
    unfold events. simpl. rewrite map_app. simpl.
    split; [exists ["answer:received"]; split; [done|by right]|].
    split; [|done].
    rewrite drop_app_length. intros Hin.
    repeat (apply elem_of_cons in Hin as [Hin|Hin]; [discriminate|]).
    by apply elem_of_nil in Hin.
Qed.

Lemma all_answered_only_announced_witness :
  let answers := [Answer.mk "sock-alice" 0 OptB (Sample.t0 + 1000) 1000] in
  let w := Sample.world (Sample.room question [Sample.q1] answers (Some Sample.t0) 20) in
  let w' := run (AnswerHandler.submit (Sample.t0 + 2000) Sample.bobSocket Sample.roomCode
                   (Some OptA) None) w in
  ("game:reveal" ∉ drop (length (events w)) (events w')) /\ timers w' = timers w.
Proof.
  intros answers w w'.
  destruct (all_answered_only_announced w Sample.roomCode
              (Sample.room question [Sample.q1] answers (Some Sample.t0) 20)
              Sample.bobSocket OptA None (Sample.t0 + 2000)) with (w' := w')
    as (_ & Hno & _ & _ & Ht & _);
    [reflexivity|reflexivity|reflexivity|reflexivity|left; reflexivity|].
  split; [exact Hno|exact Ht].
Defined.

(** C2, as the specification has it, fails.  Two connected players, a 20 s
    question shown at t0; Alice answers B (correct) after 1 s, Bob answers A
    after 2 s.  The second answer is announced with [answer:all-received],
    but the room stays in phase question with the deadline still armed for
    t0 + 21 000, and when the 20 s window has elapsed there still has been
    no [game:reveal]; it comes when the deadline fires at 21 s, with 1475
    points for Alice. *)
Lemma all_answered_not_resolved :
  let w0 := Sample.world (Sample.room starting [Sample.q1] [] None 20) in
  let w1 := run (GameService.showQuestion Sample.t0 Sample.roomCode) w0 in
  let w2 := step (AnswerSubmit (Sample.t0 + 1000) Sample.aliceSocket Sample.roomCode
                               (Some OptB) None) w1 in
  let w3 := step (AnswerSubmit (Sample.t0 + 2000) Sample.bobSocket Sample.roomCode
                               (Some OptA) None) w2 in
  let w4 := step (TimerFires (Sample.t0 + 20000) Sample.roomCode) w3 in
  let w5 := step (TimerFires (Sample.t0 + 21000) Sample.roomCode) w4 in
  events w3 = ["game:question"; "player:answered"; "answer:received";
               "player:answered"; "answer:received"; "answer:all-received"]
  /\ (Room.phase <$> redis w3 !! Sample.roomCode) = Some question
  /\ timers w3 !! Sample.roomCode
     = Some (mkTimeout (Sample.t0 + 21000) QuestionTimeout)
  /\ w4 = w3
  /\ ("game:reveal" ∉ events w4)
  /\ events w5 = events w4 ++ ["game:reveal"]
  /\ (Room.phase <$> redis w5 !! Sample.roomCode) = Some reveal
  /\ (map Player.score ∘ Room.players <$> redis w5 !! Sample.roomCode)
     = Some [1475; 0].
Proof.
  vm_compute. repeat split; try reflexivity.
  intros Hin.
  repeat (apply elem_of_cons in Hin as [Hin|Hin]; [discriminate|]).
  by apply elem_of_nil in Hin.
Qed.

(** ** Time limits *)

(** C7 fails at a generated question.  The host chose 30 s with
    [quiz:set-options]; the question carries the [timeLimit: 20] the quiz
    service stamps on it.  [showQuestion] announces 30 s, counts down from
    30 and arms the deadline for 31 s, all from the room's setting; the
    scorer takes the question's own 20 s, so a correct answer after 25 s,
    well inside the announced window, is resolved at the deadline with no
    time bonus (1000 points) where the announced limit gives 83. *)
Lemma showQuestion_ignores_question_timeLimit :
  let room := Sample.room starting [Sample.q20] [] None 30 in
  let w1 := run (GameService.showQuestion Sample.t0 Sample.roomCode) (Sample.world room) in
  let w2 := step (AnswerSubmit (Sample.t0 + 25000) Sample.aliceSocket Sample.roomCode
                               (Some OptB) None) w1 in
  let w3 := step (TimerFires (Sample.t0 + 31000) Sample.roomCode) w2 in
  Question.timeLimit Sample.q20 = Some 20
  /\ (Json.field "timeLimit" ∘ payload <$> last (emitted w1)) = Some (Some (JNum 30))
  /\ (timeRemaining <$> timerIntervals w1 !! Sample.roomCode) = Some 30
  /\ (fireAt <$> timers w1 !! Sample.roomCode) = Some (Sample.t0 + 31000)
  /\ (map Answer.timeElapsed ∘ GameService.currentAnswersFor
        <$> redis w2 !! Sample.roomCode) = Some [25000]
  /\ (map Player.score ∘ Room.players <$> redis w3 !! Sample.roomCode)
     = Some [1000; 0]
  /\ ScoreService.calculatePoints true 25000 20 0 = 1000
  /\ ScoreService.calculatePoints true 25000 30 0 = 1083.
Proof. vm_compute. repeat split. Qed.

(** What [showQuestion] announces, counts down from and arms the deadline
    with is the room's setting, whatever the question says. *)
Lemma showQuestion_uses_room_setting now c w room qn :
  redis w !! c = Some room ->
  JS.index (Room.questions room) (Room.currentQuestionIndex room) = Some qn ->
  let limit := RoomSettings.timeLimit (Room.settings room) in
  let w' := run (GameService.showQuestion now c) w in
  (Json.field "timeLimit" ∘ payload <$> last (emitted w')) = Some (Some (JNum limit))
  /\ timerIntervals w' !! c = Some (mkInterval limit (now + 1000))
  /\ timers w' !! c = Some (mkTimeout (now + (limit + 1) * 1000) QuestionTimeout).
Proof.
  intros H Hq limit w'. subst w'. unfold run.
  rewrite (showQuestion_run now c w room qn H Hq). simpl.
  rewrite last_snoc, !lookup_insert_eq. simpl. done.
Qed.

(** ** Rules for promises *)

Section Rules.
Context {T U : Type}.




Lemma hoare_bind (P : World -> Prop) (R : T -> World -> Prop)
    (Q : U -> World -> Prop) E (m : M T) (f : T -> M U) :
  hoare P m R E ->
  (forall v, hoare (R v) (f v) Q E) ->
  hoare P (m ≫= f) Q E.
Proof.
  intros Hm Hf w Hw. specialize (Hm w Hw). munfold.
  destruct (m w) as [[v|e] w']; [by apply Hf|done].
Qed.

Lemma hoare_try_catch (P : World -> Prop) (Q : T -> World -> Prop) E E'
    (m : M T) (h : string -> M T) :
  hoare P m Q E' ->
  (forall e, hoare E' (h e) Q E) ->
  hoare P (try_catch m h) Q E.
Proof.
  intros Hm Hh w Hw. specialize (Hm w Hw). munfold.
  destruct (m w) as [[v|e] w']; [done|by apply Hh].
Qed.

Lemma preserves_bind (I : World -> Prop) (m : M T) (f : T -> M U) :
  preserves I m -> (forall v, preserves I (f v)) -> preserves I (m ≫= f).
Proof. intros Hm Hf. eapply hoare_bind; [exact Hm|exact Hf]. Qed.

Lemma preserves_try_catch (I : World -> Prop) (m : M T) (h : string -> M T) :
  preserves I m -> (forall e, preserves I (h e)) -> preserves I (try_catch m h).
Proof. intros Hm Hh. eapply hoare_try_catch; [exact Hm|exact Hh]. Qed.

(** A computation that keeps [R] maintains whatever [R] transports. *)
Lemma keeps_preserves (R : World -> World -> Prop) (I : World -> Prop) (m : M T) :
  (forall w w', R w w' -> I w -> I w') -> keeps R m -> preserves I m.
Proof.
  intros Hstable Hm w Hw. specialize (Hm w).
  destruct (m w) as [[v|e] w']; simpl in Hm; eauto.
Qed.

Context (R : World -> World -> Prop) `{!Reflexive R} `{!Transitive R}.

Lemma keeps_ret (v : T) : keeps R (mret v).
Proof using Reflexive0. intros w. simpl. reflexivity. Qed.

Lemma keeps_throw msg : keeps R (throw msg : M T).
Proof using Reflexive0. intros w. simpl. reflexivity. Qed.

Lemma keeps_get : keeps R get.
Proof using Reflexive0. intros w. simpl. reflexivity. Qed.

Lemma keeps_modify f : (forall w, R w (f w)) -> keeps R (modify f).
Proof. intros H w. apply H. Qed.

Lemma keeps_bind (m : M T) (f : T -> M U) :
  keeps R m -> (forall v, keeps R (f v)) -> keeps R (m ≫= f).
Proof using Transitive0.
  intros Hm Hf w. specialize (Hm w). munfold.
  destruct (m w) as [[v|e] w']; simpl in *; [|done].
  etransitivity; [exact Hm|apply Hf].
Qed.

Lemma keeps_try_catch (m : M T) (h : string -> M T) :
  keeps R m -> (forall e, keeps R (h e)) -> keeps R (try_catch m h).
Proof using Transitive0.
  intros Hm Hh w. specialize (Hm w). munfold.
  destruct (m w) as [[v|e] w']; simpl in *; [done|].
  etransitivity; [exact Hm|apply Hh].
Qed.

Lemma keeps_for_each (l : list T) (body : T -> M unit) :
  (forall x, keeps R (body x)) -> keeps R (for_each l body).
Proof using Reflexive0 Transitive0.
  intros Hb. induction l as [|x l IH]; simpl.
  - intros w. simpl. reflexivity.
  - intros w. specialize (Hb x w). munfold.
    destruct (body x w) as [[v|e] w']; simpl in *; [|done].
    etransitivity; [exact Hb|apply IH].
Qed.

End Rules.

Lemma keeps_ignore {T} (R : World -> World -> Prop)
    `{!Reflexive R} `{!Transitive R} (m : M T) :
  keeps R m -> keeps R (ignore m).
Proof.
  intros Hm. unfold ignore. apply keeps_bind; [done..|].
  intros _. by apply keeps_ret.
Qed.

Lemma preserves_ignore {T} (I : World -> Prop) (m : M T) :
  preserves I m -> preserves I (ignore m).
Proof.
  intros Hm. unfold ignore. apply preserves_bind; [done|].
  intros _ w Hw. exact Hw.
Qed.

(** Take a computation apart along its structure; [atom] is tried first on
    every piece, [side] closes the condition of a [modify]. *)
Ltac head_of t :=
  lazymatch t with
  | ?f _ => head_of f
  | _ => t
  end.

Ltac keeps_step atom side :=
  first
    [ atom
    | lazymatch goal with
      | |- keeps _ (mbind _ _) =>
          apply keeps_bind; [typeclasses eauto| |intros ?]
      | |- keeps _ (mret _) => apply keeps_ret; typeclasses eauto
      | |- keeps _ (throw _) => apply keeps_throw; typeclasses eauto
      | |- keeps _ get => apply keeps_get; typeclasses eauto
      | |- keeps _ (modify _) => apply keeps_modify; intros ?; side
      | |- keeps _ (try_catch _ _) =>
          apply keeps_try_catch; [typeclasses eauto| |intros ?]
      | |- keeps _ (for_each _ _) =>
          apply keeps_for_each; [typeclasses eauto..|intros ?]
      | |- keeps _ (ignore _) => apply keeps_ignore; [typeclasses eauto..|]
      | |- keeps _ (match ?x with _ => _ end) => destruct x
      | |- keeps _ (let _ := _ in _) => cbv zeta
      | |- keeps _ ?m => let h := head_of m in unfold h
      end ].

Ltac keeps_auto atom side := repeat keeps_step atom side.

(** ** Confidentiality: the log only grows, and discreetly *)

#[local] Instance discreet_refl : Reflexive discreet.
Proof. intros w. exists []. split; [by rewrite app_nil_r|constructor]. Qed.

#[local] Instance discreet_trans : Transitive discreet.
Proof.
  intros w1 w2 w3 (l1 & H1 & F1) (l2 & H2 & F2).
  exists (l1 ++ l2). split; [by rewrite H2, H1, app_assoc|by apply Forall_app].
Qed.




(** *** Payloads that do not mention the correct answer *)

Lemma mentions_obj k fields :
  Json.mentions k (Json.obj fields)
  = existsb (fun kv => match snd kv with
                       | Some v => String.eqb k (fst kv) || Json.mentions k v
                       | None => false
                       end) fields.
Proof.
  unfold Json.obj. simpl. induction fields as [|[k' [v|]] fields IH]; simpl;
    [done| |done]. f_equal. exact IH.
Qed.


Ltac innermost_match :=
  match goal with
  | |- context [match ?x with _ => _ end] =>
      lazymatch x with
      | context [match _ with _ => _ end] => fail
      | _ => destruct x
      end
  end.

Ltac payload :=
  repeat first
    [ reflexivity
    | rewrite mentions_obj
    | progress unfold fmap, option_fmap, option_map, from_option
    | progress simpl
    | innermost_match ].





#[local] Opaque GameService.standingsJson GameService.resultsJson.







(** *** The two places that send the correct answer *)












(** ** The question index: what leaves phase, questions and index alone *)

#[local] Instance sameProgress_refl : Reflexive sameProgress.
Proof. intros w. by split. Qed.

#[local] Instance sameProgress_trans : Transitive sameProgress.
Proof.
  intros w1 w2 w3 [H1 T1] [H2 T2]. split.
  - intros c. by rewrite H2, H1.
  - intros c t Ht. by apply T1, T2.
Qed.





























(** ** The question index: the transitions that move it *)

Lemma index_Some_range {T} (l : list T) i x :
  JS.index l i = Some x -> 0 <= i < Z.of_nat (length l).
Proof.
  unfold JS.index. destruct (i <? 0) eqn:E; [done|].
  apply Z.ltb_ge in E. intros H. apply lookup_lt_Some in H. lia.
Qed.





#[local] Opaque RoomService.drawCode.



Lemma endGame_run c w room :
  redis w !! c = Some room ->
  GameService.endGame c w
  = (Ok tt,
     mkWorld (<[c := RoomUpd.with_phase final room]> (redis w))
             (delete c (timers w)) (delete c (timerIntervals w)) (startDelays w)
             (emitted (run (GameService.endGame c) w))).
Proof.
  intros H. unfold run.
  unfold GameService.endGame, GameService.clearTimer, GameService.clearTimerInterval,
    RoomService.getRoom, RoomService.updatePhase, RoomService.getLeaderboard,
    RoomService.updateRoom, emit.
  munfold. simpl. rewrite H.
  repeat (progress (simpl; rewrite ?H, ?lookup_insert_eq)).
  reflexivity.
Qed.


Lemma stored_same c w room : redis w !! c = Some room -> stored c room w = w.
Proof.
  intros H. unfold stored, set_redis. rewrite insert_id by done. by destruct w.
Qed.














Lemma nextQuestion_run c w room :
  redis w !! c = Some room ->
  RoomService.nextQuestion c w
  = (Ok (Room.currentQuestionIndex room + 1 <? questionCount room,
         Room.currentQuestionIndex room + 1),
     stored c (RoomUpd.with_currentAnswers (Some [])
                 (RoomUpd.with_currentQuestionIndex
                    (Room.currentQuestionIndex room + 1) room)) w).
Proof.
  intros H. unfold RoomService.nextQuestion, RoomService.getRoom,
    RoomService.updateRoom. munfold. simpl. by rewrite H.
Qed.








(** ** The two invariants, as the specification states them *)


(** Acknowledgements are not broadcasts, and they are not covered: the one
    of [room:rejoin] carries the whole room record, questions and correct
    answers included, also while a question is open. *)
Example rejoin_ack_carries_correct_answer :
  let w := Sample.world (Sample.room question [Sample.q1] [] (Some Sample.t0) 20) in
  match result (RoomHandler.rejoin (Socket.mk "sock-alice-2" None None None)
                  Sample.roomCode "Alice" None None) w with
  | Ok (ack, _) => Json.mentions "correctAnswer" ack = true
  | Throw _ => False
  end.
Proof. vm_compute. reflexivity. Qed.





(** * Further properties of the engine *)

(** ** The time bonus is never negative *)








(** ** Statistics of a game *)

Section PickBetter.
Context {T R : Type} (key : T -> Z) (keyOf : R -> Z) (record : T -> R).
Hypothesis keyOf_record : forall x, keyOf (record x) = key x.

Lemma pickBetter_step seen a x :
  firstLeast key seen a ->
  exists a',
    pickBetter key keyOf record (Some (record a)) x = Some (record a')
    /\ firstLeast key (seen ++ [x]) a'.
Proof using keyOf_record.
  intros (before & after & -> & Hb & Ha). unfold pickBetter.
  rewrite keyOf_record. destruct (Z.ltb_spec (key x) (key a)) as [Hlt|Hge].
  - exists x. split; [done|]. exists (before ++ a :: after), [].
    split; [done|]. split; [|constructor].
    apply Forall_app. split.
    + eapply Forall_impl; [exact Hb|]. simpl. intros. lia.
    + constructor; [done|]. eapply Forall_impl; [exact Ha|]. simpl. intros. lia.
  - exists a. split; [done|]. exists before, (after ++ [x]).
    split; [by rewrite <- app_assoc|]. split; [done|].
    apply Forall_app. split; [done|]. by constructor.
Qed.

Lemma pickBetter_from seen a l :
  firstLeast key seen a ->
  exists a',
    fold_left (pickBetter key keyOf record) l (Some (record a)) = Some (record a')
    /\ firstLeast key (seen ++ l) a'.
Proof using keyOf_record.
  revert seen a. induction l as [|x l IH]; intros seen a Hs; cbn [fold_left].
  - exists a. by rewrite app_nil_r.
  - destruct (pickBetter_step seen a x Hs) as (a' & -> & Hs').
    destruct (IH _ _ Hs') as (a'' & Hf & Hs'').
    exists a''. split; [done|]. by rewrite <- app_assoc in Hs''.
Qed.

Lemma pickBetter_first_least l :
  match fold_left (pickBetter key keyOf record) l None with
  | None => l = []
  | Some r => exists a, r = record a /\ firstLeast key l a
  end.
Proof using keyOf_record.
  destruct l as [|x l]; simpl; [done|].
  destruct (pickBetter_from [x] x l) as (a & -> & Ha).
  - exists [], []. by repeat split.
  - by exists a.
Qed.

End PickBetter.

Lemma fasterAnswer_filter questions answers acc :
  fold_left (Statistics.fasterAnswer questions) answers acc
  = fold_left
      (pickBetter Answer.timeElapsed Statistics.FastestAnswer.time
         (fun a => Statistics.FastestAnswer.mk (Answer.playerId a) (Answer.timeElapsed a)))
      (List.filter (Statistics.isCorrect questions) answers) acc.
Proof.
  revert acc. induction answers as [|a answers IH]; intros acc; simpl; [done|].
  unfold Statistics.fasterAnswer at 2.
  destruct (Statistics.isCorrect questions a); simpl; rewrite IH; [|done].
  by destruct acc.
Qed.

Lemma longerStreak_pickBetter players acc :
  fold_left Statistics.longerStreak players acc
  = fold_left
      (pickBetter (fun p => - Player.streak p)
         (fun l => - Statistics.LongestStreak.streak l)
         (fun p => Statistics.LongestStreak.mk (Player.id p) (Player.streak p)))
      players acc.
Proof.
  revert acc. induction players as [|p players IH]; intros acc; simpl; [done|].
  rewrite IH. f_equal. destruct acc as [l|]; simpl; [|done].
  destruct (Z.ltb_spec (Statistics.LongestStreak.streak l) (Player.streak p)),
           (Z.ltb_spec (- Player.streak p) (- Statistics.LongestStreak.streak l));
    try done; lia.
Qed.

(** X2. [calculateStatistics] counts all answers and the correct ones among
    them (an answer whose question index is out of range is not correct),
    and reports as fastest the first of the correct answers with the least
    elapsed time: none exactly when no answer is correct. *)
Theorem statistics_fastest_answer players answers questions :
  let stats := Statistics.calculateStatistics players answers questions in
  let correct := List.filter (Statistics.isCorrect questions) answers in
  Statistics.totalAnswers stats = Z.of_nat (length answers)
  /\ Statistics.correctAnswers stats = Z.of_nat (length correct)
  /\ Statistics.correctAnswers stats <= Statistics.totalAnswers stats
  /\ (Statistics.fastestAnswer stats = None <-> correct = [])
  /\ (forall f,
        Statistics.fastestAnswer stats = Some f ->
        exists a,
          firstLeast Answer.timeElapsed correct a
          /\ Statistics.FastestAnswer.playerId f = Answer.playerId a
          /\ Statistics.FastestAnswer.time f = Answer.timeElapsed a).
Proof.
  intros stats correct. subst stats. unfold Statistics.calculateStatistics. simpl.
  fold correct. rewrite fasterAnswer_filter. fold correct.
  pose proof (pickBetter_first_least Answer.timeElapsed Statistics.FastestAnswer.time
                (fun a => Statistics.FastestAnswer.mk (Answer.playerId a)
                                                      (Answer.timeElapsed a))
                (fun _ => eq_refl) correct) as H.
  split; [done|]. split; [done|]. split.
  { apply inj_le. subst correct. apply filter_length_le. }
  destruct (fold_left _ correct None) as [r|].
  - destruct H as (a & -> & Ha). split.
    + split; [done|]. intros Hnil. destruct Ha as (b & c & Hl & _).
      rewrite Hnil in Hl. by destruct b.
    + intros f [= <-]. by exists a.
  - split; [done|]. intros f [=].
Qed.

Lemma statistics_fastest_answer_witness :
  let answers :=
    [Answer.mk "sock-carol" 0 OptA (Sample.t0 + 500) 500;
     Answer.mk "sock-alice" 0 OptB (Sample.t0 + 1030) 1030;
     Answer.mk "sock-bob" 0 OptB (Sample.t0 + 1010) 1010] in
  exists a,
    firstLeast Answer.timeElapsed
      (List.filter (Statistics.isCorrect [Sample.q1]) answers) a
    /\ Answer.playerId a = "sock-bob".
Proof.
  intros answers.
  destruct (statistics_fastest_answer [] answers [Sample.q1]) as (_ & _ & _ & _ & H).
  destruct (H (Statistics.FastestAnswer.mk "sock-bob" 1010)) as (a & Ha & Hid & _);
    [reflexivity|].
  exists a. split; [exact Ha|]. symmetry. exact Hid.
Defined.

(** X3. [calculateStatistics] reports as longest streak the first player
    with the greatest streak, none exactly when there are no players; with
    no players the average score is 0. *)
Theorem statistics_longest_streak players answers questions :
  let stats := Statistics.calculateStatistics players answers questions in
  (Statistics.longestStreak stats = None <-> players = [])
  /\ (forall l,
        Statistics.longestStreak stats = Some l ->
        exists before p after,
          players = before ++ p :: after
          /\ Statistics.LongestStreak.playerId l = Player.id p
          /\ Statistics.LongestStreak.streak l = Player.streak p
          /\ Forall (fun q => Player.streak q < Player.streak p) before
          /\ Forall (fun q => Player.streak q <= Player.streak p) after)
  /\ (players = [] -> Statistics.averageScore stats = 0).
Proof.
  intros stats. subst stats. unfold Statistics.calculateStatistics. simpl.
  rewrite longerStreak_pickBetter.
  pose proof (pickBetter_first_least (fun p => - Player.streak p)
                (fun l => - Statistics.LongestStreak.streak l)
                (fun p => Statistics.LongestStreak.mk (Player.id p) (Player.streak p))
                (fun _ => eq_refl) players) as H.
  split; [|split].
  - destruct (fold_left _ players None) as [r|]; [|done].
    destruct H as (a & _ & b & c & Hl & _). split; [done|].
    intros Hnil. rewrite Hnil in Hl. by destruct b.
  - intros l Hl. rewrite Hl in H. destruct H as (p & -> & before & after & Hp & Hb & Ha).
    exists before, p, after. repeat split; [done| |].
    + eapply Forall_impl; [exact Hb|]. simpl. intros. lia.
    + eapply Forall_impl; [exact Ha|]. simpl. intros. lia.
  - intros ->. reflexivity.
Qed.

Lemma statistics_longest_streak_witness :
  let players :=
    [PlayerUpd.with_streak 2 Sample.alice; PlayerUpd.with_streak 2 Sample.bob] in
  exists before p after,
    players = before ++ p :: after
    /\ Player.id p = "sock-alice"
    /\ Forall (fun q => Player.streak q <= Player.streak p) after.
Proof.
  intros players.
  destruct (statistics_longest_streak players [] []) as (_ & H & _).
  destruct (H (Statistics.LongestStreak.mk "sock-alice" 2))
    as (before & p & after & Hp & Hid & _ & _ & Ha); [reflexivity|].
  exists before, p, after. split; [exact Hp|]. split; [symmetry; exact Hid|exact Ha].
Defined.

(** The average is rounded to the nearest integer, a half upwards. *)
Example statistics_average_rounds_half_up :
  Statistics.averageScore
    (Statistics.calculateStatistics
       [PlayerUpd.with_score 1475 Sample.alice; Sample.bob] [] [])
  = 738.
Proof. vm_compute. reflexivity. Qed.

(** ** Who comes first *)

(** The head of a list sorted by descending key is the first element of
    the input with the greatest key. *)
Lemma sort_head {T} (key : T -> Z) (l : list T) :
  match head (JS.sort (fun a b => key b - key a) l) with
  | None => l = []
  | Some x => firstLeast (fun a => - key a) l x
  end.
Proof.
  induction l as [|x l IH]; simpl; [done|].
  destruct (JS.sort (fun a b => key b - key a) l) as [|m s] eqn:E; simpl in *.
  - subst l. exists [], []. by repeat split.
  - destruct IH as (before & after & -> & Hb & Ha).
    destruct (Z.leb_spec (key m - key x) 0) as [Hle|Hgt]; simpl.
    + exists [], (before ++ m :: after). split; [done|]. split; [constructor|].
      apply Forall_app. split.
      * eapply Forall_impl; [exact Hb|]. simpl. intros. lia.
      * constructor; [lia|]. eapply Forall_impl; [exact Ha|]. simpl. intros. lia.
    + exists (x :: before), after. split; [done|]. split; [|done].
      constructor; [lia|done].
Qed.

(** X4. The final ranking has one entry per player and exactly one winner,
    its first entry: the first player of the list (the earliest to join)
    among those with the highest score; equal scores do not make a second
    winner.  Without players the ranking is empty. *)
Theorem finalRankings_single_winner players :
  let ranking := ScoreService.calculateFinalRankings players in
  length ranking = length players
  /\ (forall i e,
        ranking !! i = Some e -> RankingEntry.isWinner e = bool_decide (i = 0%nat))
  /\ match head ranking with
     | None => players = []
     | Some e =>
         exists p,
           firstLeast (fun q => - Player.score q) players p
           /\ e = RankingEntry.mk (Player.id p) (Player.name p) (Player.avatar p)
                                  (Player.score p) 1 true
     end.
Proof.
  intros ranking. subst ranking. unfold ScoreService.calculateFinalRankings.
  split; [|split].
  - rewrite length_imap. apply Permutation_length, (sort_perm Player.score).
  - intros i e. rewrite list_lookup_imap.
    destruct (JS.sort RoomService.byScoreDesc players !! i) as [p|]; simpl; [|done].
    intros [= <-]. simpl. by destruct i.
  - pose proof (sort_head Player.score players) as H.
    unfold RoomService.byScoreDesc.
    destruct (JS.sort (fun a b => Player.score b - Player.score a) players) as [|p s];
      simpl in *; [done|].
    by exists p.
Qed.

Lemma finalRankings_single_winner_witness :
  let players := [Sample.alice; PlayerUpd.with_score 1475 Sample.bob] in
  exists e,
    ScoreService.calculateFinalRankings players !! 1%nat = Some e
    /\ RankingEntry.playerId e = "sock-alice"
    /\ RankingEntry.isWinner e = false.
Proof.
  intros players. eexists. split; [reflexivity|]. split; [reflexivity|].
  destruct (finalRankings_single_winner players) as (_ & H & _).
  exact (H 1%nat _ eq_refl).
Defined.

(** ** Room codes *)

Lemma alphabet_upperOrDigit n :
  RoomCode.upperOrDigit
    (default "A"%char
       (list_ascii_of_string RoomCode.ALPHABET
          !! (n mod String.length RoomCode.ALPHABET)%nat)) = true.
Proof.
  assert (Hall : forallb RoomCode.upperOrDigit
                   (list_ascii_of_string RoomCode.ALPHABET) = true)
    by (vm_compute; reflexivity).
  rewrite forallb_forall in Hall.
  destruct (list_ascii_of_string RoomCode.ALPHABET !! _) as [c|] eqn:E; [|reflexivity].
  apply Hall, list_elem_of_In. by eapply list_elem_of_lookup_2.
Qed.

Lemma generateRoomCode_valid draw :
  RoomCode.isValidRoomCode (RoomCode.generateRoomCode draw) = true.
Proof.
  unfold RoomCode.isValidRoomCode, RoomCode.matchesFormat,
    RoomCode.generateRoomCode, RoomCode.generateCode.
  cbn [RoomCode.CODE_LENGTH seq map string_of_list_ascii String.eqb String.length
       Nat.eqb negb andb list_ascii_of_string forallb].
  by rewrite !alphabet_upperOrDigit.
Qed.

Lemma drawCode_drawn gen store attempts fuel roomCode :
  RoomService.drawCode gen store attempts fuel = Some roomCode ->
  exists k, roomCode = gen k.
Proof.
  revert attempts.
  induction fuel as [|fuel IH]; intros attempts;
    with_strategy transparent [RoomService.drawCode] simpl; [done|].
  destruct (store !! gen attempts); [apply IH|].
  intros [= <-]. by exists attempts.
Qed.

(** X5. Every code [generateRoomCode] can produce — six characters of the
    alphabet — passes [isValidRoomCode], so a room that [createRoom] has
    made out of its draws is stored under a valid code. *)
Theorem generated_room_codes_are_valid draw :
  RoomCode.isValidRoomCode (RoomCode.generateRoomCode draw) = true
  /\ String.length (RoomCode.generateRoomCode draw) = RoomCode.CODE_LENGTH
  /\ (forall draws tvSocketId createdAt w room,
        result (RoomService.createRoom tvSocketId
                  (fun attempt => RoomCode.generateRoomCode (draws attempt))
                  createdAt) w = Ok room ->
        RoomCode.isValidRoomCode (Room.code room) = true).
Proof.
  split; [apply generateRoomCode_valid|]. split; [reflexivity|].
  intros draws tvSocketId createdAt w room.
  unfold result, RoomService.createRoom. munfold. simpl.
  destruct (RoomService.drawCode _ (redis w) 0 10) as [roomCode|] eqn:E; simpl; [|done].
  intros [= <-]. simpl.
  apply drawCode_drawn in E as [k ->]. apply generateRoomCode_valid.
Qed.

Lemma generated_room_codes_are_valid_witness :
  exists room,
    result (RoomService.createRoom "sock-tv"
              (fun attempt => RoomCode.generateRoomCode (fun place => attempt + 7 * place)%nat)
              "2026-01-27T00:00:00.000Z") initial = Ok room
    /\ Room.code room = "AHRY7E"
    /\ RoomCode.isValidRoomCode (Room.code room) = true.
Proof.
  eexists. split; [reflexivity|]. split; [reflexivity|].
  destruct (generated_room_codes_are_valid (fun _ => 0%nat)) as (_ & _ & H).
  apply (H (fun attempt place => (attempt + 7 * place)%nat) "sock-tv"
            "2026-01-27T00:00:00.000Z" initial).
  reflexivity.
Defined.

(** X6. The schema that validates the room code of a request and
    [isValidRoomCode] accept the same strings: those of six characters,
    each an upper-case letter or a digit.  The empty string and a
    lower-case code are refused by both. *)
Theorem roomCodeSchema_agrees_with_isValidRoomCode code :
  RoomCode.roomCodeSchema code = RoomCode.isValidRoomCode code
  /\ (RoomCode.isValidRoomCode code = true <->
      String.length code = 6%nat
      /\ Forall (fun c => RoomCode.upperOrDigit c = true) (list_ascii_of_string code)).
Proof.
  unfold RoomCode.roomCodeSchema, RoomCode.isValidRoomCode, RoomCode.matchesFormat,
    RoomCode.CODE_LENGTH.
  destruct code as [|c code]; [split; [done|]; split; [done|intros [[=] _]]|].
  cbn [String.eqb negb andb].
  destruct (Nat.eqb_spec (String.length (String c code)) 6) as [Hlen|Hlen]; simpl.
  - split; [done|].
    change (RoomCode.upperOrDigit c
            && forallb RoomCode.upperOrDigit (list_ascii_of_string code))
      with (forallb RoomCode.upperOrDigit (list_ascii_of_string (String c code))).
    rewrite forallb_forall, Forall_forall. setoid_rewrite list_elem_of_In. tauto.
  - split; [done|]. split; [done|]. intros [H _]. exfalso. exact (Hlen H).
Qed.

Example lower_case_room_code_refused :
  RoomCode.isValidRoomCode "k7mn2p" = false
  /\ RoomCode.roomCodeSchema "k7mn2p" = false
  /\ RoomCode.isValidRoomCode Sample.roomCode = true.
Proof. vm_compute. done. Qed.

(** ** Avatars *)

Lemma index_in_range {T} (l : list T) i :
  0 <= i < Z.of_nat (length l) -> exists x, JS.index l i = Some x /\ x ∈ l.
Proof.
  intros H. unfold JS.index.
  destruct (Z.ltb_spec i 0) as [?|_]; [lia|].
  destruct (lookup_lt_is_Some_2 l (Z.to_nat i)) as [x Hx]; [lia|].
  exists x. split; [done|]. by eapply list_elem_of_lookup_2.
Qed.

Lemma isValidAvatar_elem a :
  Avatars.isValidAvatar a = true <-> a ∈ Avatars.AVATAR_EMOJIS.
Proof.
  unfold Avatars.isValidAvatar. rewrite existsb_exists. split.
  - intros (x & Hx & Heq). apply String.eqb_eq in Heq as ->. by apply list_elem_of_In.
  - intros H. exists a. split; [by apply list_elem_of_In|apply String.eqb_refl].
Qed.

(** X7. [getRandomAvatar] always returns one of the sixteen avatars: for a
    seed, whatever its characters, the 32-bit hash taken modulo 16 after
    [Math.abs] is an index into the list; without a seed the index drawn
    is. *)
Theorem getRandomAvatar_is_valid seed random :
  seed <> [] \/ 0 <= random < 16 ->
  exists avatar,
    Avatars.getRandomAvatar seed random = Some avatar
    /\ Avatars.isValidAvatar avatar = true.
Proof.
  intros H. unfold Avatars.getRandomAvatar.
  destruct seed as [|c seed].
  - destruct H as [?|H]; [done|].
    destruct (index_in_range Avatars.AVATAR_EMOJIS random) as (a & Ha & Hin);
      [simpl; lia|].
    exists a. split; [done|]. by apply isValidAvatar_elem.
  - destruct (index_in_range Avatars.AVATAR_EMOJIS
                (Z.abs (fold_left Avatars.hashStep (c :: seed) 0)
                 mod Z.of_nat (length Avatars.AVATAR_EMOJIS))) as (a & Ha & Hin).
    { apply Z.mod_pos_bound. simpl. lia. }
    exists a. split; [done|]. by apply isValidAvatar_elem.
Qed.

Lemma getRandomAvatar_is_valid_witness :
  exists avatar,
    Avatars.getRandomAvatar [65; 108; 105; 99; 101] 0 = Some avatar
    /\ Avatars.isValidAvatar avatar = true.
Proof. apply getRandomAvatar_is_valid. left. discriminate. Defined.

(** *** The pool *)

Lemma avatars_nodup : NoDup Avatars.AVATAR_EMOJIS.
Proof.
  apply (bool_decide_unpack (NoDup Avatars.AVATAR_EMOJIS)). vm_compute. exact I.
Qed.

Lemma swap_perm i j a : Avatars.AvatarPool.swap i j a ≡ₚ a.
Proof.
  unfold Avatars.AvatarPool.swap.
  destruct (a !! i) as [x|] eqn:Hi; [|done].
  destruct (a !! j) as [y|] eqn:Hj; [|done].
  by apply Permutation_insert_swap.
Qed.

Lemma shuffleFrom_perm random i a :
  Avatars.AvatarPool.shuffleFrom random i a ≡ₚ a.
Proof.
  revert a. induction i as [|i IH]; intros a; simpl; [done|].
  by rewrite IH, swap_perm.
Qed.

Lemma create_poolOk random :
  poolOk (Avatars.AvatarPool.create random)
  /\ Avatars.AvatarPool.usedAvatars (Avatars.AvatarPool.create random) = ∅.
Proof.
  split; [|done]. split.
  - exact (shuffleFrom_perm random _ Avatars.AVATAR_EMOJIS).
  - apply empty_subseteq.
Qed.

Lemma getUniqueAvatar_fresh random pool :
  poolOk pool ->
  (size (Avatars.AvatarPool.usedAvatars pool) < length Avatars.AVATAR_EMOJIS)%nat ->
  exists a,
    Avatars.AvatarPool.getUniqueAvatar random pool
    = (Some a,
       Avatars.AvatarPool.mk ({[a]} ∪ Avatars.AvatarPool.usedAvatars pool)
                             (Avatars.AvatarPool.availableAvatars pool))
    /\ a ∈ Avatars.AVATAR_EMOJIS
    /\ a ∉ Avatars.AvatarPool.usedAvatars pool.
Proof.
  intros [Hperm Hused] Hsize. unfold Avatars.AvatarPool.getUniqueAvatar.
  destruct (List.find _ (Avatars.AvatarPool.availableAvatars pool)) as [a|] eqn:E.
  - apply find_some in E as [Hin Hfree]. exists a. split; [done|]. split.
    + rewrite <- Hperm. by apply list_elem_of_In.
    + by apply bool_decide_eq_true in Hfree.
  - exfalso.
    assert (Hsub : list_to_set Avatars.AVATAR_EMOJIS
                   ⊆ Avatars.AvatarPool.usedAvatars pool).
    { intros x Hx. apply elem_of_list_to_set in Hx. rewrite <- Hperm in Hx.
      apply list_elem_of_In in Hx.
      pose proof (find_none _ _ E x Hx) as Hn. simpl in Hn.
      apply bool_decide_eq_false in Hn. by apply dec_stable. }
    apply subseteq_size in Hsub.
    rewrite size_list_to_set in Hsub by apply avatars_nodup. lia.
Qed.

Lemma drawAvatars_distinct random n pool :
  poolOk pool ->
  (size (Avatars.AvatarPool.usedAvatars pool) + n <= length Avatars.AVATAR_EMOJIS)%nat ->
  exists given : list string,
    fst (drawAvatars n random pool) = Some <$> given
    /\ length given = n
    /\ NoDup given
    /\ Forall (fun a => a ∈ Avatars.AVATAR_EMOJIS
                        /\ a ∉ Avatars.AvatarPool.usedAvatars pool) given
    /\ poolOk (snd (drawAvatars n random pool))
    /\ size (Avatars.AvatarPool.usedAvatars (snd (drawAvatars n random pool)))
       = (size (Avatars.AvatarPool.usedAvatars pool) + n)%nat.
Proof.
  revert pool. induction n as [|n IH]; intros pool Hok Hsize.
  - exists []. cbn [drawAvatars fst snd length fmap list_fmap].
    repeat split; [constructor|constructor|apply Hok..|lia].
  - destruct (getUniqueAvatar_fresh random pool Hok) as (a & Hget & Hin & Hfree);
      [lia|].
    cbn [drawAvatars]. rewrite Hget.
    set (used' := {[a]} ∪ Avatars.AvatarPool.usedAvatars pool).
    set (pool' := Avatars.AvatarPool.mk used' _).
    assert (Hsize' : size used' = S (size (Avatars.AvatarPool.usedAvatars pool))).
    { unfold used'. rewrite size_union by (by apply disjoint_singleton_l).
      by rewrite size_singleton. }
    destruct (IH pool') as (given & Hg & Hlen & Hnd & Hall & Hok' & Hsz).
    { destruct Hok as [Hp Hu]. split; [done|].
      apply union_least; [|done]. apply singleton_subseteq_l.
      by apply elem_of_list_to_set. }
    { change (Avatars.AvatarPool.usedAvatars pool') with used'. lia. }
    change (Avatars.AvatarPool.usedAvatars pool') with used' in *.
    destruct (drawAvatars n random pool') as [l pool''] eqn:E.
    cbn [fst snd] in *.
    exists (a :: given). subst l. split; [done|]. split; [simpl; lia|]. split.
    { constructor; [|done]. intros Ha.
      rewrite Forall_forall in Hall. destruct (Hall a Ha) as [_ Hn].
      apply Hn. unfold used'. apply elem_of_union_l. by apply elem_of_singleton. }
    split.
    { constructor; [done|]. eapply Forall_impl; [exact Hall|].
      cbn beta. intros x [? Hx]. split; [done|].
      intros Hu. apply Hx. unfold used'. by apply elem_of_union_r. }
    split; [done|]. lia.
Qed.

(** X8. A fresh avatar pool never hands out the same avatar twice: however
    it was shuffled, the first sixteen calls of [getUniqueAvatar] return
    sixteen different avatars of the list, and [availableCount] goes down
    by one with each of them. *)
Theorem avatarPool_hands_out_distinct_avatars shuffled random n :
  (n <= 16)%nat ->
  let pool := Avatars.AvatarPool.create shuffled in
  exists given : list string,
    fst (drawAvatars n random pool) = Some <$> given
    /\ length given = n
    /\ NoDup given
    /\ Forall (fun a => Avatars.isValidAvatar a = true) given
    /\ Avatars.AvatarPool.availableCount (snd (drawAvatars n random pool))
       = 16 - Z.of_nat n.
Proof.
  intros Hn pool.
  destruct (create_poolOk shuffled) as [Hok Hempty]. fold pool in Hok, Hempty.
  destruct (drawAvatars_distinct random n pool Hok)
    as (given & Hg & Hlen & Hnd & Hall & _ & Hsz).
  { rewrite Hempty, size_empty. simpl. lia. }
  exists given. split; [done|]. split; [done|]. split; [done|]. split.
  - eapply Forall_impl; [exact Hall|]. simpl. intros a [Ha _].
    by apply isValidAvatar_elem.
  - unfold Avatars.AvatarPool.availableCount. rewrite Hsz, Hempty, size_empty.
    simpl. lia.
Qed.

Lemma avatarPool_hands_out_distinct_avatars_witness :
  let pool := Avatars.AvatarPool.create (fun i => 3 * i)%nat in
  exists given : list string,
    fst (drawAvatars 16 0 pool) = Some <$> given
    /\ NoDup given
    /\ Avatars.AvatarPool.availableCount (snd (drawAvatars 16 0 pool)) = 0.
Proof.
  intros pool.
  destruct (avatarPool_hands_out_distinct_avatars (fun i => 3 * i)%nat 0 16)
    as (given & Hg & _ & Hnd & _ & Hc); [lia|].
  exists given. split; [exact Hg|]. split; [exact Hnd|exact Hc].
Defined.

(** ** The room store *)

Lemma drawCode_first gen store attempts fuel :
  match RoomService.drawCode gen store attempts fuel with
  | Some roomCode =>
      exists k, (attempts <= k < attempts + fuel)%nat
                /\ roomCode = gen k
                /\ store !! gen k = None
                /\ forall j, (attempts <= j < k)%nat -> is_Some (store !! gen j)
  | None => forall j, (attempts <= j < attempts + fuel)%nat -> is_Some (store !! gen j)
  end.
Proof.
  revert attempts.
  induction fuel as [|fuel IH]; intros attempts;
    with_strategy transparent [RoomService.drawCode] simpl.
  - intros j Hj. lia.
  - destruct (store !! gen attempts) as [r|] eqn:E.
    + specialize (IH (S attempts)).
      destruct (RoomService.drawCode gen store (S attempts) fuel) as [c|].
      * destruct IH as (k & Hk & -> & Hfree & Hbefore).
        exists k. split; [lia|]. split; [done|]. split; [done|].
        intros j Hj. destruct (decide (j = attempts)) as [->|Hne]; [by rewrite E|].
        apply Hbefore. lia.
      * intros j Hj. destruct (decide (j = attempts)) as [->|Hne]; [by rewrite E|].
        apply IH. lia.
    + exists attempts. split; [lia|]. split; [done|]. split; [done|].
      intros j Hj. lia.
Qed.

(** X9. [createRoom] takes the first of at most ten drawn codes that is
    not in the store and stores under it a lobby room with no players, no
    questions and the default settings, leaving all other rooms as they
    are; when all ten draws are taken it throws and stores nothing. *)
Theorem createRoom_first_free_code tvSocketId gen createdAt w :
  match result (RoomService.createRoom tvSocketId gen createdAt) w with
  | Ok room =>
      (exists k, (k < 10)%nat
                 /\ Room.code room = gen k
                 /\ redis w !! gen k = None
                 /\ forall j, (j < k)%nat -> is_Some (redis w !! gen j))
      /\ room = Room.mk (Room.code room) tvSocketId lobby [] [] 0 (Some []) None
                        (RoomSettings.mk 10 20 mixed "" (Some "") 50 2) createdAt
      /\ run (RoomService.createRoom tvSocketId gen createdAt) w
         = stored (Room.code room) room w
      /\ (forall other, other <> Room.code room ->
            redis (run (RoomService.createRoom tvSocketId gen createdAt) w) !! other
            = redis w !! other)
  | Throw msg =>
      msg = "Failed to generate unique room code"
      /\ (forall j, (j < 10)%nat -> is_Some (redis w !! gen j))
      /\ run (RoomService.createRoom tvSocketId gen createdAt) w = w
  end.
Proof.
  unfold result, run, RoomService.createRoom. munfold. simpl.
  pose proof (drawCode_first gen (redis w) 0 10) as H.
  destruct (RoomService.drawCode gen (redis w) 0 10) as [roomCode|]; simpl.
  - destruct H as (k & Hk & -> & Hfree & Hbefore). split; [|split; [done|split; [done|]]].
    + exists k. split; [lia|]. split; [done|]. split; [done|].
      intros j Hj. apply Hbefore. lia.
    + intros other Hne. by apply lookup_insert_ne.
  - split; [done|]. split; [|done]. intros j Hj. apply H. lia.
Qed.

(** Ten collisions in a row: nothing is created. *)
Example createRoom_ten_collisions :
  let w := Sample.world (Sample.room lobby [] [] None 20) in
  RoomService.createRoom "sock-tv-2" (fun _ => Sample.roomCode)
                         "2026-01-27T00:00:00.000Z" w
  = (Throw "Failed to generate unique room code", w).
Proof. vm_compute. reflexivity. Qed.

Lemma addPlayer_run roomCode player w room :
  redis w !! roomCode = Some room ->
  RoomService.addPlayer roomCode player w
  = match List.find (RoomHandler.sameName (Player.name player)) (Room.players room) with
    | Some _ => (Throw "Name already taken", w)
    | None =>
        (Ok player,
         stored roomCode
           (RoomUpd.with_players (Room.players room ++ [player]) room) w)
    end.
Proof.
  intros H. unfold RoomService.addPlayer, RoomService.getRoom, RoomService.updateRoom.
  munfold. simpl. rewrite H. unfold RoomHandler.sameName.
  by destruct (List.find _ (Room.players room)).
Qed.



Lemma removePlayer_run roomCode playerId w room :
  redis w !! roomCode = Some room ->
  RoomService.removePlayer roomCode playerId w
  = (Ok tt,
     stored roomCode
       (RoomUpd.with_players
          (List.filter (fun p => negb (String.eqb (Player.id p) playerId))
                       (Room.players room)) room) w).
Proof.
  intros H. unfold RoomService.removePlayer, RoomService.getRoom,
    RoomService.updateRoom. munfold. simpl. by rewrite H.
Qed.

(** X11. After [removePlayer] no player of the room has the removed id;
    the players with another id are all still there, unchanged and in
    their order; the rest of the room and the other rooms are untouched;
    removing once more changes nothing.  Without the room nothing
    happens. *)
Theorem removePlayer_removes_exactly roomCode playerId w :
  let w' := run (RoomService.removePlayer roomCode playerId) w in
  match redis w !! roomCode with
  | None => w' = w
  | Some room =>
      exists room',
        redis w' !! roomCode = Some room'
        /\ Forall (fun p => Player.id p <> playerId) (Room.players room')
        /\ (forall p, Player.id p <> playerId ->
                      p ∈ Room.players room' <-> p ∈ Room.players room)
        /\ Room.players room' `sublist_of` Room.players room
        /\ room' = RoomUpd.with_players (Room.players room') room
        /\ (forall other, other <> roomCode -> redis w' !! other = redis w !! other)
        /\ run (RoomService.removePlayer roomCode playerId) w' = w'
  end.
Proof.
  intros w'. subst w'. unfold run.
  destruct (redis w !! roomCode) as [room|] eqn:E.
  - rewrite (removePlayer_run _ _ _ _ E). simpl.
    eexists. split; [apply lookup_insert_eq|]. simpl.
    split; [|split; [|split; [|split; [done|split]]]].
    + apply Forall_forall. intros p Hp. apply list_elem_of_In, filter_In in Hp as [_ Hp].
      apply negb_true_iff, String.eqb_neq in Hp. done.
    + intros p Hp. rewrite !list_elem_of_In, filter_In.
      apply String.eqb_neq in Hp. rewrite Hp. simpl. tauto.
    + induction (Room.players room) as [|p ps IH]; simpl; [done|].
      destruct (negb _); [by constructor|by constructor].
    + intros other Hne. by apply lookup_insert_ne.
    + erewrite removePlayer_run by apply redis_stored. simpl.
      unfold stored, set_redis, RoomUpd.with_players. simpl. f_equal.
      rewrite insert_insert_eq. do 2 f_equal.
      induction (Room.players room) as [|p ps IH]; simpl; [done|].
      destruct (negb (Player.id p =? playerId)%string) eqn:Hp; simpl;
        [by rewrite Hp, IH|done].
  - unfold RoomService.removePlayer, RoomService.getRoom. munfold. simpl. by rewrite E.
Qed.

(** ** Joining and leaving *)

Lemma sentBy_app {T} (m : M T) w l :
  emitted (run m w) = emitted w ++ l -> sentBy m w = map wire l.
Proof. intros H. unfold sentBy. by rewrite H, drop_app_length. Qed.

Lemma joinAsNew_run socket roomCode room name avatar jingleId w :
  redis w !! roomCode = Some room ->
  let newPlayer :=
    Player.mk (Socket.id socket) name avatar 0 0 jingleId true (Some false) None in
  let joined := RoomUpd.with_players (Room.players room ++ [newPlayer]) room in
  RoomHandler.joinAsNew socket roomCode room name avatar jingleId w
  = if negb (bool_decide (Room.phase room = lobby)) then
      (Ok (ackError "Game already in progress", socket), w)
    else if RoomSettings.maxPlayers (Room.settings room)
            <=? Z.of_nat (length (Room.players room)) then
      (Ok (ackError "Room is full", socket), w)
    else
      match List.find (RoomHandler.sameName name) (Room.players room) with
      | Some _ => (Throw "Name already taken", w)
      | None =>
          (Ok (Json.obj [("success", Some (JBool true));
                         ("player", Some (Json.player newPlayer));
                         ("room", Some (RoomJson.room joined))],
               RoomHandler.asPlayer socket roomCode),
           sent [mkEmitted roomCode (Some (Room.phase room)) "room:player-joined"
                   (JObj [("player", Json.player newPlayer);
                          ("playerCount",
                           JNum (Z.of_nat (length (Room.players room)) + 1))])]
                (stored roomCode joined w))
      end.
Proof.
  intros H newPlayer joined. unfold RoomHandler.joinAsNew.
  destruct (negb (bool_decide (Room.phase room = lobby))); [done|].
  destruct (RoomSettings.maxPlayers (Room.settings room) <=? _); [done|].
  munfold. fold newPlayer. rewrite (addPlayer_run _ _ _ _ H).
  change (Player.name newPlayer) with name.
  destruct (List.find (RoomHandler.sameName name) (Room.players room)); [done|].
  fold joined. unfold emit, RoomService.getRoom. munfold. simpl.
  by rewrite lookup_insert_eq.
Qed.

(** X12. [room:join] with a player: outside the lobby the answer is "Game
    already in progress", in a full room "Room is full", with a name
    already taken (case-insensitively) "Failed to join room", and in all
    three cases nothing changes.  Otherwise the connection becomes a player
    whose id is the socket id, with score 0, streak 0 and connected,
    appended to the room's players; [room:player-joined] announces it with
    the new player count. *)
Theorem join_guards_and_effect socket roomCode joining isTvType w room :
  redis w !! roomCode = Some room ->
  let name := RoomHandler.JoinPlayer.name joining in
  let join :=
    RoomHandler.join socket (Some roomCode) (Some joining) isTvType true true in
  let newPlayer :=
    Player.mk (Socket.id socket) name (RoomHandler.JoinPlayer.avatar joining) 0 0
              (RoomHandler.JoinPlayer.jingleId joining) true (Some false) None in
  (Room.phase room <> lobby ->
   join w = (Ok (ackError "Game already in progress", socket), w))
  /\ (Room.phase room = lobby ->
      RoomSettings.maxPlayers (Room.settings room)
      <= Z.of_nat (length (Room.players room)) ->
      join w = (Ok (ackError "Room is full", socket), w))
  /\ (Room.phase room = lobby ->
      Z.of_nat (length (Room.players room))
      < RoomSettings.maxPlayers (Room.settings room) ->
      (exists p, p ∈ Room.players room
                 /\ toLowerCase (Player.name p) = toLowerCase name) ->
      join w = (Ok (ackError "Failed to join room", socket), w))
  /\ (Room.phase room = lobby ->
      Z.of_nat (length (Room.players room))
      < RoomSettings.maxPlayers (Room.settings room) ->
      (forall p, p ∈ Room.players room ->
                 toLowerCase (Player.name p) <> toLowerCase name) ->
      (exists ack, result join w = Ok (ack, RoomHandler.asPlayer socket roomCode))
      /\ redis (run join w)
         = <[roomCode := RoomUpd.with_players (Room.players room ++ [newPlayer]) room]>
             (redis w)
      /\ sentBy join w
         = [(roomCode, "room:player-joined",
             JObj [("player", Json.player newPlayer);
                   ("playerCount",
                    JNum (Z.of_nat (length (Room.players room)) + 1))])]).
Proof.
  intros H name join newPlayer.
  assert (Hjoin : join w
                  = try_catch
                      (RoomHandler.joinAsNew socket roomCode room name
                         (RoomHandler.JoinPlayer.avatar joining)
                         (RoomHandler.JoinPlayer.jingleId joining))
                      (fun _ => mret (ackError "Failed to join room", socket)) w).
  { unfold join, RoomHandler.join, RoomService.getRoom. munfold. simpl. by rewrite H. }
  unfold sentBy, result, run. rewrite !Hjoin. clear Hjoin.
  unfold try_catch. rewrite (joinAsNew_run _ _ _ _ _ _ _ H).
  split; [|split; [|split]].
  - intros Hph. by rewrite bool_decide_eq_false_2.
  - intros Hph Hfull. rewrite bool_decide_eq_true_2 by done. simpl.
    destruct (Z.leb_spec (RoomSettings.maxPlayers (Room.settings room))
                (Z.of_nat (length (Room.players room)))); [done|lia].
  - intros Hph Hroom (p & Hin & Hp). rewrite bool_decide_eq_true_2 by done. simpl.
    destruct (Z.leb_spec (RoomSettings.maxPlayers (Room.settings room))
                (Z.of_nat (length (Room.players room)))); [lia|].
    destruct (List.find _ (Room.players room)) eqn:F; [done|].
    apply list_elem_of_In in Hin. pose proof (find_none _ _ F p Hin) as Hn.
    unfold RoomHandler.sameName in Hn. by rewrite Hp, String.eqb_refl in Hn.
  - intros Hph Hroom Hfree. rewrite bool_decide_eq_true_2 by done. simpl.
    destruct (Z.leb_spec (RoomSettings.maxPlayers (Room.settings room))
                (Z.of_nat (length (Room.players room)))); [lia|].
    destruct (List.find _ (Room.players room)) as [q|] eqn:F.
    + apply find_some in F as [Hin Hq]. apply String.eqb_eq in Hq.
      apply list_elem_of_In in Hin. by destruct (Hfree q Hin).
    + simpl. split; [by eexists|]. split; [done|]. by rewrite drop_app_length.
Qed.

Lemma join_guards_and_effect_witness :
  let w := Sample.world (Sample.room lobby [] [] None 20) in
  let join :=
    RoomHandler.join (Socket.mk "sock-carol" None None None) (Some Sample.roomCode)
      (Some (RoomHandler.JoinPlayer.mk "Carol" "🐸" None)) false true true in
  (Room.players <$> redis (run join w) !! Sample.roomCode)
  = Some [Sample.alice; Sample.bob;
          Player.mk "sock-carol" "Carol" "🐸" 0 0 None true (Some false) None].
Proof.
  intros w join.
  destruct (join_guards_and_effect (Socket.mk "sock-carol" None None None)
              Sample.roomCode (RoomHandler.JoinPlayer.mk "Carol" "🐸" None) false w
              (Sample.room lobby [] [] None 20) eq_refl) as (_ & _ & _ & H).
  destruct H as (_ & Hredis & _).
  - reflexivity.
  - simpl. lia.
  - intros p Hp. repeat (apply elem_of_cons in Hp as [->|Hp]); [discriminate..|].
    by apply elem_of_nil in Hp.
  - unfold join. rewrite Hredis. reflexivity.
Defined.

(** X13. [room:kick] is open to a connection in the TV role and to the one
    whose socket id is the room's [tvSocketId]; anybody else gets "Only
    host can kick players" and nothing changes.  The kick removes every
    player with that id, tells the kicked socket's own channel
    [room:kicked] and the room [room:player-left], with a player count of
    one less than before whether or not somebody was removed. *)
Theorem kick_host_only socket roomCode playerId w room :
  redis w !! roomCode = Some room ->
  let kick := RoomHandler.kick socket roomCode playerId in
  (Socket.role socket <> Some tv -> Room.tvSocketId room <> Socket.id socket ->
   kick w = (Ok (ackError "Only host can kick players"), w))
  /\ (Socket.role socket = Some tv \/ Room.tvSocketId room = Socket.id socket ->
      result kick w = Ok (ackOk [])
      /\ redis (run kick w)
         = <[roomCode :=
               RoomUpd.with_players
                 (List.filter (fun p => negb (String.eqb (Player.id p) playerId))
                              (Room.players room)) room]> (redis w)
      /\ sentBy kick w
         = [(playerId, "room:kicked", JObj [("reason", JStr "Kicked by host")]);
            (roomCode, "room:player-left",
             JObj [("playerId", JStr playerId);
                   ("playerCount",
                    JNum (Z.of_nat (length (Room.players room)) - 1))])]).
Proof.
  intros H kick. unfold sentBy, result, run, kick, RoomHandler.kick, RoomService.getRoom.
  munfold. simpl. rewrite H. unfold Socket.isTv. split.
  - intros Hrole Htv. rewrite bool_decide_eq_false_2 by done.
    apply String.eqb_neq in Htv. by rewrite Htv.
  - intros Hhost.
    assert (negb (bool_decide (Socket.role socket = Some tv))
            && negb (Room.tvSocketId room =? Socket.id socket)%string = false) as ->.
    { destruct Hhost as [Hr|Ht].
      - by rewrite bool_decide_eq_true_2.
      - apply String.eqb_eq in Ht. rewrite Ht. apply andb_false_r. }
    rewrite (removePlayer_run _ _ _ _ H). unfold emit. munfold. simpl.
    split; [done|]. split; [done|]. by rewrite <- app_assoc, drop_app_length.
Qed.

Lemma kick_host_only_witness :
  let w := Sample.world (Sample.room lobby [] [] None 20) in
  (map Player.name ∘ Room.players
     <$> redis (run (RoomHandler.kick Sample.tvSocket Sample.roomCode "sock-alice") w)
           !! Sample.roomCode)
  = Some ["Bob"]
  /\ RoomHandler.kick Sample.bobSocket Sample.roomCode "sock-alice" w
     = (Ok (ackError "Only host can kick players"), w).
Proof.
  intros w. split.
  - destruct (kick_host_only Sample.tvSocket Sample.roomCode "sock-alice" w
                (Sample.room lobby [] [] None 20) eq_refl) as [_ H].
    destruct H as (_ & -> & _); [by left|reflexivity].
  - destruct (kick_host_only Sample.bobSocket Sample.roomCode "sock-alice" w
                (Sample.room lobby [] [] None 20) eq_refl) as [H _].
    apply H; discriminate.
Defined.

(** ** What only the host may do *)

Ltac refuse_guest H Hrole :=
  unfold RoomService.getRoom; munfold; simpl; rewrite H; unfold Socket.isTv;
  rewrite (bool_decide_eq_false_2 _ Hrole); reflexivity.

(** X14. The events that steer a game are the host's: sent on a connection
    that is not in the TV role, [game:start], [game:next-question],
    [game:pause], [game:resume], [game:end], [game:restart],
    [quiz:generate], [quiz:select-category], [quiz:set-options],
    [room:update-settings] and [answer:timeout] are each answered with
    their "Only host …" error and change nothing: no room, no timer, no
    message. *)
Theorem host_only_events socket roomCode w room :
  redis w !! roomCode = Some room ->
  Socket.role socket <> Some tv ->
  (forall now, GameHandler.start now socket roomCode w
               = (Ok (ackError "Only host can start game"), w))
  /\ (forall now, GameHandler.nextQuestion now socket roomCode w
                  = (Ok (ackError "Only host can control game"), w))
  /\ GameHandler.pause socket roomCode w = (Ok (ackError "Only host can pause"), w)
  /\ GameHandler.resume socket roomCode w = (Ok (ackError "Only host can resume"), w)
  /\ GameHandler.endGame socket roomCode w
     = (Ok (ackError "Only host can end game"), w)
  /\ GameHandler.restart socket roomCode w
     = (Ok (ackError "Only host can restart"), w)
  /\ (forall category questionCount generated,
        QuizHandler.generate socket None roomCode category questionCount generated w
        = (Ok (ackError "Only host can generate quiz"), w))
  /\ (forall categoryId categoryName,
        QuizHandler.selectCategory socket roomCode categoryId categoryName w
        = (Ok (ackError "Only host can select category"), w))
  /\ (forall questionCount difficulty timeLimit,
        QuizHandler.setOptions socket roomCode questionCount difficulty timeLimit w
        = (Ok (ackError "Only host can set options"), w))
  /\ (forall settings,
        RoomHandler.updateSettings socket roomCode settings w
        = (Ok (ackError "Only host can update settings"), w))
  /\ AnswerHandler.timeout socket roomCode w
     = (Ok (ackError "Only TV can trigger timeout"), w).
Proof.
  intros H Hrole.
  repeat split; intros;
    [ unfold GameHandler.start | unfold GameHandler.nextQuestion
    | unfold GameHandler.pause | unfold GameHandler.resume
    | unfold GameHandler.endGame | unfold GameHandler.restart
    | unfold QuizHandler.generate | unfold QuizHandler.selectCategory
    | unfold QuizHandler.setOptions | unfold RoomHandler.updateSettings
    | unfold AnswerHandler.timeout ];
    refuse_guest H Hrole.
Qed.

Lemma host_only_events_witness :
  let w := Sample.world (Sample.room lobby [Sample.q1] [] None 20) in
  GameHandler.start Sample.t0 Sample.aliceSocket Sample.roomCode w
  = (Ok (ackError "Only host can start game"), w)
  /\ GameHandler.restart Sample.aliceSocket Sample.roomCode w
     = (Ok (ackError "Only host can restart"), w).
Proof.
  intros w.
  destruct (host_only_events Sample.aliceSocket Sample.roomCode w
              (Sample.room lobby [Sample.q1] [] None 20))
    as (H1 & _ & _ & _ & _ & H2 & _); [reflexivity|discriminate|].
  split; [apply H1|exact H2].
Defined.

(** ** Starting a game *)

Lemma start_run now socket roomCode w room :
  redis w !! roomCode = Some room ->
  Socket.role socket = Some tv ->
  RoomSettings.minPlayers (Room.settings room) <= Z.of_nat (length (Room.players room)) ->
  Room.questions room <> [] ->
  GameHandler.start now socket roomCode w
  = (Ok (ackOk []),
     set_startDelays (startDelays w ++ [(now + 2000, roomCode)])
       (sent [mkEmitted roomCode (Some starting) "game:started"
                (JObj [("phase", JStr "question");
                       ("questionCount", JNum (Z.of_nat (length (Room.questions room))));
                       ("currentQuestion", JNum 0)])]
             (stored roomCode (RoomUpd.with_phase starting room) w))).
Proof.
  intros H Hrole Hmin Hqs.
  unfold GameHandler.start, GameService.startGame, RoomService.updatePhase,
    RoomService.getRoom, RoomService.updateRoom, emit. munfold. simpl.
  rewrite H. unfold Socket.isTv. rewrite (bool_decide_eq_true_2 _ Hrole). simpl.
  destruct (Z.ltb_spec (Z.of_nat (length (Room.players room)))
              (RoomSettings.minPlayers (Room.settings room))); [lia|].
  destruct (Room.questions room) as [|q qs] eqn:E; [done|]. simpl.
  rewrite H. simpl. rewrite H. simpl. rewrite lookup_insert_eq. reflexivity.
Qed.

Lemma startDelay_not_due now t roomCode l :
  Forall (fun d => snd d <> roomCode) l ->
  t < now + 2000 ->
  existsb (isDue t roomCode) (l ++ [(now + 2000, roomCode)]) = false.
Proof.
  intros Hl Ht. induction Hl as [|d l Hd Hl IH]; simpl.
  - unfold isDue. simpl. destruct (Z.leb_spec (now + 2000) t); [lia|done].
  - unfold isDue at 1. apply String.eqb_neq in Hd. by rewrite Hd, andb_false_r.
Qed.

Lemma startDelay_due now t roomCode l :
  Forall (fun d => snd d <> roomCode) l ->
  now + 2000 <= t ->
  existsb (isDue t roomCode) (l ++ [(now + 2000, roomCode)]) = true
  /\ remove_first (isDue t roomCode) (l ++ [(now + 2000, roomCode)]) = l.
Proof.
  intros Hl Ht. split.
  - rewrite existsb_app. apply orb_true_iff. right. simpl. unfold isDue. simpl.
    rewrite String.eqb_refl. destruct (Z.leb_spec (now + 2000) t); [done|lia].
  - induction Hl as [|d l Hd Hl IH]; simpl.
    + unfold isDue. simpl. rewrite String.eqb_refl.
      destruct (Z.leb_spec (now + 2000) t); [done|lia].
    + unfold isDue at 1. apply String.eqb_neq in Hd. rewrite Hd, andb_false_r.
      by rewrite IH.
Qed.

(** X15. [game:start] from the host is refused, with nothing changed, while
    the room has fewer players than [minPlayers] ("Need at least N players
    to start") or no questions ("No questions loaded").  Otherwise the
    phase becomes starting, [game:started] goes out (announcing phase
    question) and the first question is shown 2 s later, not before: only
    then does the phase become question, [game:question] go out and the
    answer deadline get armed, counted from that moment. *)
Theorem game_start_shows_question_after_delay now socket roomCode w room :
  redis w !! roomCode = Some room ->
  Socket.role socket = Some tv ->
  let start := GameHandler.start now socket roomCode in
  let players := Z.of_nat (length (Room.players room)) in
  let minPlayers := RoomSettings.minPlayers (Room.settings room) in
  let limit := RoomSettings.timeLimit (Room.settings room) in
  (players < minPlayers ->
   start w
   = (Ok (ackError ("Need at least " +:+ pretty minPlayers +:+ " players to start")),
      w))
  /\ (minPlayers <= players -> Room.questions room = [] ->
      start w = (Ok (ackError "No questions loaded"), w))
  /\ (forall qn,
        minPlayers <= players ->
        JS.index (Room.questions room) (Room.currentQuestionIndex room) = Some qn ->
        Forall (fun d => snd d <> roomCode) (startDelays w) ->
        result start w = Ok (ackOk [])
        /\ redis (run start w)
           = <[roomCode := RoomUpd.with_phase starting room]> (redis w)
        /\ timers (run start w) = timers w
        /\ sentBy start w
           = [(roomCode, "game:started",
               JObj [("phase", JStr "question");
                     ("questionCount", JNum (Z.of_nat (length (Room.questions room))));
                     ("currentQuestion", JNum 0)])]
        /\ (forall t, t < now + 2000 ->
              step (StartDelayFires t roomCode) (run start w) = run start w)
        /\ (forall t, now + 2000 <= t ->
              let w2 := step (StartDelayFires t roomCode) (run start w) in
              redis w2
              = <[roomCode := shown t (RoomUpd.with_phase starting room)]> (redis w)
              /\ sentBy (perform (StartDelayFires t roomCode)) (run start w)
                 = [(roomCode, "game:question",
                     GameService.questionPayload (Room.currentQuestionIndex room)
                                                 room qn limit)]
              /\ timers w2 !! roomCode
                 = Some (mkTimeout (t + (limit + 1) * 1000) QuestionTimeout)
              /\ startDelays w2 = startDelays w)).
Proof.
  intros H Hrole start players minPlayers limit. split; [|split].
  - intros Hfew. unfold start, GameHandler.start, RoomService.getRoom. munfold. simpl.
    rewrite H. unfold Socket.isTv. rewrite (bool_decide_eq_true_2 _ Hrole). simpl.
    fold players minPlayers.
    destruct (Z.ltb_spec players minPlayers); [done|lia].
  - intros Hmin Hqs. unfold start, GameHandler.start, RoomService.getRoom.
    munfold. simpl.
    rewrite H. unfold Socket.isTv. rewrite (bool_decide_eq_true_2 _ Hrole). simpl.
    fold players minPlayers.
    destruct (Z.ltb_spec players minPlayers); [lia|]. by rewrite Hqs.
  - intros qn Hmin Hq Hfree.
    assert (Hqs : Room.questions room <> []).
    { intros Hnil. unfold JS.index in Hq. rewrite Hnil in Hq.
      by destruct (_ <? 0). }
    unfold sentBy, result, run, start.
    rewrite (start_run now socket roomCode w room H Hrole Hmin Hqs).
    cbn [fst snd]. split; [done|]. split; [done|]. split; [done|]. split.
    { simpl. by rewrite drop_app_length. }
    split.
    + intros t Ht. unfold step, run, perform, startDelayFires. munfold.
      cbn [startDelays set_startDelays sent stored set_emitted set_redis].
      by rewrite (startDelay_not_due now t roomCode _ Hfree Ht).
    + intros t Ht. unfold step, run, perform, startDelayFires. munfold.
      cbn [startDelays set_startDelays sent stored set_emitted set_redis].
      destruct (startDelay_due now t roomCode _ Hfree Ht) as [-> Hrem].
      cbn [snd fst startDelays set_startDelays]. rewrite Hrem.
      erewrite showQuestion_run; [|apply lookup_insert_eq|exact Hq].
      unfold sent, stored, set_emitted, set_redis, set_startDelays.
      cbn [snd redis timers emitted startDelays].
      rewrite insert_insert_eq, lookup_insert_eq.
      split; [done|]. split; [|done]. by rewrite drop_app_length.
Qed.

Lemma game_start_shows_question_after_delay_witness :
  let w := Sample.world (Sample.room lobby [Sample.q1] [] None 20) in
  let w1 := run (GameHandler.start Sample.t0 Sample.tvSocket Sample.roomCode) w in
  step (StartDelayFires (Sample.t0 + 1999) Sample.roomCode) w1 = w1
  /\ timers (step (StartDelayFires (Sample.t0 + 2000) Sample.roomCode) w1)
       !! Sample.roomCode
     = Some (mkTimeout (Sample.t0 + 2000 + 21 * 1000) QuestionTimeout).
Proof.
  intros w w1.
  destruct (game_start_shows_question_after_delay Sample.t0 Sample.tvSocket
              Sample.roomCode w (Sample.room lobby [Sample.q1] [] None 20)
              eq_refl eq_refl) as (_ & _ & H).
  destruct (H Sample.q1) as (_ & _ & _ & _ & Hbefore & Hafter).
  - simpl. lia.
  - reflexivity.
  - constructor.
  - split.
    + apply Hbefore. lia.
    + destruct (Hafter (Sample.t0 + 2000)) as (_ & _ & Ht & _); [lia|]. exact Ht.
Defined.

(** ** One answer per player and question *)

Lemma alreadyAnswered_after now room playerId answer timestamp :
  AnswerHandler.alreadyAnswered
    (withAnswer (AnswerHandler.answerRecord now room playerId answer timestamp) room)
    playerId = true.
Proof.
  unfold AnswerHandler.alreadyAnswered, withAnswer. simpl.
  induction (default [] (Room.currentAnswers room)) as [|a l IH]; simpl.
  - by rewrite String.eqb_refl, Z.eqb_refl.
  - by destruct (_ && _).
Qed.

(** X16. A player's first answer to a question stands: once a submission
    has been admitted, any further [answer:submit] on the same connection
    for that question — another option, another time — is answered
    "Already answered" and changes nothing, in both variants of the
    handler.  A submission without a valid option is answered "Invalid
    answer". *)
Theorem second_answer_rejected
    now now' socket roomCode answer answer' timestamp timestamp' w room :
  redis w !! roomCode = Some room ->
  Room.phase room = question ->
  let playerId := default (Socket.id socket) (Socket.playerId socket) in
  AnswerHandler.alreadyAnswered room playerId = false ->
  let first := AnswerHandler.answerRecord now room playerId answer timestamp in
  let w1 := run (AnswerHandler.submit now socket roomCode (Some answer) timestamp) w in
  redis w1 = <[roomCode := withAnswer first room]> (redis w)
  /\ AnswerHandler.submit now' socket roomCode (Some answer') timestamp' w1
     = (Ok (ackError "Already answered"), w1)
  /\ AnswerHandlerV1.submit now' socket roomCode (Some answer') timestamp' w1
     = (Ok (ackError "Already answered"), w1)
  /\ AnswerHandler.submit now' socket roomCode None timestamp' w1
     = (Ok (ackError "Invalid answer"), w1).
Proof.
  intros H Hph playerId Hnew first w1.
  assert (Hroom1 : redis w1 !! roomCode = Some (withAnswer first room)).
  { unfold w1, run.
    rewrite (submit_admitted now socket roomCode answer timestamp w room H Hph Hnew).
    apply lookup_insert_eq. }
  split.
  { unfold w1, run.
    by rewrite (submit_admitted now socket roomCode answer timestamp w room H Hph Hnew). }
  split; [|split; [|done]].
  - unfold AnswerHandler.submit, RoomService.getRoom. munfold. simpl.
    rewrite Hroom1. simpl. rewrite Hph. simpl. fold playerId.
    unfold first. by rewrite alreadyAnswered_after.
  - unfold AnswerHandlerV1.submit, RoomService.getRoom. munfold. simpl.
    rewrite Hroom1. simpl. rewrite Hph. simpl. fold playerId.
    unfold first. by rewrite alreadyAnswered_after.
Qed.

Lemma second_answer_rejected_witness :
  let w := Sample.world (Sample.room question [Sample.q1] [] (Some Sample.t0) 20) in
  let w1 := run (AnswerHandler.submit (Sample.t0 + 1000) Sample.aliceSocket
                   Sample.roomCode (Some OptA) None) w in
  AnswerHandler.submit (Sample.t0 + 2000) Sample.aliceSocket Sample.roomCode
                       (Some OptB) None w1
  = (Ok (ackError "Already answered"), w1).
Proof.
  intros w w1.
  destruct (second_answer_rejected (Sample.t0 + 1000) (Sample.t0 + 2000)
              Sample.aliceSocket Sample.roomCode OptA OptB None None w
              (Sample.room question [Sample.q1] [] (Some Sample.t0) 20))
    as (_ & H & _); [reflexivity..|exact H].
Defined.

(** ** Loading questions *)

(** X17. [quiz:generate] from the host announces [quiz:generating]; if the
    quiz service returns questions they replace the room's questions, the
    question index goes back to 0 and the category is noted, players and
    scores staying as they are, and [quiz:generated] reports how many
    there are.  If it returns none, or fails, the room is left as it was
    (after a failure the room is told [quiz:error]).  A request that does
    not pass its schema is answered with the schema's message and nothing
    happens. *)
Theorem quiz_generate_replaces_questions
    socket roomCode category questionCount w room :
  redis w !! roomCode = Some room ->
  Socket.role socket = Some tv ->
  let generate := QuizHandler.generate socket None roomCode category questionCount in
  let generating :=
    (roomCode, "quiz:generating",
     JObj [("category", JStr category); ("questionCount", JNum questionCount)]) in
  (forall questions,
      questions <> [] ->
      result (generate (Some questions)) w
      = Ok (ackOk [("questions", JNum (Z.of_nat (length questions)))])
      /\ redis (run (generate (Some questions)) w)
         = <[roomCode :=
               RoomUpd.with_currentQuestionIndex 0
                 (RoomUpd.with_settings
                    (SettingsUpd.with_category category (Room.settings room))
                    (RoomUpd.with_questions questions room))]> (redis w)
      /\ sentBy (generate (Some questions)) w
         = [generating;
            (roomCode, "quiz:generated",
             JObj [("category", JStr category);
                   ("questionCount", JNum (Z.of_nat (length questions)))])])
  /\ (result (generate (Some [])) w = Ok (ackError "Failed to generate questions")
      /\ redis (run (generate (Some [])) w) = redis w
      /\ sentBy (generate (Some [])) w = [generating])
  /\ (roomCode <> "" ->
      result (generate None) w = Ok (ackError "Failed to generate quiz")
      /\ redis (run (generate None) w) = redis w
      /\ sentBy (generate None) w
         = [generating;
            (roomCode, "quiz:error",
             JObj [("error", JStr "Failed to generate quiz. Please try again.")])])
  /\ (forall issues generated,
        QuizHandler.generate socket (Some issues) roomCode category questionCount
                             generated w
        = (Ok (ackError issues), w)).
Proof.
  intros H Hrole generate generating.
  assert (Htv : Socket.isTv socket = true)
    by (unfold Socket.isTv; by rewrite bool_decide_eq_true_2).
  unfold sentBy, result, run, generate, QuizHandler.generate, RoomService.setQuestions,
    RoomService.getRoom, RoomService.updateRoom, emit.
  munfold. simpl. rewrite H, Htv. simpl. rewrite H. simpl.
  split; [|split; [|split; [|done]]].
  - intros questions Hqs. destruct questions as [|q qs]; [done|].
    repeat (progress (simpl; rewrite ?H, ?lookup_insert_eq)).
    split; [done|]. split; [done|]. by rewrite <- app_assoc, drop_app_length.
  - split; [done|]. split; [done|]. by rewrite drop_app_length.
  - intros Hne. apply String.eqb_neq in Hne. rewrite Hne. simpl. rewrite H.
    split; [done|]. split; [done|]. by rewrite <- app_assoc, drop_app_length.
Qed.

Lemma quiz_generate_replaces_questions_witness :
  let w := Sample.world (Sample.room lobby [] [] None 20) in
  (Room.questions
     <$> redis (run (QuizHandler.generate Sample.tvSocket None Sample.roomCode
                       "science" 5 (Some [Sample.q20])) w) !! Sample.roomCode)
  = Some [Sample.q20].
Proof.
  intros w.
  destruct (quiz_generate_replaces_questions Sample.tvSocket Sample.roomCode
              "science" 5 w (Sample.room lobby [] [] None 20) eq_refl eq_refl)
    as (H & _).
  destruct (H [Sample.q20]) as (_ & -> & _); [discriminate|reflexivity].
Defined.

(** ** Scoring at the reveal *)

Lemma applyScore_id points isCorrect p :
  Player.id (RoomService.applyScore points isCorrect p) = Player.id p.
Proof. unfold RoomService.applyScore. by destruct isCorrect. Qed.

Lemma update_first_commute {T} (pred1 pred2 : T -> bool) (f g : T -> T) l :
  (forall x, pred1 x = true -> pred2 x = false) ->
  (forall x, pred1 (g x) = pred1 x) ->
  (forall x, pred2 (f x) = pred2 x) ->
  update_first pred1 f (update_first pred2 g l)
  = update_first pred2 g (update_first pred1 f l).
Proof.
  intros Hdis Hg Hf. induction l as [|x l IH]; simpl; [done|].
  destruct (pred1 x) eqn:E1, (pred2 x) eqn:E2; simpl.
  - by rewrite (Hdis x E1) in E2.
  - by rewrite E1, Hf, E2.
  - by rewrite Hg, E1, E2.
  - by rewrite E1, E2, IH.
Qed.

Lemma applyResults_perm results results' players :
  results ≡ₚ results' ->
  NoDup (map QuestionResult.playerId results) ->
  applyResults results players = applyResults results' players.
Proof.
  intros Hperm. revert players.
  induction Hperm as [|r l l' _ IH|r1 r2 l|l l' l'' H1 IH1 H2 IH2];
    intros players Hnd; unfold applyResults in *; simpl.
  - done.
  - apply IH. by inversion Hnd.
  - f_equal. apply update_first_commute.
    + intros p Hp. unfold RoomService.hasId in *. apply String.eqb_eq in Hp.
      apply String.eqb_neq. rewrite Hp. intros Heq.
      inversion Hnd as [|? ? Hnot _]; subst. apply Hnot. rewrite <- Heq. left.
    + intros p. unfold RoomService.hasId. by rewrite applyScore_id.
    + intros p. unfold RoomService.hasId. by rewrite applyScore_id.
  - rewrite IH1 by done. apply IH2.
    assert (Hmap : map QuestionResult.playerId l ≡ₚ map QuestionResult.playerId l')
      by (by apply Permutation_map).
    by rewrite <- Hmap.
Qed.

Lemma update_first_skip {T} (pred : T -> bool) (f : T -> T) l1 l2 :
  Forall (fun x => pred x = false) l1 ->
  update_first pred f (l1 ++ l2) = l1 ++ update_first pred f l2.
Proof.
  induction 1 as [|x l1 Hx _ IH]; simpl; [done|]. by rewrite Hx, IH.
Qed.

Lemma applyResults_in_order qn answers timeLimit scored rest :
  NoDup (map Player.id scored ++ map Player.id rest) ->
  applyResults (map (ScoreService.resultFor qn answers timeLimit) rest)
               (scored ++ rest)
  = scored ++ map (scoredPlayer qn answers timeLimit) rest.
Proof.
  revert scored. induction rest as [|p rest IH]; intros scored Hnd; [done|].
  unfold applyResults in *. cbn [map fold_left].
  rewrite update_first_skip.
  - cbn [update_first].
    change (QuestionResult.playerId (ScoreService.resultFor qn answers timeLimit p))
      with (Player.id p).
    assert (RoomService.hasId (Player.id p) p = true) as ->
      by apply String.eqb_refl.
    change (RoomService.applyScore _ _ p) with (scoredPlayer qn answers timeLimit p).
    specialize (IH (scored ++ [scoredPlayer qn answers timeLimit p])).
    rewrite <- !app_assoc in IH. apply IH.
    rewrite map_app. simpl. unfold scoredPlayer. rewrite applyScore_id.
    by rewrite <- app_assoc.
  - apply Forall_forall. intros q Hq. unfold RoomService.hasId.
    apply String.eqb_neq. intros Heq.
    apply NoDup_app in Hnd as (_ & Hdis & _).
    apply (Hdis (Player.id q)); [by apply list_elem_of_fmap_2|].
    rewrite Heq. simpl. left.
Qed.

(** With distinct ids, the loop over the sorted results gives every player
    the player's own result. *)
Lemma applyResults_sorted qn answers timeLimit players :
  NoDup (map Player.id players) ->
  applyResults
    (JS.sort ScoreService.byPointsDesc
       (map (ScoreService.resultFor qn answers timeLimit) players))
    players
  = map (scoredPlayer qn answers timeLimit) players.
Proof.
  intros Hnd.
  rewrite (applyResults_perm _ (map (ScoreService.resultFor qn answers timeLimit) players)).
  - apply (applyResults_in_order qn answers timeLimit [] players). exact Hnd.
  - apply (sort_perm QuestionResult.pointsEarned).
  - assert (Hmap : map QuestionResult.playerId
                       (JS.sort ScoreService.byPointsDesc
                          (map (ScoreService.resultFor qn answers timeLimit) players))
                   ≡ₚ map Player.id players).
    { rewrite (Permutation_map _ (sort_perm QuestionResult.pointsEarned _)).
      by rewrite map_map. }
    by rewrite Hmap.
Qed.

Lemma with_players_same room : RoomUpd.with_players (Room.players room) room = room.
Proof. by destruct room. Qed.

Lemma update_first_none {T} (pred : T -> bool) (f : T -> T) l :
  List.find pred l = None -> update_first pred f l = l.
Proof.
  induction l as [|x l IH]; simpl; [done|].
  destruct (pred x); [done|]. intros H. by rewrite IH.
Qed.

Lemma updatePlayerScore_run c playerId points isCorrect w room :
  redis w !! c = Some room ->
  RoomService.updatePlayerScore c playerId points isCorrect w
  = (Ok tt,
     stored c (RoomUpd.with_players
                 (update_first (RoomService.hasId playerId)
                    (RoomService.applyScore points isCorrect) (Room.players room))
                 room) w).
Proof.
  intros H. unfold RoomService.updatePlayerScore, RoomService.getRoom,
    RoomService.updateRoom. munfold. simpl. rewrite H.
  destruct (List.find _ (Room.players room)) eqn:F; [done|].
  rewrite (update_first_none _ _ _ F), with_players_same.
  by rewrite (stored_same _ _ _ H).
Qed.

Lemma stored_stored c r r' w : stored c r' (stored c r w) = stored c r' w.
Proof. unfold stored, set_redis. simpl. by rewrite insert_insert_eq. Qed.

Lemma updateScores_run c results w room :
  redis w !! c = Some room ->
  for_each results (fun r =>
    RoomService.updatePlayerScore c (QuestionResult.playerId r)
      (QuestionResult.pointsEarned r) (QuestionResult.isCorrect r)) w
  = (Ok tt,
     stored c (RoomUpd.with_players (applyResults results (Room.players room)) room) w).
Proof.
  revert w room. induction results as [|r results IH]; intros w room H.
  - simpl. unfold applyResults. simpl.
    by rewrite with_players_same, (stored_same _ _ _ H).
  - cbn [for_each]. munfold. rewrite (updatePlayerScore_run _ _ _ _ _ _ H).
    erewrite IH by apply redis_stored. by rewrite stored_stored.
Qed.

Lemma questionTimeout_run now c w room qn :
  redis w !! c = Some room ->
  Room.phase room = question ->
  JS.index (Room.questions room) (Room.currentQuestionIndex room) = Some qn ->
  NoDup (map Player.id (Room.players room)) ->
  exists standings winner delay,
    (delay = 5000 \/ delay = 8000)
    /\ GameService.questionTimeout now c w
       = (Ok tt,
          mkWorld (<[c := revealed qn room]> (redis w))
                  (<[c := mkTimeout (now + delay) AdvanceToNextQuestion]>
                     (delete c (timers w)))
                  (delete c (timerIntervals w))
                  (startDelays w)
                  (emitted w
                   ++ [mkEmitted c (Some reveal) "game:reveal"
                         (GameService.revealPayload qn
                            (JS.sort ScoreService.byPointsDesc
                               (map (ScoreService.resultFor qn
                                       (GameService.currentAnswersFor room)
                                       (scoringLimit room qn))
                                    (Room.players room)))
                            standings winner)])).
Proof.
  intros H Hph Hq Hnd.
  unfold GameService.questionTimeout. munfold.
  unfold RoomService.getRoom at 1. munfold. cbn [fst snd]. rewrite H.
  rewrite Hph, bool_decide_eq_true_2 by done. cbn [negb]. rewrite Hq. cbv beta.
  rewrite (calculateQuestionResults_run _ _ _ _ _ H).
  rewrite (updateScores_run _ _ _ _ H).
  fold (scoringLimit room qn).
  rewrite (applyResults_sorted _ _ _ _ Hnd).
  erewrite getLeaderboard_run by apply redis_stored. cbn [fst snd].
  erewrite updatePhase_run by apply redis_stored. rewrite stored_stored.
  unfold emit, GameService.clearTimer, GameService.clearTimerInterval. munfold.
  cbn [fst snd].
  match goal with
  | |- context [GameService.revealPayload qn _ ?s ?win] =>
      exists s, win
  end.
  match goal with
  | |- context [mkTimeout (now + ?d) AdvanceToNextQuestion] => exists d
  end.
  split.
  { destruct (match head _ with Some _ => _ | None => _ end); [by right|by left]. }
  unfold stored, set_redis, set_timers, set_timerIntervals, set_emitted. simpl.
  rewrite lookup_insert_eq. reflexivity.
Qed.

Lemma answerTimeout_run socket c w room qn :
  redis w !! c = Some room ->
  Socket.role socket = Some tv ->
  JS.index (Room.questions room) (Room.currentQuestionIndex room) = Some qn ->
  NoDup (map Player.id (Room.players room)) ->
  exists standings,
    AnswerHandler.timeout socket c w
    = (Ok (ackOk []),
       sent [mkEmitted c (Some reveal) "game:reveal"
               (AnswerHandler.timeoutRevealPayload qn
                  (JS.sort ScoreService.byPointsDesc
                     (map (ScoreService.resultFor qn
                             (GameService.currentAnswersFor room)
                             (scoringLimit room qn))
                          (Room.players room)))
                  standings)]
            (stored c (revealed qn room) w)).
Proof.
  intros H Hrole Hq Hnd.
  unfold AnswerHandler.timeout. munfold.
  unfold RoomService.getRoom at 1. munfold. cbn [fst snd]. rewrite H.
  unfold Socket.isTv. rewrite bool_decide_eq_true_2 by done. cbn [negb].
  rewrite Hq. cbv beta.
  rewrite (calculateQuestionResults_run _ _ _ _ _ H).
  rewrite (updateScores_run _ _ _ _ H).
  fold (scoringLimit room qn).
  rewrite (applyResults_sorted _ _ _ _ Hnd).
  erewrite updatePhase_run by apply redis_stored. rewrite stored_stored.
  erewrite getLeaderboard_run by apply redis_stored. cbn [fst snd].
  unfold emit. munfold. cbn [fst snd].
  eexists. unfold sent, stored, set_redis, set_emitted. simpl.
  rewrite lookup_insert_eq. reflexivity.
Qed.

Lemma scoredPlayer_result qn answers limit players :
  Forall2
    (fun p p' =>
       let r := ScoreService.resultFor qn answers limit p in
       Player.score p' = QuestionResult.newScore r
       /\ Player.streak p' = QuestionResult.streak r
       /\ PlayerUpd.with_streak (Player.streak p)
            (PlayerUpd.with_score (Player.score p) p') = p)
    players (map (scoredPlayer qn answers limit) players).
Proof.
  induction players as [|p ps IH]; simpl; constructor; [|exact IH].
  unfold scoredPlayer, RoomService.applyScore, ScoreService.resultFor. simpl.
  destruct (ScoreService.answeredCorrectly _ qn); destruct p; repeat split.
Qed.

(** X18. When the answer deadline fires in a room whose players have
    distinct ids, every player is scored once, with the player's own
    result: the stored score becomes the [newScore] and the stored streak
    the [streak] that [game:reveal] reports for that player, and nothing
    else about the players changes.  The phase becomes reveal, the tick
    interval is gone and the next question is scheduled 5 s later, or 8 s
    when there is a winner's jingle to play.  [answer:timeout] from the TV
    scores the players in exactly the same way. *)
Theorem reveal_scores_every_player_once now roomCode w room qn :
  redis w !! roomCode = Some room ->
  Room.phase room = question ->
  JS.index (Room.questions room) (Room.currentQuestionIndex room) = Some qn ->
  NoDup (map Player.id (Room.players room)) ->
  let answers := GameService.currentAnswersFor room in
  let limit := scoringLimit room qn in
  let results :=
    JS.sort ScoreService.byPointsDesc
      (map (ScoreService.resultFor qn answers limit) (Room.players room)) in
  let w' := run (GameService.questionTimeout now roomCode) w in
  redis w' = <[roomCode := revealed qn room]> (redis w)
  /\ Room.phase (revealed qn room) = reveal
  /\ Forall2
       (fun p p' =>
          let r := ScoreService.resultFor qn answers limit p in
          Player.score p' = QuestionResult.newScore r
          /\ Player.streak p' = QuestionResult.streak r
          /\ PlayerUpd.with_streak (Player.streak p)
               (PlayerUpd.with_score (Player.score p) p') = p)
       (Room.players room) (Room.players (revealed qn room))
  /\ (exists standings winner,
        sentBy (GameService.questionTimeout now roomCode) w
        = [(roomCode, "game:reveal",
            GameService.revealPayload qn results standings winner)])
  /\ (exists delay,
        (delay = 5000 \/ delay = 8000)
        /\ timers w' !! roomCode
           = Some (mkTimeout (now + delay) AdvanceToNextQuestion))
  /\ timerIntervals w' !! roomCode = None
  /\ (forall socket,
        Socket.role socket = Some tv ->
        redis (run (AnswerHandler.timeout socket roomCode) w)
        = <[roomCode := revealed qn room]> (redis w)).
Proof.
  intros H Hph Hq Hnd answers limit results w'.
  destruct (questionTimeout_run now roomCode w room qn H Hph Hq Hnd)
    as (standings & winner & delay & Hdelay & Hrun).
  unfold w', sentBy, run. rewrite Hrun. cbn [snd redis timers timerIntervals emitted].
  split; [done|]. split; [done|]. split.
  { apply scoredPlayer_result. }
  split.
  { exists standings, winner. by rewrite drop_app_length. }
  split.
  { exists delay. split; [done|]. apply lookup_insert_eq. }
  split; [apply lookup_delete_eq|].
  intros socket Hrole.
  destruct (answerTimeout_run socket roomCode w room qn H Hrole Hq Hnd)
    as (standings' & ->).
  reflexivity.
Qed.

Lemma reveal_scores_every_player_once_witness :
  let answers := [Answer.mk "sock-alice" 0 OptB (Sample.t0 + 1000) 1000;
                  Answer.mk "sock-bob" 0 OptA (Sample.t0 + 2000) 2000] in
  let room := Sample.room question [Sample.q1] answers (Some Sample.t0) 20 in
  let w' := run (GameService.questionTimeout (Sample.t0 + 21000) Sample.roomCode)
                (Sample.world room) in
  (map Player.score ∘ Room.players <$> redis w' !! Sample.roomCode) = Some [1475; 0]
  /\ (map Player.streak ∘ Room.players <$> redis w' !! Sample.roomCode) = Some [1; 0].
Proof.
  intros answers room w'.
  destruct (reveal_scores_every_player_once (Sample.t0 + 21000) Sample.roomCode
              (Sample.world room) room Sample.q1) as (Hredis & _).
  - reflexivity.
  - reflexivity.
  - reflexivity.
  - apply (bool_decide_unpack (NoDup (map Player.id (Room.players room)))).
    vm_compute. exact I.
  - unfold w'. rewrite Hredis. split; vm_compute; reflexivity.
Defined.

(** ** The deadline after an early reveal *)

(** X19. A question is not scored twice by its deadline: when the deadline
    comes due in a room that is no longer in phase question — the TV has
    had the answers revealed with [answer:timeout], or the game was
    paused, ended or restarted — it only removes itself and the tick
    interval; no room changes and nothing is sent.  Before it is due it
    does nothing at all. *)
Theorem deadline_outside_question_does_nothing now roomCode w room t :
  redis w !! roomCode = Some room ->
  Room.phase room <> question ->
  timers w !! roomCode = Some (mkTimeout t QuestionTimeout) ->
  (now < t -> step (TimerFires now roomCode) w = w)
  /\ (t <= now ->
      let w' := step (TimerFires now roomCode) w in
      redis w' = redis w
      /\ emitted w' = emitted w
      /\ timers w' = delete roomCode (timers w)
      /\ timerIntervals w' = delete roomCode (timerIntervals w)
      /\ startDelays w' = startDelays w).
Proof.
  intros H Hph Ht. split.
  - intros Hlt. unfold step, run, perform.
    by erewrite timerFires_not_due by (done || simpl; lia).
  - intros Hle. unfold step, run, perform, timerFires, GameService.fire,
      GameService.questionTimeout, GameService.clearTimerInterval,
      RoomService.getRoom.
    munfold. simpl. rewrite Ht. simpl.
    destruct (Z.leb_spec t now); [|lia]. simpl. rewrite H.
    by rewrite bool_decide_eq_false_2.
Qed.

Lemma deadline_outside_question_does_nothing_witness :
  let answers := [Answer.mk "sock-alice" 0 OptB (Sample.t0 + 1000) 1000] in
  let w0 := Sample.world (Sample.room starting [Sample.q1] [] None 20) in
  let w1 := run (GameService.showQuestion Sample.t0 Sample.roomCode) w0 in
  let w2 := step (AnswerSubmit (Sample.t0 + 1000) Sample.aliceSocket Sample.roomCode
                               (Some OptB) None) w1 in
  let w3 := step (AnswerTimeout Sample.tvSocket Sample.roomCode) w2 in
  let w4 := step (TimerFires (Sample.t0 + 21000) Sample.roomCode) w3 in
  (map Player.score ∘ Room.players <$> redis w3 !! Sample.roomCode) = Some [1475; 0]
  /\ redis w4 = redis w3
  /\ emitted w4 = emitted w3.
Proof.
  intros answers w0 w1 w2 w3 w4. split; [vm_compute; reflexivity|].
  destruct (deadline_outside_question_does_nothing (Sample.t0 + 21000)
              Sample.roomCode w3
              (default (Sample.room lobby [] [] None 20)
                       (redis w3 !! Sample.roomCode))
              (Sample.t0 + 21000)) as [_ H].
  - vm_compute. reflexivity.
  - vm_compute. discriminate.
  - vm_compute. reflexivity.
  - destruct H as (Hr & He & _); [lia|]. split; [exact Hr|exact He].
Defined.

(** The TV's [answer:timeout] has no such guard: sent a second time, it
    scores the question again. *)
Example answer_timeout_twice_scores_twice :
  let w0 := Sample.world (Sample.room starting [Sample.q1] [] None 20) in
  let w1 := run (GameService.showQuestion Sample.t0 Sample.roomCode) w0 in
  let w2 := step (AnswerSubmit (Sample.t0 + 1000) Sample.aliceSocket Sample.roomCode
                               (Some OptB) None) w1 in
  let w3 := step (AnswerTimeout Sample.tvSocket Sample.roomCode) w2 in
  let w4 := step (AnswerTimeout Sample.tvSocket Sample.roomCode) w3 in
  (map Player.score ∘ Room.players <$> redis w3 !! Sample.roomCode) = Some [1475; 0]
  /\ (map Player.score ∘ Room.players <$> redis w4 !! Sample.roomCode)
     = Some [3050; 0].
Proof. vm_compute. split; reflexivity. Qed.

(** ** From one question to the next *)

(** X20. After the reveal the engine moves on by itself: the question index
    goes up by one and the recorded answers are cleared; if there is a
    question at the new index it is shown (phase question, fresh start
    time, [game:question] with that index, deadline armed), otherwise the
    game is finished (phase final, no timer left, [game:finished]). *)
Theorem advance_shows_next_or_finishes now roomCode w room :
  redis w !! roomCode = Some room ->
  let next := Room.currentQuestionIndex room + 1 in
  let moved :=
    RoomUpd.with_currentAnswers (Some [])
      (RoomUpd.with_currentQuestionIndex next room) in
  let limit := RoomSettings.timeLimit (Room.settings room) in
  let advance := GameService.advanceToNextQuestion now roomCode in
  match JS.index (Room.questions room) next with
  | Some qn =>
      redis (run advance w) = <[roomCode := shown now moved]> (redis w)
      /\ sentBy advance w
         = [(roomCode, "game:question",
             GameService.questionPayload next room qn limit)]
      /\ timers (run advance w) !! roomCode
         = Some (mkTimeout (now + (limit + 1) * 1000) QuestionTimeout)
      /\ timerIntervals (run advance w) !! roomCode
         = Some (mkInterval limit (now + 1000))
  | None =>
      redis (run advance w) = <[roomCode := RoomUpd.with_phase final moved]> (redis w)
      /\ map (fun m => (fst (fst m), snd (fst m))) (sentBy advance w)
         = [(roomCode, "game:finished")]
      /\ timers (run advance w) !! roomCode = None
      /\ timerIntervals (run advance w) !! roomCode = None
  end.
Proof.
  intros H next moved limit advance.
  assert (Hmoved : redis (stored roomCode moved w) !! roomCode = Some moved)
    by apply redis_stored.
  unfold sentBy, run, advance, GameService.advanceToNextQuestion. munfold.
  rewrite (nextQuestion_run _ _ _ H). cbn [fst snd]. fold next moved.
  destruct (JS.index (Room.questions room) next) as [qn|] eqn:Hq.
  - assert ((next <? questionCount room) = true) as ->.
    { apply index_Some_range in Hq. unfold questionCount. lia. }
    rewrite (showQuestion_run now roomCode _ moved qn Hmoved Hq).
    cbn [snd redis timers timerIntervals emitted stored set_redis].
    rewrite insert_insert_eq, !lookup_insert_eq.
    split; [done|]. split; [|done]. by rewrite drop_app_length.
  - assert (Hend : GameService.endGame roomCode (stored roomCode moved w)
                   = (Ok tt,
                      mkWorld (<[roomCode := RoomUpd.with_phase final moved]> (redis w))
                        (delete roomCode (timers w))
                        (delete roomCode (timerIntervals w)) (startDelays w)
                        (emitted (run (GameService.endGame roomCode)
                                      (stored roomCode moved w))))).
    { rewrite (endGame_run _ _ _ Hmoved). simpl. by rewrite insert_insert_eq. }
    assert (Hsent : exists p,
               emitted (run (GameService.endGame roomCode) (stored roomCode moved w))
               = emitted w ++ [mkEmitted roomCode (Some final) "game:finished" p]).
    { unfold run, GameService.endGame, GameService.clearTimer,
        GameService.clearTimerInterval, RoomService.getRoom,
        RoomService.updatePhase, RoomService.updateRoom, emit. munfold. simpl.
      rewrite lookup_insert_eq. simpl. rewrite lookup_insert_eq.
      erewrite getLeaderboard_run by apply lookup_insert_eq. simpl.
      rewrite lookup_insert_eq. by eexists. }
    destruct Hsent as [p Hsent].
    assert (Hrun : (if next <? questionCount room
                    then GameService.showQuestion now roomCode
                    else GameService.endGame roomCode) (stored roomCode moved w)
                   = GameService.endGame roomCode (stored roomCode moved w)).
    { destruct (next <? questionCount room); [|done].
      unfold GameService.showQuestion, RoomService.getRoom. munfold. simpl.
      rewrite lookup_insert_eq. simpl. fold next. by rewrite Hq. }
    rewrite Hrun, Hend. cbn [snd redis timers timerIntervals emitted].
    rewrite Hsent, !lookup_delete_eq.
    split; [done|]. split; [|done]. by rewrite drop_app_length.
Qed.

Lemma advance_shows_next_or_finishes_witness :
  let room := Sample.room reveal [Sample.q1] [] (Some Sample.t0) 20 in
  let w' := run (GameService.advanceToNextQuestion (Sample.t0 + 26000) Sample.roomCode)
                (Sample.world room) in
  (Room.phase <$> redis w' !! Sample.roomCode) = Some final
  /\ timers w' !! Sample.roomCode = None.
Proof.
  intros room w'.
  pose proof (advance_shows_next_or_finishes (Sample.t0 + 26000) Sample.roomCode
                (Sample.world room) room eq_refl) as H.
  cbv zeta in H. change (JS.index (Room.questions room) _) with (@None Question) in H.
  destruct H as (Hr & _ & Ht & _). unfold w'. rewrite Hr. split; [reflexivity|exact Ht].
Defined.

(** ** The countdown *)

Lemma tickTimes_run k roomCode w t :
  timerIntervals w !! roomCode = Some (mkInterval (Z.of_nat (S k)) t) ->
  tickTimes (S k) roomCode w
  = (Ok tt,
     mkWorld (redis w) (timers w) (delete roomCode (timerIntervals w)) (startDelays w)
       (emitted w
        ++ map (fun j =>
                  mkEmitted roomCode (Room.phase <$> redis w !! roomCode) "timer:tick"
                    (JObj [("timeRemaining", JNum (Z.of_nat k - Z.of_nat j))]))
               (seq 0 (S k))
        ++ [mkEmitted roomCode (Room.phase <$> redis w !! roomCode) "timer:end" JNull])).
Proof.
  revert w t. induction k as [|k IH]; intros w t H.
  - cbn [tickTimes]. unfold GameService.timerTick, GameService.clearTimerInterval, emit.
    munfold. simpl. rewrite H. simpl. by rewrite <- app_assoc.
  - change (tickTimes (S (S k)) roomCode)
      with (GameService.timerTick roomCode ;; tickTimes (S k) roomCode).
    munfold.
    assert (Htick : GameService.timerTick roomCode w
                    = (Ok tt,
                       mkWorld (redis w) (timers w)
                         (<[roomCode := mkInterval (Z.of_nat (S k)) (t + 1000)]>
                            (timerIntervals w))
                         (startDelays w)
                         (emitted w
                          ++ [mkEmitted roomCode (Room.phase <$> redis w !! roomCode)
                                "timer:tick"
                                (JObj [("timeRemaining", JNum (Z.of_nat (S k)))])]))).
    { unfold GameService.timerTick, emit. munfold. simpl. rewrite H.
      cbn [timeRemaining nextTickAt].
      replace (Z.of_nat (S (S k)) - 1) with (Z.of_nat (S k)) by lia.
      destruct (Z.leb_spec (Z.of_nat (S k)) 0); [lia|]. reflexivity. }
    rewrite Htick. cbv beta iota. erewrite IH by apply lookup_insert_eq.
    cbn [redis timers timerIntervals startDelays emitted].
    rewrite delete_insert_eq, <- app_assoc.
    change (seq 0 (S (S k))) with (0%nat :: seq 1 (S k)).
    rewrite <- seq_shift, map_cons, map_map, Z.sub_0_r.
    do 3 f_equal. cbn [app]. do 2 f_equal.
    apply map_ext. intros j. do 5 f_equal. lia.
Qed.

(** X21. The countdown of a question: an interval armed with [n] seconds
    ([n] at least 1) fires [n] times, sending [timer:tick] with [n − 1],
    [n − 2], …, 0 remaining and then [timer:end] once, and removes itself;
    it touches no room and no deadline, and a tick without an interval does
    nothing. *)
Theorem countdown_ticks_down_to_zero n roomCode w t :
  timerIntervals w !! roomCode = Some (mkInterval (Z.of_nat n) t) ->
  (1 <= n)%nat ->
  let countdown := tickTimes n roomCode in
  sentBy countdown w
  = tickMessages roomCode (Z.of_nat n - 1) n ++ [(roomCode, "timer:end", JNull)]
  /\ timerIntervals (run countdown w) = delete roomCode (timerIntervals w)
  /\ redis (run countdown w) = redis w
  /\ timers (run countdown w) = timers w
  /\ run (GameService.timerTick roomCode) (run countdown w) = run countdown w.
Proof.
  intros H Hn countdown. destruct n as [|k]; [lia|].
  unfold sentBy, run, countdown. rewrite (tickTimes_run k roomCode w t H).
  cbn [snd redis timers timerIntervals emitted].
  split; [|split; [done|split; [done|split; [done|]]]].
  - rewrite drop_app_length, map_app, map_map. unfold tickMessages.
    f_equal. apply map_ext. intros j. unfold wire. simpl. do 6 f_equal. lia.
  - unfold GameService.timerTick. munfold. simpl. by rewrite lookup_delete_eq.
Qed.

Lemma countdown_ticks_down_to_zero_witness :
  let w := run (GameService.showQuestion Sample.t0 Sample.roomCode)
               (Sample.world (Sample.room starting [Sample.q1] [] None 3)) in
  map (fun m => (snd (fst m), Json.field "timeRemaining" (snd m)))
      (sentBy (tickTimes 3 Sample.roomCode) w)
  = [("timer:tick", Some (JNum 2)); ("timer:tick", Some (JNum 1));
     ("timer:tick", Some (JNum 0)); ("timer:end", None)].
Proof.
  intros w.
  destruct (countdown_ticks_down_to_zero 3 Sample.roomCode w (Sample.t0 + 1000))
    as (-> & _); [reflexivity|lia|reflexivity].
Defined.

(** ** The end of the game *)

(** X22. [endGame] removes the room's deadline and tick interval, puts the
    room in phase final and sends [game:finished] with the standings and,
    as winner, the first player of the list among those with the highest
    score (no winner when there are no players); players and scores are
    left as they are.  For a room that is gone it only removes the
    timers. *)
Theorem endGame_announces_the_leader roomCode w :
  let w' := run (GameService.endGame roomCode) w in
  timers w' = delete roomCode (timers w)
  /\ timerIntervals w' = delete roomCode (timerIntervals w)
  /\ match redis w !! roomCode with
     | None => redis w' = redis w /\ emitted w' = emitted w
     | Some room =>
         redis w' = <[roomCode := RoomUpd.with_phase final room]> (redis w)
         /\ exists payload,
              sentBy (GameService.endGame roomCode) w
              = [(roomCode, "game:finished", payload)]
              /\ Json.field "standings" payload
                 = Some (GameService.standingsJson
                           (imap leaderboardOf
                              (JS.sort RoomService.byScoreDesc (Room.players room))))
              /\ match Json.field "winner" payload with
                 | None => Room.players room = []
                 | Some winner =>
                     exists p,
                       firstLeast (fun q => - Player.score q) (Room.players room) p
                       /\ winner = winnerJson room p
                 end
     end.
Proof.
  intros w'. subst w'. unfold sentBy, run.
  destruct (redis w !! roomCode) as [room|] eqn:E.
  - unfold GameService.endGame, GameService.clearTimer,
      GameService.clearTimerInterval, RoomService.getRoom,
      RoomService.updatePhase, RoomService.getLeaderboard,
      RoomService.updateRoom, emit. munfold. simpl. rewrite E.
    repeat (progress (simpl; rewrite ?E, ?lookup_insert_eq)).
    split; [done|]. split; [done|]. split; [done|].
    eexists. split; [by rewrite drop_app_length|].
    pose proof (sort_head Player.score (Room.players room)) as Hhead.
    unfold RoomService.byScoreDesc.
    destruct (JS.sort (fun a b => Player.score b - Player.score a) (Room.players room))
      as [|p sorted]; simpl in *.
    + split; [done|]. exact Hhead.
    + split; [done|]. by exists p.
  - unfold GameService.endGame, GameService.clearTimer,
      GameService.clearTimerInterval, RoomService.getRoom. munfold. simpl.
    by rewrite E.
Qed.

Lemma endGame_announces_the_leader_witness :
  let room :=
    RoomUpd.with_players [Sample.alice; PlayerUpd.with_score 1475 Sample.bob]
      (Sample.room reveal [Sample.q1] [] (Some Sample.t0) 20) in
  exists payload,
    sentBy (GameService.endGame Sample.roomCode) (Sample.world room)
    = [(Sample.roomCode, "game:finished", payload)]
    /\ (Json.field "winner" payload ≫= Json.field "name") = Some (JStr "Bob").
Proof.
  intros room.
  pose proof (endGame_announces_the_leader Sample.roomCode (Sample.world room)) as H.
  cbv zeta in H. destruct H as (_ & _ & H).
  change (redis (Sample.world room) !! Sample.roomCode) with (Some room) in H.
  destruct H as (_ & payload & Hsent & _ & _).
  exists payload. split; [exact Hsent|].
  assert (Hp : [(Sample.roomCode, "game:finished", payload)]
               = sentBy (GameService.endGame Sample.roomCode) (Sample.world room))
    by (symmetry; exact Hsent).
  vm_compute in Hp. injection Hp as ->. reflexivity.
Defined.

(** ** Pausing *)



(** ** Coming back *)

Lemma find_at {T} (pred : T -> bool) before p after :
  Forall (fun q => pred q = false) before ->
  pred p = true ->
  List.find pred (before ++ p :: after) = Some p.
Proof.
  intros Hb Hp. induction Hb as [|q before Hq _ IH]; simpl.
  - by rewrite Hp.
  - by rewrite Hq.
Qed.

Lemma update_first_at {T} (pred : T -> bool) (f : T -> T) before p after :
  Forall (fun q => pred q = false) before ->
  pred p = true ->
  update_first pred f (before ++ p :: after) = before ++ f p :: after.
Proof.
  intros Hb Hp. rewrite update_first_skip by done. simpl. by rewrite Hp.
Qed.

(** X24. A player who lost the connection stays in the room, marked as
    disconnected, with score and streak; [room:rejoin] under the same name
    (upper and lower case letters alike) on a new connection gives the
    player that connection's socket id and marks the player connected
    again, score, streak, avatar and place in the list being kept and all
    other players left alone.  The room is told [room:player-disconnected]
    and then [room:player-rejoined] with the old id. *)
Theorem disconnect_then_rejoin_keeps_the_score
    old new roomCode playerName playerAvatar playerJingleId w room before p after :
  redis w !! roomCode = Some room ->
  Room.players room = before ++ p :: after ->
  Forall (fun q => RoomHandler.sameName playerName q = false
                   /\ Player.id q <> Player.id p
                   /\ Player.id q <> Socket.id new) before ->
  RoomHandler.sameName playerName p = true ->
  roomCode <> "" -> playerName <> "" ->
  Socket.role old <> Some tv ->
  Socket.playerId old = Some (Player.id p) ->
  Socket.roomCode old = Some roomCode ->
  let disconnect := RoomHandler.disconnect old in
  let rejoin :=
    RoomHandler.rejoin new roomCode playerName playerAvatar playerJingleId in
  let back := PlayerUpd.with_isConnected true (PlayerUpd.with_id (Socket.id new) p) in
  redis (run disconnect w)
  = <[roomCode :=
        RoomUpd.with_players
          (before ++ PlayerUpd.with_isConnected false p :: after) room]> (redis w)
  /\ sentBy disconnect w
     = [(roomCode, "room:player-disconnected", JObj [("playerId", JStr (Player.id p))])]
  /\ redis (run rejoin (run disconnect w))
     = <[roomCode := RoomUpd.with_players (before ++ back :: after) room]> (redis w)
  /\ sentBy rejoin (run disconnect w)
     = [(roomCode, "room:player-rejoined",
         JObj [("oldPlayerId", JStr (Player.id p)); ("player", Json.player back)])]
  /\ (exists ack, result rejoin (run disconnect w)
                  = Ok (ack, RoomHandler.asPlayer new roomCode))
  /\ Player.score back = Player.score p
  /\ Player.streak back = Player.streak p.
Proof.
  intros H Hplayers Hbefore Hname Hcode Hplayer Hrole Hpid Hroom disconnect rejoin back.
  assert (Hid : Forall (fun q => RoomService.hasId (Player.id p) q = false) before).
  { eapply Forall_impl; [exact Hbefore|]. simpl. intros q (_ & Hq & _).
    by apply String.eqb_neq. }
  assert (Hnew : Forall (fun q => RoomService.hasId (Socket.id new) q = false) before).
  { eapply Forall_impl; [exact Hbefore|]. simpl. intros q (_ & _ & Hq).
    by apply String.eqb_neq. }
  assert (Hnm : Forall (fun q => RoomHandler.sameName playerName q = false) before).
  { eapply Forall_impl; [exact Hbefore|]. simpl. by intros q (Hq & _). }
  assert (Hself : forall q, RoomService.hasId (Player.id q) q = true)
    by (intros q; apply String.eqb_refl).
  set (away := RoomUpd.with_players
                 (before ++ PlayerUpd.with_isConnected false p :: after) room).
  assert (Hw1 : disconnect w
                = (Ok tt,
                   sent [mkEmitted roomCode (Some (Room.phase room))
                           "room:player-disconnected"
                           (JObj [("playerId", JStr (Player.id p))])]
                        (stored roomCode away w))).
  { unfold disconnect, RoomHandler.disconnect, RoomService.setPlayerConnected,
      RoomService.getRoom, RoomService.updateRoom, emit. munfold. simpl.
    rewrite Hroom. simpl. rewrite H. unfold Socket.isTv.
    rewrite bool_decide_eq_false_2 by done. rewrite Hpid. simpl. rewrite H.
    rewrite Hplayers, (find_at _ _ _ _ Hid (Hself p)),
      (update_first_at _ _ _ _ _ Hid (Hself p)).
    simpl. by rewrite lookup_insert_eq. }
  unfold sentBy, result, run. rewrite Hw1. cbn [fst snd].
  split; [done|].
  split; [cbn [sent emitted set_emitted]; by rewrite drop_app_length|].
  set (w1 := sent _ (stored roomCode away w)).
  assert (Hroom1 : redis w1 !! roomCode = Some away) by apply lookup_insert_eq.
  assert (Hw2 : exists ack,
             rejoin w1
             = (Ok (ack, RoomHandler.asPlayer new roomCode),
                sent [mkEmitted roomCode (Some (Room.phase room)) "room:player-rejoined"
                        (JObj [("oldPlayerId", JStr (Player.id p));
                               ("player", Json.player back)])]
                     (stored roomCode
                        (RoomUpd.with_players (before ++ back :: after) room) w1))).
  { unfold rejoin, RoomHandler.rejoin.
    apply String.eqb_neq in Hcode, Hplayer. rewrite Hcode, Hplayer.
    unfold RoomService.updatePlayerSocketId, RoomService.setPlayerConnected,
      RoomService.getRoom, RoomService.updateRoom, emit. munfold.
    cbn [orb fst snd]. rewrite Hroom1.
    cbn [away Room.players RoomUpd.with_players].
    rewrite (find_at _ _ (PlayerUpd.with_isConnected false p) _ Hnm Hname).
    cbn [Player.id PlayerUpd.with_isConnected]. rewrite Hroom1.
    cbn [away Room.players RoomUpd.with_players].
    rewrite (find_at _ _ (PlayerUpd.with_isConnected false p) _ Hid (Hself p)),
      (update_first_at _ _ _ (PlayerUpd.with_isConnected false p) _ Hid (Hself p)).
    cbn [fst snd set_redis redis]. rewrite lookup_insert_eq.
    cbn [Room.players RoomUpd.with_players].
    assert (Hb : RoomService.hasId (Socket.id new)
                   (PlayerUpd.with_isConnected true
                      (PlayerUpd.with_id (Socket.id new)
                         (PlayerUpd.with_isConnected false p))) = true)
      by apply String.eqb_refl.
    rewrite (find_at _ _ _ _ Hnew Hb), (update_first_at _ _ _ _ _ Hnew Hb).
    cbn [fst snd set_redis redis]. rewrite lookup_insert_eq.
    cbn [Room.players RoomUpd.with_players].
    rewrite (find_at _ _ _ _ Hnew Hb).
    eexists. unfold sent, stored, set_redis, set_emitted, w1. simpl.
    rewrite !insert_insert_eq. unfold back, away, Json.obj. clear.
    destruct p, room. simpl. reflexivity. }
  destruct Hw2 as [ack Hw2]. rewrite Hw2. cbn [fst snd].
  split; [unfold w1; simpl; by rewrite insert_insert_eq|].
  split; [cbn [sent emitted set_emitted]; by rewrite drop_app_length|].
  split; [by exists ack|done].
Qed.

Lemma disconnect_then_rejoin_keeps_the_score_witness :
  let room :=
    RoomUpd.with_players [PlayerUpd.with_score 1475 Sample.alice; Sample.bob]
      (Sample.room question [Sample.q1] [] (Some Sample.t0) 20) in
  let new := Socket.mk "sock-alice-2" None None None in
  let w2 := run (RoomHandler.rejoin new Sample.roomCode "ALICE" None None)
                (run (RoomHandler.disconnect Sample.aliceSocket) (Sample.world room)) in
  (map (fun p => (Player.id p, Player.score p, Player.isConnected p)) ∘ Room.players
     <$> redis w2 !! Sample.roomCode)
  = Some [("sock-alice-2", 1475, true); ("sock-bob", 0, true)].
Proof.
  intros room new w2.
  destruct (disconnect_then_rejoin_keeps_the_score Sample.aliceSocket new
              Sample.roomCode "ALICE" None None (Sample.world room) room []
              (PlayerUpd.with_score 1475 Sample.alice) [Sample.bob])
    as (_ & _ & Hr & _);
    [reflexivity|reflexivity|constructor|reflexivity|discriminate|discriminate
    |discriminate|reflexivity|reflexivity|].
  unfold w2. rewrite Hr. reflexivity.
Defined.

(** ** Rooms stay well formed *)




































(** *** Points are never negative *)









(** ** One room at a time, and none deleted *)

#[local] Instance onlyRoom_refl c : Reflexive (onlyRoom c).
Proof. by intros w c' _. Qed.

#[local] Instance onlyRoom_trans c : Transitive (onlyRoom c).
Proof. intros w1 w2 w3 H1 H2 c' Hc'. by rewrite H2, H1. Qed.

#[local] Instance roomsStay_refl : Reflexive roomsStay.
Proof. by intros w c H. Qed.

#[local] Instance roomsStay_trans : Transitive roomsStay.
Proof. intros w1 w2 w3 H1 H2 c Hc. by apply H2, H1. Qed.

Lemma onlyRoom_same c w w' : redis w' = redis w -> onlyRoom c w w'.
Proof. intros H c' _. by rewrite H. Qed.

Lemma onlyRoom_write c r w : onlyRoom c w (set_redis (<[c := r]> (redis w)) w).
Proof. intros c' Hc'. simpl. by rewrite lookup_insert_ne. Qed.

Lemma roomsStay_same w w' : redis w' = redis w -> roomsStay w w'.
Proof. intros H c. by rewrite H. Qed.

Lemma roomsStay_write c r w : roomsStay w (set_redis (<[c := r]> (redis w)) w).
Proof.
  intros c' Hc'. simpl. destruct (decide (c = c')) as [<-|Hne].
  - rewrite lookup_insert_eq. by eexists.
  - by rewrite lookup_insert_ne.
Qed.

Ltac only_side :=
  first [ apply onlyRoom_write | apply onlyRoom_same; reflexivity ].

Ltac stay_side :=
  first [ apply roomsStay_write | apply roomsStay_same; reflexivity ].

Lemma perform_roomsStay a : keeps roomsStay (perform a).
Proof. destruct a; unfold perform; keeps_auto fail stay_side. Qed.

Lemma create_onlyRoom s gen createdAt w :
  exists c, onlyRoom c w (snd (perform (RoomCreate s gen createdAt) w)).
Proof.
  unfold perform, ignore, RoomHandler.create, RoomService.createRoom. munfold. simpl.
  destruct (RoomService.drawCode gen (redis w) 0 10) as [c|]; simpl.
  - exists c. apply onlyRoom_write.
  - exists "". reflexivity.
Qed.

Ltac only_handler c :=
  exists c;
  match goal with w : World |- _ => revert w end;
  lazymatch goal with
  | |- forall w, onlyRoom ?c w (snd (?m w)) => change (keeps (onlyRoom c) m)
  end;
  unfold perform; keeps_auto fail only_side.

Lemma join_onlyRoom s roomCode j isTv nameOk avatarOk w :
  exists c, onlyRoom c w (snd (perform (RoomJoin s roomCode j isTv nameOk avatarOk) w)).
Proof.
  unfold perform, RoomHandler.join. destruct roomCode as [roomCode|]; cbn beta iota.
  - only_handler roomCode.
  - only_handler EmptyString.
Qed.

Lemma leave_onlyRoom s dataRoomCode w :
  exists c, onlyRoom c w (snd (perform (RoomLeave s dataRoomCode) w)).
Proof.
  unfold perform, RoomHandler.leave.
  destruct dataRoomCode as [roomCode|]; [|destruct (Socket.roomCode s) as [roomCode|]];
    cbn beta iota.
  - only_handler roomCode.
  - only_handler roomCode.
  - only_handler EmptyString.
Qed.

Lemma playerUpdate_onlyRoom s dataRoomCode j r w :
  exists c, onlyRoom c w (snd (perform (PlayerUpdate s dataRoomCode j r) w)).
Proof.
  unfold perform, RoomHandler.playerUpdate.
  destruct dataRoomCode as [roomCode|]; [|destruct (Socket.roomCode s) as [roomCode|]];
    cbn beta iota.
  - only_handler roomCode.
  - only_handler roomCode.
  - only_handler EmptyString.
Qed.

Lemma disconnect_onlyRoom s w :
  exists c, onlyRoom c w (snd (perform (Disconnect s) w)).
Proof.
  unfold perform, RoomHandler.disconnect.
  destruct (Socket.roomCode s) as [roomCode|]; cbn beta iota.
  - only_handler roomCode.
  - only_handler EmptyString.
Qed.

Lemma perform_onlyRoom a w : exists c, onlyRoom c w (snd (perform a w)).
Proof.
  destruct a;
    first [ apply create_onlyRoom | apply join_onlyRoom | apply leave_onlyRoom
          | apply playerUpdate_onlyRoom | apply disconnect_onlyRoom
          | only_handler roomCode ].
Qed.

(** ** The countdown runs only towards a pending deadline *)

#[local] Instance sameClocks_refl : Reflexive sameClocks.
Proof. by intros w. Qed.

#[local] Instance sameClocks_trans : Transitive sameClocks.
Proof. intros w1 w2 w3 [H1 H1'] [H2 H2']. split; congruence. Qed.

Lemma sameClocks_ticking w w' : sameClocks w w' -> ticking w -> ticking w'.
Proof. intros [Ht Hi] Hw c iv. rewrite Ht, Hi. apply Hw. Qed.

Ltac clock_side := split; reflexivity.

Lemma clearTimerInterval_ticking c :
  preserves ticking (GameService.clearTimerInterval c).
Proof.
  intros w Hw c' iv. simpl. intros H.
  apply lookup_delete_Some in H as [_ H]. by eapply Hw.
Qed.

Lemma cleared_ticking c w :
  ticking w ->
  ticking (set_timerIntervals (delete c (timerIntervals w))
             (set_timers (delete c (timers w)) w)).
Proof.
  intros Hw c' iv. simpl. intros H.
  apply lookup_delete_Some in H as [Hne H].
  rewrite lookup_delete_ne by done. by eapply Hw.
Qed.

Lemma clearTimer_ticking c : preserves ticking (GameService.clearTimer c).
Proof.
  intros w Hw. unfold GameService.clearTimer, GameService.clearTimerInterval.
  munfold. simpl. by apply cleared_ticking.
Qed.

(** [questionTimeout]: clear both, then arm the advance. *)
Lemma rearm_ticking c t :
  preserves ticking
    (GameService.clearTimer c ;;
     modify (fun w => set_timers (<[c := t]> (timers w)) w)).
Proof.
  intros w Hw c' iv. simpl. intros H.
  apply lookup_delete_Some in H as [Hne H].
  rewrite lookup_insert_ne, lookup_delete_ne by done. by eapply Hw.
Qed.

(** [showQuestion]: clear both, then arm the countdown and the deadline. *)
Lemma arm_ticking c iv t :
  callback t = QuestionTimeout ->
  preserves ticking
    (GameService.clearTimer c ;;
     modify (fun w => set_timerIntervals (<[c := iv]> (timerIntervals w)) w) ;;
     modify (fun w => set_timers (<[c := t]> (timers w)) w)).
Proof.
  intros Ht w Hw c' iv'. simpl. destruct (decide (c = c')) as [<-|Hne].
  - rewrite !lookup_insert_eq. intros _. by exists t.
  - rewrite !lookup_insert_ne, !lookup_delete_ne by done. by eapply Hw.
Qed.

Lemma timerTick_ticking c : preserves ticking (GameService.timerTick c).
Proof.
  intros w Hw. unfold GameService.timerTick, GameService.clearTimerInterval, emit.
  munfold. simpl. destruct (timerIntervals w !! c) as [iv|] eqn:E; simpl; [|exact Hw].
  destruct (timeRemaining iv - 1 <=? 0); simpl; intros c' iv'; simpl.
  - intros H. apply lookup_delete_Some in H as [_ H]. by eapply Hw.
  - destruct (decide (c = c')) as [<-|Hne].
    + intros _. by apply (Hw c iv).
    + rewrite lookup_insert_ne by done. by eapply Hw.
Qed.

Ltac tick_leaf :=
  lazymatch goal with
  | |- preserves _ (GameService.clearTimer _) => apply clearTimer_ticking
  | |- preserves _ (GameService.clearTimerInterval _) => apply clearTimerInterval_ticking
  | |- preserves _ (GameService.timerTick _) => apply timerTick_ticking
  | |- preserves _ (mbind _ (GameService.clearTimer _)) =>
      first [ apply rearm_ticking | apply arm_ticking; reflexivity ]
  | |- preserves _ (mbind _ _) => fail
  | |- preserves _ (try_catch _ _) => fail
  | |- preserves _ (ignore _) => fail
  | |- preserves _ (match _ with _ => _ end) => fail
  | |- preserves _ (let _ := _ in _) => fail
  | |- _ =>
      solve [apply (keeps_preserves sameClocks);
             [apply sameClocks_ticking|keeps_auto fail clock_side]]
  end.

Ltac tick_step :=
  first
    [ tick_leaf
    | lazymatch goal with
      | |- preserves _ (mbind _ _) => apply preserves_bind; [|intros ?]
      | |- preserves _ (try_catch _ _) => apply preserves_try_catch; [|intros ?]
      | |- preserves _ (ignore _) => apply preserves_ignore
      | |- preserves _ (match ?x with _ => _ end) => destruct x eqn:?
      | |- preserves _ (let _ := _ in _) => cbv zeta
      | |- preserves _ ?m => let h := head_of m in unfold h
      end ].

Lemma questionTimeout_ticking now c :
  preserves ticking (GameService.questionTimeout now c).
Proof. repeat tick_step. Qed.

Lemma advanceToNextQuestion_ticking now c :
  preserves ticking (GameService.advanceToNextQuestion now c).
Proof. repeat tick_step. Qed.

Lemma timerFires_ticking now c : preserves ticking (timerFires now c).
Proof.
  intros w Hw. unfold timerFires. munfold.
  destruct (timers w !! c) as [t|] eqn:Et; [|exact Hw].
  destruct (fireAt t <=? now); [|exact Hw]. simpl.
  unfold GameService.fire. destruct (callback t) eqn:Ecb.
  - assert (Hw1 : ticking (set_timerIntervals (delete c (timerIntervals w))
                             (set_timers (delete c (timers w)) w)))
      by by apply cleared_ticking.
    exact (questionTimeout_ticking now c _ Hw1).
  - apply advanceToNextQuestion_ticking.
    intros c' iv. simpl. intros H. destruct (Hw c' iv H) as (t' & Ht' & Hcb).
    exists t'. split; [|done]. rewrite lookup_delete_ne; [done|].
    intros <-. congruence.
Qed.

Lemma perform_ticking a : preserves ticking (perform a).
Proof.
  destruct a; unfold perform; try apply timerFires_ticking; repeat tick_step.
Qed.

Lemma reachable_ticking w : reachable w -> ticking w.
Proof.
  induction 1 as [|w a _ IH].
  - intros c iv. simpl. by rewrite lookup_empty.
  - pose proof (perform_ticking a w IH) as H.
    unfold step, run. by destruct (perform a w) as [[v|e] w'].
Qed.

(** ** Invariants of the engine, as its users see them *)








(** X28. No event and no timer callback deletes a room: whatever the
    action, a room that was stored before is stored after it
    ([deleteRoom] is never called; the expiry of the Redis key is outside
    the model). *)
Theorem rooms_are_never_deleted a w c :
  is_Some (redis w !! c) -> is_Some (redis (step a w) !! c).
Proof. intros H. by apply (perform_roomsStay a w). Qed.

Lemma rooms_are_never_deleted_witness :
  is_Some (redis (step (GameEnd Sample.tvSocket Sample.roomCode) Party.revealed)
           !! Sample.roomCode).
Proof.
  apply (rooms_are_never_deleted (GameEnd Sample.tvSocket Sample.roomCode)
           Party.revealed Sample.roomCode).
  vm_compute. eexists. reflexivity.
Defined.

(** X29. An action touches one room: for every action and every state
    there is a room code such that the rooms stored under all other codes
    are exactly as before. *)
Theorem an_action_changes_one_room a w :
  exists c, forall c', c' <> c -> redis (step a w) !! c' = redis w !! c'.
Proof. exact (perform_onlyRoom a w). Qed.

(** X30. In every reachable state a room whose countdown interval is
    armed has its question deadline pending: the interval is armed
    together with the deadline, and cleared when the deadline fires, when
    the countdown reaches 0 and whenever the deadline is cleared. *)
Theorem countdown_only_before_deadline w c iv :
  reachable w ->
  timerIntervals w !! c = Some iv ->
  exists t, timers w !! c = Some t /\ callback t = QuestionTimeout.
Proof. intros Hw. by apply reachable_ticking. Qed.

Lemma countdown_only_before_deadline_witness :
  exists iv,
    timerIntervals Party.asked !! Sample.roomCode = Some iv
    /\ exists t, timers Party.asked !! Sample.roomCode = Some t
                 /\ callback t = QuestionTimeout.
Proof.
  eexists. split; [vm_compute; reflexivity|].
  eapply (countdown_only_before_deadline Party.asked Sample.roomCode).
  - do 5 apply reachable_step. apply reachable_initial.
  - vm_compute. reflexivity.
Defined.
